(** * Equi7Grid: tile naming, tile classes, family tiles and pixel indexing

    A shallow embedding of [src/equi7grid/equi7grid.py] and the properties of
    its tiling engine.  The Python code is embedded function by function:
    strings are [string], integers are [Z], an exception is a value of [exn]
    carried by the [result] monad, and the attributes of [self.core] are the
    record [core.t]. *)

From Stdlib Require Import ZArith String Ascii List Bool Lia.
From Stdlib Require Import DecimalString Decimal.
From Stdlib Require Import QArith Qround Qfield Qabs Qpower Lqa.
Import ListNotations.

Local Open Scope string_scope.
Local Open Scope Z_scope.

(** ** Exceptions and the error monad *)

(** The messages with which the source raises [ValueError].  [msg1], [msg2]
    and [msg3] are the attributes of [Equi7TilingSystem] of the same names:
    a name that is not properly defined, a lower-left corner that is not a
    multiple of the tile extent, and an unknown tilecode. *)
Inductive message : Type :=
| msg1
| msg2
| msg3
| msg_resolution_badly_defined   (* decode_sampling *)
| msg_sampling_not_supported     (* Equi7Grid.__init__ *)
| msg_resolution_not_supported   (* get_tiletype *)
| msg_invalid_literal.           (* int() of a string that is no integer *)

Inductive exn : Type :=
| ValueError (m : message)
| IndexError
| KeyError
| ZeroDivisionError
| UnboundLocalError.

Inductive result (A : Type) : Type :=
| Ok (a : A)
| Raise (e : exn).
Arguments Ok {A} a.
Arguments Raise {A} e.

Definition bind {A B : Type} (r : result A) (k : A -> result B) : result B :=
  match r with
  | Ok a => k a
  | Raise e => Raise e
  end.

Declare Scope py_scope.
Delimit Scope py_scope with py.
Notation "x <- r ;; k" := (bind r (fun x => k))
  (at level 61, r at next level, right associativity) : py_scope.
Notation "'guard' b 'else_raise' e ;; k" := (if b then k else Raise e)
  (at level 61, b at level 200, e at level 200, right associativity) : py_scope.
Local Open Scope py_scope.

Definition succeeds {A : Type} (r : result A) : bool :=
  match r with Ok _ => true | Raise _ => false end.

(** ** The Python primitives the source uses

    Strings are ASCII strings; integers are unbounded. *)
Module Py.

Definition len (s : string) : Z := Z.of_nat (String.length s).

(** An index of a slice, clamped as [s[i:j]] clamps it. *)
Definition clamp (n i : Z) : Z :=
  if i <? 0 then Z.max 0 (i + n) else Z.min i n.

(** [s[lo:hi]], where [None] is an omitted bound. *)
Definition slice (s : string) (lo hi : option Z) : string :=
  let n := len s in
  let a := match lo with Some i => clamp n i | None => 0 end in
  let b := match hi with Some j => clamp n j | None => n end in
  substring (Z.to_nat a) (Z.to_nat (b - a)) s.

(** [s[i]]: a negative index counts from the end, an index out of range
    raises. *)
Definition index (s : string) (i : Z) : result ascii :=
  let n := len s in
  let k := if i <? 0 then i + n else i in
  if (0 <=? k) && (k <? n) then
    match String.get (Z.to_nat k) s with
    | Some c => Ok c
    | None => Raise IndexError
    end
  else Raise IndexError.

(** [l[i]] for a list and a non-negative constant index. *)
Definition item {A : Type} (l : list A) (i : nat) : result A :=
  match nth_error l i with
  | Some a => Ok a
  | None => Raise IndexError
  end.

(** [s.split(sep)] for a separator of one character. *)
Fixpoint split (sep : ascii) (s : string) : list string :=
  match s with
  | EmptyString => [EmptyString]
  | String c r =>
      if Ascii.eqb c sep then EmptyString :: split sep r
      else match split sep r with
           | w :: ws => String c w :: ws
           | [] => [String c EmptyString]
           end
  end.

(** [str(n)] for an integer. *)
Definition str (n : Z) : string := NilZero.string_of_int (Z.to_int n).

Fixpoint fill (k : nat) (c : ascii) (s : string) : string :=
  match k with
  | O => s
  | S k' => String c (fill k' c s)
  end.

(** [s.rjust(width, c)]. *)
Definition rjust (width : nat) (c : ascii) (s : string) : string :=
  fill (width - String.length s) c s.

(** ["{:0wd}".format(n)]: zero padding goes between the sign and the
    digits, and the sign counts in the width. *)
Definition format_0d (width : nat) (n : Z) : string :=
  if n <? 0 then String "-" (rjust (width - 1) "0" (str (Z.abs n)))
  else rjust width "0" (str n).

(** *** [int(s)] *)

Definition is_space (c : ascii) : bool :=
  let n := nat_of_ascii c in
  ((9 <=? n) && (n <=? 13) || (n =? 32))%nat.

Definition is_digit (c : ascii) : bool :=
  let n := nat_of_ascii c in ((48 <=? n) && (n <=? 57))%nat.

Definition digit_value (c : ascii) : Z := Z.of_nat (nat_of_ascii c - 48).

Fixpoint lstrip (s : string) : string :=
  match s with
  | String c r => if is_space c then lstrip r else s
  | EmptyString => EmptyString
  end.

(** Where the scanner of a decimal literal is: before the first digit, after a
    digit, after an underscore, or in the blanks that may follow. *)
Inductive scan : Type := Start | Digit | Underscore | Trailing.

Fixpoint digits (s : string) (acc : Z) (st : scan) : option Z :=
  match s with
  | EmptyString =>
      match st with
      | Digit | Trailing => Some acc
      | Start | Underscore => None
      end
  | String c r =>
      if is_digit c then
        match st with
        | Trailing => None
        | _ => digits r (10 * acc + digit_value c) Digit
        end
      else if Ascii.eqb c "_" then
        match st with
        | Digit => digits r acc Underscore
        | _ => None
        end
      else if is_space c then
        match st with
        | Digit | Trailing => digits r acc Trailing
        | _ => None
        end
      else None
  end.

(** [int(s)] in base ten: blanks around, an optional sign, digits that single
    underscores may separate.  The interpreter's limit on the number of digits
    is not modelled. *)
Definition int (s : string) : result Z :=
  let body :=
    match lstrip s with
    | String "-" r => option_map Z.opp (digits r 0 Start)
    | String "+" r => digits r 0 Start
    | r => digits r 0 Start
    end in
  match body with
  | Some n => Ok n
  | None => Raise (ValueError msg_invalid_literal)
  end.

(** [a % b] on integers: the result has the sign of [b]. *)
Definition mod_ (a b : Z) : result Z :=
  if b =? 0 then Raise ZeroDivisionError else Ok (a mod b).

(** [str(n / 1000.0)] for an integer [n]: the decimal expansion of the
    quotient with the trailing zeros of the fraction dropped but for one
    digit.  This is what the interpreter prints while the quotient has at most
    fifteen significant digits, which covers every sampling; the embedding is
    not meant beyond. *)
Definition fraction_digits (r : Z) : string :=
  if r =? 0 then "0"
  else if r mod 100 =? 0 then str (r / 100)
  else if r mod 10 =? 0 then rjust 2 "0" (str (r / 10))
  else rjust 3 "0" (str r).

Definition str_div_1000 (n : Z) : string :=
  let a := Z.abs n in
  let body := (str (a / 1000) ++ "." ++ fraction_digits (a mod 1000))%string in
  if n <? 0 then String "-" body else body.

(** [a >= b] on strings, by code points. *)
Definition str_ge (a b : string) : bool := String.leb b a.

End Py.

(** ** [Equi7Grid]: samplings and tile classes *)

(** [Equi7Grid._static_tilecodes] *)
Definition _static_tilecodes : list string := ["T6"; "T3"; "T1"].

(** [Equi7Grid._static_sampling] *)
Definition _static_sampling : list Z :=
  [6000; 3000; 1000; 800; 750; 600; 500; 400; 300; 250; 200; 150; 125; 100; 96; 80;
   75; 64; 60; 50; 48; 40; 32; 30; 25; 24; 20; 16; 10; 8; 5; 4; 2; 1].

(** [n in range(lo, hi)] for an integer [n]. *)
Definition in_range (n lo hi : Z) : bool := (lo <=? n) && (n <? hi).

(** [Equi7Grid.get_tiletype] with an explicit sampling.  The [and] of the
    source does not evaluate [% sampling] when the range test fails, so no
    division by zero can occur. *)
Definition get_tiletype (sampling : Z) : result string :=
  if in_range sampling 64 6001 && (600000 mod sampling =? 0) then Ok "T6"
  else if in_range sampling 20 61 && (300000 mod sampling =? 0) then Ok "T3"
  else if in_range sampling 1 17 && (100000 mod sampling =? 0) then Ok "T1"
  else Raise (ValueError msg_resolution_not_supported).

(** The dictionary literal of [get_tilesize]. *)
Definition tilesize_of_tiletype (tilecode : string) : result Z :=
  if String.eqb tilecode "T6" then Ok 600000
  else if String.eqb tilecode "T3" then Ok 300000
  else if String.eqb tilecode "T1" then Ok 100000
  else Raise KeyError.

(** [Equi7Grid.get_tilesize] *)
Definition get_tilesize (sampling : Z) : result (Z * Z) :=
  t1 <- get_tiletype sampling ;;
  xsize <- tilesize_of_tiletype t1 ;;
  t2 <- get_tiletype sampling ;;
  ysize <- tilesize_of_tiletype t2 ;;
  Ok (xsize, ysize).

(** ** The core of a grid and of its subgrids *)

(** The attributes of [self.core] that the source reads. *)
Module core.
Record t : Type := make {
  tag : string;
  sampling : Z;
  tiletype : string;
  tile_xsize_m : Z;
  tile_ysize_m : Z;
  tile_names_in_m : bool
}.
End core.

(** Modelled from the spec: the constructor of the base class
    [TiledProjectionSystem] (of the host framework, not among the sources),
    which fills the core of a grid with the tile class of its sampling and the
    extent of that class (spec 4.1: the class and its fixed extent follow from
    the sampling alone). *)
Definition TiledProjectionSystem_init (sampling : Z) (tag : string)
  : result core.t :=
  tiletype <- get_tiletype sampling ;;
  sizes <- get_tilesize sampling ;;
  Ok (core.make tag sampling tiletype (fst sizes) (snd sizes) false).

(** [Equi7Grid.__init__]; the grid is represented by its core.  The test
    on the static data is omitted: the data are a variable of the model. *)
Definition Equi7Grid (sampling : Z) (tile_names_in_m : bool) : result core.t :=
  guard existsb (Z.eqb sampling) _static_sampling
    else_raise ValueError msg_sampling_not_supported ;;
  c <- TiledProjectionSystem_init sampling "Equi7" ;;
  Ok (core.make (core.tag c) (core.sampling c) (core.tiletype c)
        (core.tile_xsize_m c) (core.tile_ysize_m c) tile_names_in_m).

(** [Equi7Grid.encode_sampling].  The two tests [sampling <= 999] and
    [sampling >= 1000] of the source exclude each other and one of them holds. *)
Definition encode_sampling (sampling : Z) (tile_names_in_m : bool)
  : result string :=
  if tile_names_in_m then Ok (Py.rjust 3 "0" (Py.str sampling))
  else if sampling <=? 999 then Ok (Py.rjust 3 "0" (Py.str sampling))
  else
    c0 <- Py.index (Py.str_div_1000 sampling) 0 ;;
    c2 <- Py.index (Py.str_div_1000 sampling) 2 ;;
    Ok (String c0 (String "K" (String c2 EmptyString))).

(** [Equi7Grid.decode_sampling] *)
Definition decode_sampling (sampling_str : string) (tile_names_in_m : bool)
  : result Z :=
  if tile_names_in_m then Py.int sampling_str
  else
    guard Py.len sampling_str =? 3
      else_raise ValueError msg_resolution_badly_defined ;;
    c1 <- Py.index sampling_str 1 ;;
    if Ascii.eqb c1 "K" then
      c0 <- Py.index sampling_str 0 ;;
      a <- Py.int (String c0 EmptyString) ;;
      c2 <- Py.index sampling_str 2 ;;
      b <- Py.int (String c2 EmptyString) ;;
      Ok (a * 1000 + b * 100)
    else Py.int sampling_str.

(** ** [Equi7TilingSystem]

    A tiling system is represented by its core, [self]. *)

(** The tuple that [decode_tilename] returns:
    [(subgrid_id, sampling, tile_size_m, llx, lly, tilecode)]. *)
Definition decoded : Type := (string * Z * Z * Z * Z * string)%type.

(** The test [if v % tf: raise ValueError(msg2)]. *)
Definition check_multiple (v tf : Z) : result unit :=
  r <- Py.mod_ v tf ;;
  if r =? 0 then Ok tt else Raise (ValueError msg2).

(** [Equi7TilingSystem.decode_tilename] *)
Definition decode_tilename (self : core.t) (tilename : string) : result decoded :=
  let tf := core.tile_ysize_m self / 100000 in
  if Py.len tilename =? 10 then
    (* short form *)
    c <- Py.index tilename (-1) ;;
    d <- Py.int (String c EmptyString) ;;
    let tile_size_m := d * 100000 in
    guard tile_size_m =? core.tile_xsize_m self else_raise ValueError msg1 ;;
    llx <- Py.int (Py.slice tilename (Some 1) (Some 4)) ;;
    _ <- check_multiple llx tf ;;
    lly <- Py.int (Py.slice tilename (Some 5) (Some 8)) ;;
    _ <- check_multiple lly tf ;;
    let tilecode := Py.slice tilename (Some (-2)) None in
    guard String.eqb tilecode (core.tiletype self) else_raise ValueError msg1 ;;
    let subgrid_id := core.tag self in
    let sampling := core.sampling self in
    Ok (subgrid_id, sampling, tile_size_m, llx * 100000, lly * 100000, tilecode)
  else
    (* long form *)
    let subgrid_id := Py.slice tilename (Some 0) (Some 2) in
    guard String.eqb subgrid_id (core.tag self) else_raise ValueError msg1 ;;
    let tilename_sampling := Py.split "M" (Py.slice tilename (Some 2) None) in
    token <- Py.item tilename_sampling 0 ;;
    sampling <- decode_sampling token (core.tile_names_in_m self) ;;
    tilename_remaining <- Py.item (Py.split "_" tilename) 1 ;;
    guard sampling =? core.sampling self else_raise ValueError msg1 ;;
    c <- Py.index tilename_remaining (-1) ;;
    d <- Py.int (String c EmptyString) ;;
    let tile_size_m := d * 100000 in
    guard tile_size_m =? core.tile_xsize_m self else_raise ValueError msg1 ;;
    llx <- Py.int (Py.slice tilename_remaining (Some 1) (Some 4)) ;;
    _ <- check_multiple llx tf ;;
    lly <- Py.int (Py.slice tilename_remaining (Some 5) (Some 8)) ;;
    _ <- check_multiple lly tf ;;
    let tilecode := Py.slice tilename_remaining (Some (-2)) None in
    guard String.eqb tilecode (core.tiletype self) else_raise ValueError msg1 ;;
    Ok (subgrid_id, sampling, tile_size_m, llx * 100000, lly * 100000, tilecode).

(** [Equi7TilingSystem.check_tilename]: [check] is set to [False], the name
    is decoded, [check] is set to [True] and returned. *)
Definition check_tilename (self : core.t) (tilename : string) : result bool :=
  let check := false in
  _ <- decode_tilename self tilename ;;
  let check := true in
  Ok check.

(** [Equi7TilingSystem.tilename2short] *)
Definition tilename2short (self : core.t) (tilename : string) : result string :=
  _ <- check_tilename self tilename ;;
  if Py.len tilename =? 17 then Ok (Py.slice tilename (Some 7) None)
  else Ok tilename.

(** The long form that [encode_tilename] formats first. *)
Definition longform (tag token : string) (llx lly : Z) (tilecode : string)
  : string :=
  (tag ++ token ++ "M_E" ++ Py.format_0d 3 (llx / 100000)
       ++ "N" ++ Py.format_0d 3 (lly / 100000) ++ tilecode)%string.

(** [Equi7TilingSystem.encode_tilename] *)
Definition encode_tilename (self : core.t) (llx lly sampling : Z)
    (tilecode : string) (shortform : bool) : result string :=
  token <- encode_sampling sampling (core.tile_names_in_m self) ;;
  let tilename := longform (core.tag self) token llx lly tilecode in
  if shortform then tilename2short self tilename else Ok tilename.

(** [Equi7TilingSystem._encode_tilename] *)
Definition _encode_tilename (self : core.t) (llx lly : Z) (shortform : bool)
  : result string :=
  encode_tilename self llx lly (core.sampling self) (core.tiletype self) shortform.

(** [Equi7TilingSystem.tilename2lowerleft] *)
Definition tilename2lowerleft (self : core.t) (tilename : string)
  : result (Z * Z) :=
  d <- decode_tilename self tilename ;;
  let '(_, _, _, llx, lly, _) := d in
  Ok (llx, lly).

(** [for x in l: ...] where the body may raise: the first exception ends the
    loop. *)
Fixpoint for_each {A B : Type} (f : A -> result B) (l : list A)
  : result (list B) :=
  match l with
  | [] => Ok []
  | a :: l' => b <- f a ;; bs <- for_each f l' ;; Ok (b :: bs)
  end.

(** [range(n)] *)
Definition range (n : Z) : list Z := map Z.of_nat (seq 0 (Z.to_nat n)).

(** The representative sampling of a tilecode in
    [get_congruent_tiles_from_tilename]. *)
Definition sampling_of_tiletype (target_tiletype : string) : result Z :=
  if String.eqb target_tiletype "T1" then Ok 10
  else if String.eqb target_tiletype "T3" then Ok 20
  else if String.eqb target_tiletype "T6" then Ok 500
  else Raise (ValueError msg3).

(** The block "check search input" of [get_congruent_tiles_from_tilename]:
    a given sampling is used, with or without a tilecode; a tilecode alone
    stands for its representative sampling; with neither, [sampling] is read
    before it is bound.  [None] is Python's [None]. *)
Definition searched_sampling (target_sampling : option Z)
    (target_tiletype : option string) : result Z :=
  match target_sampling, target_tiletype with
  | Some s, _ => Ok s
  | None, Some t => sampling_of_tiletype t
  | None, None => Raise UnboundLocalError
  end.

Section StaticData.

(** The packaged dataset [equi7grid.dat] is not among the sources: the
    acronyms of its subgrids and, per subgrid and tilecode, its tiles that
    cover land are variables. *)
Variable _static_subgrid_ids : list string.
Variable coverland : string -> string -> list string.

(** [Equi7Subgrid.__init__]: the core of the subgrid, which is the core of
    its tiling system, is a copy of the grid's with the continent as tag. *)
Definition Equi7Subgrid (c : core.t) (continent : string) : result core.t :=
  guard existsb (String.eqb continent) _static_subgrid_ids else_raise KeyError ;;
  Ok (core.make continent (core.sampling c) (core.tiletype c)
        (core.tile_xsize_m c) (core.tile_ysize_m c) (core.tile_names_in_m c)).

(** [grid.subgrids[sg].tilesys], from [define_subgrids]. *)
Definition subgrids (grid : core.t) (sg : string) : result core.t :=
  Equi7Subgrid grid sg.

(** [Equi7TilingSystem.get_congruent_tiles_from_tilename];
    [None] is Python's [None]. *)
Definition get_congruent_tiles_from_tilename (self : core.t)
    (tilename : string) (target_sampling : option Z)
    (target_tiletype : option string) : result (list string) :=
  let shortform :=
    match target_sampling with None => true | Some _ => false end in
  sampling <- searched_sampling target_sampling target_tiletype ;;
  target_grid <- Equi7Grid sampling false ;;
  let target_tiletype := core.tiletype target_grid in
  let target_tilesize := core.tile_xsize_m target_grid in
  d <- decode_tilename self tilename ;;
  let '(_, src_sampling, src_tile_size_m, src_llx, src_lly, src_tiletype) := d in
  if Py.str_ge target_tiletype src_tiletype then
    (* for larger tiles *)
    let t_east := (src_llx / target_tilesize) * target_tilesize in
    let t_north := (src_lly / target_tilesize) * target_tilesize in
    tilesys <- subgrids target_grid (core.tag self) ;;
    name <- encode_tilename tilesys t_east t_north sampling target_tiletype
              shortform ;;
    Ok [name]
  else
    (* for smaller tiles *)
    let n := src_tile_size_m / target_tilesize in
    for_each
      (fun xy : Z * Z =>
         let s_east := src_llx + fst xy * target_tilesize in
         let s_north := src_lly + snd xy * target_tilesize in
         tilesys <- subgrids target_grid (core.tag self) ;;
         encode_tilename tilesys s_east s_north sampling target_tiletype
           shortform)
      (list_prod (range n) (range n)).

(** [x in l] for a list of strings. *)
Definition str_in (x : string) (l : list string) : bool :=
  existsb (String.eqb x) l.

(** [Equi7TilingSystem.list_tiles_covering_land]: the dataset is indexed by
    the tag, which is a key when it is the acronym of a subgrid, and then by
    the tilecode, for which the dataset holds the sets of T6, T3 and T1. *)
Definition list_tiles_covering_land (self : core.t) : result (list string) :=
  guard str_in (core.tag self) _static_subgrid_ids else_raise KeyError ;;
  guard str_in (core.tiletype self) _static_tilecodes else_raise KeyError ;;
  Ok (coverland (core.tag self) (core.tiletype self)).

(** [Equi7TilingSystem.check_tile_covers_land].  [Ok None] is the [None] that
    Python returns when the body of the [if] is skipped. *)
Definition check_tile_covers_land (self : core.t) (tilename : string)
  : result (option bool) :=
  land_tiles <- list_tiles_covering_land self ;;
  c <- check_tilename self tilename ;;
  if c then
    short <- tilename2short self tilename ;;
    Ok (Some (str_in short land_tiles))
  else Ok None.

End StaticData.

(** ** [Equi7Tile] and pixel indices *)

(** An [Equi7Tile]: the attributes that [Tile.__init__] and
    [Equi7Tile.__init__] store.  [covers_land] holds what
    [check_tile_covers_land] returned. *)
Module tile.
Record t : Type := make {
  core : core.t;
  name : string;
  llx : Z;
  lly : Z;
  covers_land : option bool
}.
End tile.

(** [Equi7TilingSystem.create_tile] for a tile given by its name (the branch
    [name_given]); the branch for coordinates rounds them with a method of the
    host framework and is not embedded. *)
Definition create_tile (ids : list string)
    (coverland : string -> string -> list string)
    (self : core.t) (name : string) : result tile.t :=
  ll <- tilename2lowerleft self name ;;
  name <- _encode_tilename self (fst ll) (snd ll) false ;;
  covers_land <- check_tile_covers_land ids coverland self name ;;
  Ok (tile.make self name (fst ll) (snd ll) covers_land).

(** *** Numbers

    The coordinates that [xy2ij] receives and the entries of a geotransform
    are numbers of the interpreter: an [int], which is exact, or a [float],
    a binary64 double.  A finite double is the rational that it denotes; an
    operation on floats rounds its exact result to the nearest double, ties
    to even.  Overflow is not embedded: a result of 2^1024 or more, which
    the arithmetic of floats turns into an infinity and the conversion of an
    int into [OverflowError]. *)
Module Double.

(** The bits of a significand, and the exponent of the least subnormal. *)
Definition prec : Z := 53.
Definition emin : Z := -1074.

Definition pow2 (e : Z) : Q := (2 ^ e)%Q.

(** The integer nearest to [q]; of two that are as near, the even one. *)
Definition nearest_even (q : Q) : Z :=
  let f := Qfloor q in
  match (q - inject_Z f ?= 1 # 2)%Q with
  | Lt => f
  | Gt => f + 1
  | Eq => if Z.even f then f else f + 1
  end.

(** For [q > 0], the integer [l] with [2^l <= q < 2^(l+1)]. *)
Definition ilog2 (q : Q) : Z :=
  let d := Z.log2 (Qnum q) - Z.log2 (Zpos (Qden q)) in
  if Qle_bool (pow2 d) q then d else d - 1.

(** The exponent of the last bit of the double nearest to [q]. *)
Definition exponent (q : Q) : Z :=
  Z.max (ilog2 (Qabs q) - (prec - 1)) emin.

(** The double nearest to [q], ties to even. *)
Definition round (q : Q) : Q :=
  let q := Qred q in
  if Qeq_bool q 0 then 0%Q
  else
    let e := exponent q in
    Qred (inject_Z (nearest_even (q / pow2 e)) * pow2 e).

End Double.

(** A number: [PyInt n] is the int [n], [PyFloat q] the float whose value is
    the double [q]. *)
Inductive number : Type :=
| PyInt (n : Z)
| PyFloat (q : Q).

(** The literal of a float, as [500.000000000001]: the double nearest to the
    decimal. *)
Definition float_literal (q : Q) : number := PyFloat (Double.round q).

Module Num.

(** [float(a)]: an int is rounded to the nearest double. *)
Definition to_float (a : number) : Q :=
  match a with
  | PyInt n => Double.round (inject_Z n)
  | PyFloat q => q
  end.

(** [a + b], [a - b] and [a * b]: exact on two ints; otherwise both operands
    are converted to floats and the result is rounded. *)
Definition binop (int_op : Z -> Z -> Z) (float_op : Q -> Q -> Q)
    (a b : number) : number :=
  match a, b with
  | PyInt m, PyInt n => PyInt (int_op m n)
  | _, _ => PyFloat (Double.round (float_op (to_float a) (to_float b)))
  end.

Definition add : number -> number -> number := binop Z.add Qplus.
Definition sub : number -> number -> number := binop Z.sub Qminus.
Definition mul : number -> number -> number := binop Z.mul Qmult.

(** [a / b]: a float, the double nearest to the quotient; a zero divisor
    raises. *)
Definition truediv (a b : number) : result number :=
  if Qeq_bool (to_float b) 0 then Raise ZeroDivisionError
  else
    Ok (PyFloat
          (Double.round
             match a, b with
             | PyInt m, PyInt n => (inject_Z m / inject_Z n)%Q
             | _, _ => (to_float a / to_float b)%Q
             end)).

(** [np.floor(a)]; the integer is returned as a [Z]. *)
Definition floor (a : number) : Z := Qfloor (to_float a).

End Num.

Declare Scope num_scope.
Delimit Scope num_scope with num.
Bind Scope num_scope with number.
Infix "+" := Num.add : num_scope.
Infix "-" := Num.sub : num_scope.
Infix "*" := Num.mul : num_scope.

(** Modelled from the spec: [Tile.geotransform] of the host framework, the
    affine transform whose pixel size is the sampling and whose origin is the
    north-west corner, that is the lower-left corner plus the tile extent for
    the north edge (spec 4.6).  Its entries are ints, as the attributes of
    the tile are. *)
Definition geotransform (self : tile.t) : list number :=
  let c := tile.core self in
  [PyInt (tile.llx self); PyInt (core.sampling c); PyInt 0;
   PyInt (tile.lly self + core.tile_ysize_m c); PyInt 0;
   PyInt (- core.sampling c)].

(** Modelled from the spec: [Tile.geotransform_lowerleft] of the host
    framework, the transform whose origin is the lower-left corner and whose
    rows grow northward (spec 4.6). *)
Definition geotransform_lowerleft (self : tile.t) : list number :=
  let c := tile.core self in
  [PyInt (tile.llx self); PyInt (core.sampling c); PyInt 0;
   PyInt (tile.lly self); PyInt 0; PyInt (core.sampling c)].

(** [gt[k]] on the six entries of a geotransform. *)
Definition gt_ (gt : list number) (k : nat) : number := nth k gt (PyInt 0).

(** [Equi7Tile.xy2ij]; the two floors, which the source returns as floats,
    are returned as integers. *)
Definition xy2ij (self : tile.t) (x y : number) (lowerleft : bool)
  : result (Z * Z) :=
  let gt := if lowerleft then geotransform_lowerleft self
            else geotransform self in
  let g := gt_ gt in
  i <- Num.truediv
         (PyFloat (-1)
          * (g 2%nat * g 3%nat - g 0%nat * g 5%nat + g 5%nat * x
             - g 2%nat * y))%num
         (g 2%nat * g 4%nat - g 1%nat * g 5%nat)%num ;;
  j <- Num.truediv
         (PyFloat (-1)
          * (PyInt (-1) * g 1%nat * g 3%nat + g 0%nat * g 4%nat
             - g 4%nat * x + g 1%nat * y))%num
         (g 2%nat * g 4%nat - g 1%nat * g 5%nat)%num ;;
  let i := Num.floor i in
  let j := Num.floor j in
  Ok (i, j).

(** ** Vocabulary of the statements *)

(** The tiling system of the subgrid [sg] of the grid built for a sampling. *)
Definition tilesys_of (ids : list string) (sampling : Z)
    (tile_names_in_m : bool) (sg : string) : result core.t :=
  grid <- Equi7Grid sampling tile_names_in_m ;;
  subgrids ids grid sg.

Definition is_letter (c : ascii) : bool :=
  let n := nat_of_ascii c in
  ((65 <=? n) && (n <=? 90) || (97 <=? n) && (n <=? 122))%nat.

(** A subgrid tag is made of two letters. *)
Definition two_letter (tag : string) : bool :=
  match tag with
  | String a (String b EmptyString) => is_letter a && is_letter b
  | _ => false
  end.

(** The three conditions of [get_tiletype]. *)
Definition is_T6_sampling (s : Z) : Prop :=
  64 <= s <= 6000 /\ 600000 mod s = 0.
Definition is_T3_sampling (s : Z) : Prop :=
  20 <= s <= 60 /\ 300000 mod s = 0.
Definition is_T1_sampling (s : Z) : Prop :=
  1 <= s <= 16 /\ 100000 mod s = 0.

Definition exactly_one (a b c : Prop) : Prop :=
  (a /\ ~ b /\ ~ c) \/ (~ a /\ b /\ ~ c) \/ (~ a /\ ~ b /\ c).

(** A sampling that [get_tiletype] accepts. *)
Definition supported (s : Z) : Prop := exists tilecode, get_tiletype s = Ok tilecode.

(** [decode_sampling(encode_sampling(s, m), m)] *)
Definition sampling_roundtrip (s : Z) (m : bool) : result Z :=
  token <- encode_sampling s m ;;
  decode_sampling token m.

(** A value whose field in a tile name takes three characters. *)
Definition fits3 (v : Z) : bool := (-99 <=? v) && (v <=? 999).

(** The short form of the tile whose corner is [(e, n)] in units of 100 km. *)
Definition shortname (e n : Z) (tilecode : string) : string :=
  ("E" ++ Py.format_0d 3 e ++ "N" ++ Py.format_0d 3 n ++ tilecode)%string.

(** The lower-left corners of the family tiles as the specification gives
    them: one corner, rounded down to the target extent, when the target
    tiles are not smaller than the source tile, and else the [n * n] corners
    at the steps of the target extent, [n] being the ratio of the extents. *)
Definition family_corners (src_size target_size src_llx src_lly : Z)
  : list (Z * Z) :=
  if target_size <? src_size then
    let n := src_size / target_size in
    map (fun ij : Z * Z =>
           (src_llx + fst ij * target_size, src_lly + snd ij * target_size))
        (list_prod (range n) (range n))
  else
    [(src_llx / target_size * target_size, src_lly / target_size * target_size)].

Definition corner_fits3 (c : Z * Z) : bool :=
  fits3 (fst c / 100000) && fits3 (snd c / 100000).

(** ** Checks that are decided by computation *)

Definition result_is (r : result Z) (v : Z) : bool :=
  match r with Ok w => w =? v | Raise _ => false end.

(** The value that the thousands and the hundreds digit of [s] describe. *)
Definition thousands_and_hundreds (s : Z) : Z :=
  (s / 1000 mod 10) * 1000 + (s / 100 mod 10) * 100.

(** What the round trip of the sampling token is stated to do at [s]. *)
Definition sampling_roundtrip_check (s : Z) : bool :=
  result_is (sampling_roundtrip s true) s &&
  (if s <? 1000 then result_is (sampling_roundtrip s false) s
   else Bool.eqb (result_is (sampling_roundtrip s false) s)
                 (s =? thousands_and_hundreds s)).

(** No character of [s] is [c]. *)
Fixpoint no_char (c : ascii) (s : string) : bool :=
  match s with
  | EmptyString => true
  | String x r => negb (Ascii.eqb x c) && no_char c r
  end.

(** The block of a tile name that holds the coordinates and the tilecode. *)
Definition fields_block (east north tilecode : string) : string :=
  ("E" ++ east ++ "N" ++ north ++ tilecode)%string.

(** The checks that both branches of [decode_tilename] make on that block,
    and the tuple they return. *)
Definition decode_block (self : core.t) (block subgrid_id : string)
    (sampling : Z) : result decoded :=
  let tf := core.tile_ysize_m self / 100000 in
  c <- Py.index block (-1) ;;
  d <- Py.int (String c EmptyString) ;;
  let tile_size_m := d * 100000 in
  guard tile_size_m =? core.tile_xsize_m self else_raise ValueError msg1 ;;
  llx <- Py.int (Py.slice block (Some 1) (Some 4)) ;;
  _ <- check_multiple llx tf ;;
  lly <- Py.int (Py.slice block (Some 5) (Some 8)) ;;
  _ <- check_multiple lly tf ;;
  let tilecode := Py.slice block (Some (-2)) None in
  guard String.eqb tilecode (core.tiletype self) else_raise ValueError msg1 ;;
  Ok (subgrid_id, sampling, tile_size_m, llx * 100000, lly * 100000, tilecode).

(** A tilecode with the extent of its class. *)
Definition is_class (tilecode : string) (size : Z) : bool :=
  String.eqb tilecode "T6" && (size =? 600000)
  || String.eqb tilecode "T3" && (size =? 300000)
  || String.eqb tilecode "T1" && (size =? 100000).

(** A field of three characters is read back as the value it was formatted
    from, and holds no underscore. *)
Definition field_check (v : Z) : bool :=
  let s := Py.format_0d 3 v in
  (String.length s =? 3)%nat && no_char "_" s && 
  match Py.int s with Ok w => w =? v | Raise _ => false end.

(** The token of a sampling holds neither "M" nor "_" and is decoded to the
    sampling. *)
Definition token_check (m : bool) (s : Z) : bool :=
  match encode_sampling s m with
  | Ok token =>
      no_char "M" token && no_char "_" token &&
      result_is (decode_sampling token m) s &&
      ((3 <=? String.length token)%nat && (String.length token <=? 4)%nat) &&
      (if m then true else (String.length token =? 3)%nat)
  | Raise _ => false
  end.

(** The tuple that decoding gives for the corner whose fields are [e] and
    [n], after the two tests of alignment. *)
Definition decoded_fields (self : core.t) (e n : Z) : result decoded :=
  _ <- check_multiple e (core.tile_xsize_m self / 100000) ;;
  _ <- check_multiple n (core.tile_xsize_m self / 100000) ;;
  Ok (core.tag self, core.sampling self, core.tile_xsize_m self,
      e * 100000, n * 100000, core.tiletype self).

(** A core as the constructor of a grid fills it. *)
Definition class_core (self : core.t) : Prop :=
  is_class (core.tiletype self) (core.tile_xsize_m self) = true /\
  core.tile_ysize_m self = core.tile_xsize_m self.

(** [k] is the floor of [q]: the integer next below. *)
Definition is_floor (q : Q) (k : Z) : Prop :=
  (inject_Z k <= q /\ q < inject_Z (k + 1))%Q.

(** The number [a] is the integer [n], as an int or as a float. *)
Definition integral (a : number) (n : Z) : Prop :=
  a = PyInt n \/ a = PyFloat (inject_Z n).

(** A coordinate or an extent of at most 10^9 metres in absolute value. *)
Definition coordinate (v : Z) : Prop := Z.abs v <= 1000000000.

(** The row counted from the north edge as C8 words it, with the x
    coordinate of the lower-left corner: [floor((llx + E - y) / s)]. *)
Definition row_from_llx (self : tile.t) (y : Z) : Z :=
  Qfloor ((inject_Z (tile.llx self)
           + inject_Z (core.tile_ysize_m (tile.core self)) - inject_Z y)
          / inject_Z (core.sampling (tile.core self)))%Q.

(** Two subgrids, those that the docstrings of the source name, and a land
    coverage for examples. *)
Definition example_subgrid_ids : list string := ["EU"; "SA"].
Definition example_coverland (sg tilecode : string) : list string :=
  if String.eqb sg "EU" && String.eqb tilecode "T6"
  then ["E000N000T6"; "E006N012T6"] else [].

(** The tile "EU500M_E006N012T6" of the grid of sampling 500. *)
Definition example_tile : tile.t :=
  tile.make (core.make "EU" 500 "T6" 600000 600000 false)
    "EU500M_E006N012T6" 600000 1200000 (Some true).

(** The tile "EU500M_E000N000T6" of the same grid. *)
Definition origin_tile : tile.t :=
  tile.make (core.make "EU" 500 "T6" 600000 600000 false)
    "EU500M_E000N000T6" 0 0 (Some true).

(** ** Further functions of the source *)

(** Modelled from the spec: [TilingSystem.round_xy2lowerleft] of the host
    framework, which rounds a coordinate down to a multiple of the tile
    extent (spec 4.4: [llx = floor(x / tile_extent) * tile_extent]).
    Coordinates are integers here, as the docstrings of the callers say. *)
Definition round_xy2lowerleft (self : core.t) (x y : Z) : Z * Z :=
  (x / core.tile_xsize_m self * core.tile_xsize_m self,
   y / core.tile_ysize_m self * core.tile_ysize_m self).

(** [Equi7TilingSystem.point2tilename] *)
Definition point2tilename (self : core.t) (x y : Z) (shortform : bool)
  : result string :=
  let ll := round_xy2lowerleft self x y in
  _encode_tilename self (fst ll) (snd ll) shortform.

(** [Equi7TilingSystem.create_tile] for a tile given by the coordinates of one
    point in it (the branch [x_y_given] with scalars): the list of the rounded
    corners has one element, and the tile built for it is returned.  The
    call with arrays orders the tiles by the iteration of a [set] and is not
    embedded. *)
Definition create_tile_xy (ids : list string)
    (coverland : string -> string -> list string)
    (self : core.t) (x y : Z) : result tile.t :=
  let ll := round_xy2lowerleft self x y in
  name <- _encode_tilename self (fst ll) (snd ll) false ;;
  covers_land <- check_tile_covers_land ids coverland self name ;;
  Ok (tile.make self name (fst ll) (snd ll) covers_land).

(** [Equi7Grid.create_tile]: the tiling system is looked up with the first
    two characters of the name. *)
Definition Equi7Grid_create_tile (ids : list string)
    (coverland : string -> string -> list string)
    (grid : core.t) (name : string) : result tile.t :=
  tilesys <- subgrids ids grid (Py.slice name (Some 0) (Some 2)) ;;
  create_tile ids coverland tilesys name.

(** The property [Equi7Tile.shortname]: [self.name[7:]]. *)
Definition Equi7Tile_shortname (self : tile.t) : string :=
  Py.slice (tile.name self) (Some 7) None.

(** Checks of the further properties that are decided by computation. *)

Definition result_str_is (r : result string) (v : string) : bool :=
  match r with Ok w => String.eqb w v | Raise _ => false end.

(** The token of [s] is decoded to a sampling whose token it is again; in the
    kilometre form it has three characters. *)
Definition token_stable_check (m : bool) (s : Z) : bool :=
  match encode_sampling s m with
  | Ok token =>
      match decode_sampling token m with
      | Ok s' => result_str_is (encode_sampling s' m) token
      | Raise _ => false
      end
      && (if m then (3 <=? String.length token)%nat
          else (String.length token =? 3)%nat)
  | Raise _ => false
  end.

(** * Properties *)

(** ** Tile classes *)

Ltac reflect_tests :=
  repeat match goal with
    | H : (_ && _)%bool = true |- _ => apply andb_true_iff in H; destruct H
    | H : (_ && _)%bool = false |- _ => apply andb_false_iff in H
    | H : (_ <=? _) = true |- _ => apply Z.leb_le in H
    | H : (_ <=? _) = false |- _ => apply Z.leb_gt in H
    | H : (_ <? _) = true |- _ => apply Z.ltb_lt in H
    | H : (_ <? _) = false |- _ => apply Z.ltb_ge in H
    | H : (_ =? _) = true |- _ => apply Z.eqb_eq in H
    | H : (_ =? _) = false |- _ => apply Z.eqb_neq in H
    end.

Lemma get_tiletype_cases (s : Z) :
  (is_T6_sampling s /\ get_tiletype s = Ok "T6") \/
  (~ is_T6_sampling s /\ is_T3_sampling s /\ get_tiletype s = Ok "T3") \/
  (~ is_T6_sampling s /\ ~ is_T3_sampling s /\ is_T1_sampling s /\
   get_tiletype s = Ok "T1") \/
  (~ is_T6_sampling s /\ ~ is_T3_sampling s /\ ~ is_T1_sampling s /\
   get_tiletype s = Raise (ValueError msg_resolution_not_supported)).
Proof.
  unfold get_tiletype, in_range, is_T6_sampling, is_T3_sampling, is_T1_sampling.
  destruct ((64 <=? s) && (s <? 6001) && (600000 mod s =? 0)) eqn:H6.
  { left. reflect_tests. repeat split; trivial; lia. }
  destruct ((20 <=? s) && (s <? 61) && (300000 mod s =? 0)) eqn:H3.
  { right; left. reflect_tests.
    repeat split; trivial; try lia; try (intros [? ?]; lia). }
  destruct ((1 <=? s) && (s <? 17) && (100000 mod s =? 0)) eqn:H1.
  { right; right; left. reflect_tests.
    repeat split; trivial; try lia; try (intros [? ?]; lia). }
  right; right; right.
  repeat split; trivial; intros [? ?]; reflect_tests;
    repeat match goal with
      | H : _ \/ _ |- _ => destruct H
      end; reflect_tests; lia.
Qed.

Lemma tile_classes_disjoint (s : Z) :
  ~ (is_T6_sampling s /\ is_T3_sampling s) /\
  ~ (is_T6_sampling s /\ is_T1_sampling s) /\
  ~ (is_T3_sampling s /\ is_T1_sampling s).
Proof.
  unfold is_T6_sampling, is_T3_sampling, is_T1_sampling.
  repeat split; intros [[? ?] [? ?]]; lia.
Qed.

(** C2.  For every integer sampling, [get_tiletype] returns "T6", the class
    of extent 600000 m, when the sampling is in [64, 6000] and divides 600000;
    "T3", of extent 300000 m, when it is in [20, 60] and divides 300000; "T1",
    of extent 100000 m, when it is in [1, 16] and divides 100000; and it raises
    the error of an unsupported sampling when none of the three conditions
    holds.  No two of the conditions hold together. *)
Theorem get_tiletype_contract : forall sampling : Z,
  (is_T6_sampling sampling ->
     get_tiletype sampling = Ok "T6" /\
     get_tilesize sampling = Ok (600000, 600000)) /\
  (is_T3_sampling sampling ->
     get_tiletype sampling = Ok "T3" /\
     get_tilesize sampling = Ok (300000, 300000)) /\
  (is_T1_sampling sampling ->
     get_tiletype sampling = Ok "T1" /\
     get_tilesize sampling = Ok (100000, 100000)) /\
  (~ is_T6_sampling sampling -> ~ is_T3_sampling sampling ->
   ~ is_T1_sampling sampling ->
     get_tiletype sampling = Raise (ValueError msg_resolution_not_supported)) /\
  ~ (is_T6_sampling sampling /\ is_T3_sampling sampling) /\
  ~ (is_T6_sampling sampling /\ is_T1_sampling sampling) /\
  ~ (is_T3_sampling sampling /\ is_T1_sampling sampling).
Proof.
  intro s.
  pose proof (tile_classes_disjoint s) as (D63 & D61 & D31).
  assert (T : forall c, get_tiletype s = Ok c ->
              get_tilesize s = (x <- tilesize_of_tiletype c ;;
                                y <- tilesize_of_tiletype c ;; Ok (x, y))).
  { intros c E. unfold get_tilesize. rewrite E. simpl.
    destruct (tilesize_of_tiletype c); reflexivity. }
  destruct (get_tiletype_cases s)
    as [(C6 & E) | [(N6 & C3 & E) | [(N6 & N3 & C1 & E) | (N6 & N3 & N1 & E)]]];
    repeat split; trivial; intros;
    try (rewrite (T _ E); reflexivity);
    try tauto.
Qed.

Lemma get_tiletype_contract_witness :
  get_tiletype 500 = Ok "T6" /\ get_tilesize 500 = Ok (600000, 600000).
Proof.
  apply (proj1 (get_tiletype_contract 500)).
  unfold is_T6_sampling. split; [lia | reflexivity].
Defined.

Lemma static_sampling_supported (s : Z) :
  In s _static_sampling -> exists tilecode, get_tiletype s = Ok tilecode.
Proof.
  unfold _static_sampling. simpl. intro H.
  repeat (destruct H as [<- | H]; [ eexists; reflexivity | ]).
  contradiction.
Qed.

(** C3.  Every sampling of the enumeration [_static_sampling] (125, 96, 48
    and 24 among them) satisfies exactly one of the three conditions of
    [get_tiletype]: for an enumerated sampling [get_tiletype] does not reach
    its error branch and returns one of the three tilecodes. *)
Theorem static_sampling_has_one_tiletype : forall s : Z,
  In s _static_sampling ->
  exactly_one (is_T6_sampling s) (is_T3_sampling s) (is_T1_sampling s) /\
  get_tiletype s <> Raise (ValueError msg_resolution_not_supported) /\
  exists tilecode, get_tiletype s = Ok tilecode /\ In tilecode _static_tilecodes.
Proof.
  intros s H.
  assert (E : exists tilecode,
             get_tiletype s = Ok tilecode /\ In tilecode _static_tilecodes).
  { unfold _static_sampling in H. simpl in H.
    repeat (destruct H as [<- | H];
            [ eexists; split; [ reflexivity | simpl; tauto ] | ]).
    contradiction. }
  pose proof (tile_classes_disjoint s) as (D63 & D61 & D31).
  destruct E as (c & E & I).
  split; [ | split; [ congruence | eauto ] ].
  unfold exactly_one.
  destruct (get_tiletype_cases s)
    as [(C6 & _) | [(N6 & C3 & _) | [(N6 & N3 & C1 & _) | (_ & _ & _ & R)]]];
    [ left | right; left | right; right | congruence ]; tauto.
Qed.

Lemma static_sampling_has_one_tiletype_witness :
  exactly_one (is_T6_sampling 125) (is_T3_sampling 125) (is_T1_sampling 125) /\
  get_tiletype 125 <> Raise (ValueError msg_resolution_not_supported) /\
  exists tilecode, get_tiletype 125 = Ok tilecode /\ In tilecode _static_tilecodes.
Proof.
  apply (static_sampling_has_one_tiletype 125).
  unfold _static_sampling. simpl. tauto.
Defined.

(** ** The sampling token *)

Lemma result_is_eq (r : result Z) (v : Z) : result_is r v = true <-> r = Ok v.
Proof.
  destruct r as [w | e]; simpl; split; intro H; try discriminate.
  - apply Z.eqb_eq in H. congruence.
  - injection H as ->. apply Z.eqb_refl.
Qed.

Lemma in_range_list (n k : Z) : 0 <= k < n -> In k (range n).
Proof.
  intro H. unfold range. apply in_map_iff.
  exists (Z.to_nat k). split; [ lia | ].
  apply in_seq. lia.
Qed.

Lemma sampling_roundtrip_checked :
  forallb sampling_roundtrip_check (range 10000) = true.
Proof. vm_compute. reflexivity. Qed.

Lemma sampling_roundtrip_upto_9999 (s : Z) :
  0 <= s <= 9999 ->
  sampling_roundtrip s true = Ok s /\
  (s < 1000 -> sampling_roundtrip s false = Ok s) /\
  (1000 <= s ->
     (sampling_roundtrip s false = Ok s <-> s = thousands_and_hundreds s)).
Proof.
  intro H.
  pose proof sampling_roundtrip_checked as A.
  rewrite forallb_forall in A.
  specialize (A s (in_range_list 10000 s ltac:(lia))).
  unfold sampling_roundtrip_check in A.
  apply andb_true_iff in A. destruct A as [A B].
  apply result_is_eq in A.
  split; [ exact A | ].
  split; intro L.
  - apply Z.ltb_lt in L. rewrite L in B. now apply result_is_eq.
  - assert (L' : (s <? 1000) = false) by (apply Z.ltb_ge; lia).
    rewrite L' in B. apply Bool.eqb_prop in B.
    rewrite <- result_is_eq, B. apply Z.eqb_eq.
Qed.

Lemma supported_bounds (s : Z) : supported s -> 1 <= s <= 6000.
Proof.
  intros [c E].
  destruct (get_tiletype_cases s)
    as [(C & _) | [(_ & C & _) | [(_ & _ & C & _) | (_ & _ & _ & R)]]];
    [ destruct C; lia .. | congruence ].
Qed.

(** C7.  For every supported sampling, decoding the token of the sampling
    gives the sampling back in the metres form ([tile_names_in_m] true).  In
    the other form the round trip holds for every supported sampling below
    1000 and, for a supported sampling of 1000 or more, whose token is
    "<digit>K<digit>", exactly when the sampling is the value that its
    thousands and hundreds digits describe: 1500, 3000 and 6000 come back,
    1234 comes back as 1200. *)
Theorem sampling_token_roundtrip : forall s : Z,
  supported s ->
  sampling_roundtrip s true = Ok s /\
  (s < 1000 -> sampling_roundtrip s false = Ok s) /\
  (1000 <= s ->
     (sampling_roundtrip s false = Ok s <-> s = thousands_and_hundreds s)) /\
  sampling_roundtrip 1500 false = Ok 1500 /\
  sampling_roundtrip 3000 false = Ok 3000 /\
  sampling_roundtrip 6000 false = Ok 6000 /\
  encode_sampling 1500 false = Ok "1K5" /\
  sampling_roundtrip 1234 true = Ok 1234 /\
  sampling_roundtrip 1234 false = Ok 1200.
Proof.
  intros s S. apply supported_bounds in S.
  destruct (sampling_roundtrip_upto_9999 s ltac:(lia)) as (A & B & C).
  repeat split; trivial; try apply C; trivial.
Qed.

Lemma sampling_token_roundtrip_witness :
  sampling_roundtrip 1250 true = Ok 1250 /\
  (1250 < 1000 -> sampling_roundtrip 1250 false = Ok 1250) /\
  (1000 <= 1250 ->
     (sampling_roundtrip 1250 false = Ok 1250 <->
      1250 = thousands_and_hundreds 1250)) /\
  sampling_roundtrip 1500 false = Ok 1500 /\
  sampling_roundtrip 3000 false = Ok 3000 /\
  sampling_roundtrip 6000 false = Ok 6000 /\
  encode_sampling 1500 false = Ok "1K5" /\
  sampling_roundtrip 1234 true = Ok 1234 /\
  sampling_roundtrip 1234 false = Ok 1200.
Proof.
  apply (sampling_token_roundtrip 1250).
  exists "T6". reflexivity.
Defined.

(** ** Strings: lengths, slices and splits *)

Lemma len_cons (c : ascii) (s : string) : Py.len (String c s) = 1 + Py.len s.
Proof. unfold Py.len. simpl String.length. lia. Qed.

Lemma len_app (a b : string) : Py.len (a ++ b) = Py.len a + Py.len b.
Proof.
  induction a as [ | c a IH]; simpl append.
  - unfold Py.len at 2. simpl. lia.
  - rewrite !len_cons, IH. lia.
Qed.

Lemma len_nonneg (s : string) : 0 <= Py.len s.
Proof. unfold Py.len. lia. Qed.

Lemma substring_full (s : string) : substring 0 (String.length s) s = s.
Proof. induction s as [ | c s IH]; simpl; [ | rewrite IH ]; reflexivity. Qed.

Lemma substring_skip (a b : string) (m : nat) :
  substring (String.length a) m (a ++ b) = substring 0 m b.
Proof. induction a as [ | c a IH]; simpl; [ | rewrite IH ]; reflexivity. Qed.

Lemma substring_prefix (a b : string) :
  substring 0 (String.length a) (a ++ b) = a.
Proof. induction a as [ | c a IH]; simpl; [ destruct b | rewrite IH ]; reflexivity. Qed.

Lemma slice_prefix (a b : string) (j : Z) :
  j = Py.len a -> Py.slice (a ++ b) (Some 0) (Some j) = a.
Proof.
  intros ->. unfold Py.slice, Py.clamp. rewrite len_app.
  pose proof (len_nonneg a). pose proof (len_nonneg b).
  change (0 <? 0) with false. cbv iota.
  destruct (Py.len a <? 0) eqn:E; [ apply Z.ltb_lt in E; lia | ].
  rewrite (Z.min_l 0) by lia. rewrite Z.min_l by lia.
  rewrite Z.sub_0_r. unfold Py.len. rewrite Nat2Z.id.
  apply substring_prefix.
Qed.

Lemma slice_suffix (a b : string) (i : Z) :
  i = Py.len a -> Py.slice (a ++ b) (Some i) None = b.
Proof.
  intros ->. unfold Py.slice, Py.clamp. rewrite len_app.
  pose proof (len_nonneg a). pose proof (len_nonneg b).
  destruct (Py.len a <? 0) eqn:E; [ apply Z.ltb_lt in E; lia | ].
  rewrite Z.min_l by lia.
  replace (Py.len a + Py.len b - Py.len a) with (Py.len b) by lia.
  unfold Py.len. rewrite !Nat2Z.id, substring_skip.
  apply substring_full.
Qed.

Lemma no_char_app (c : ascii) (a b : string) :
  no_char c (a ++ b) = no_char c a && no_char c b.
Proof.
  induction a as [ | x a IH]; simpl; [ reflexivity | ].
  rewrite IH. apply andb_assoc.
Qed.

Lemma split_no_char (sep : ascii) (s : string) :
  no_char sep s = true -> Py.split sep s = [s].
Proof.
  induction s as [ | x s IH]; simpl; intro H; [ reflexivity | ].
  apply andb_true_iff in H. destruct H as [N H].
  apply negb_true_iff in N. rewrite N, (IH H). reflexivity.
Qed.

Lemma split_app (sep : ascii) (a b : string) :
  no_char sep a = true ->
  Py.split sep (a ++ String sep b) = a :: Py.split sep b.
Proof.
  induction a as [ | x a IH]; simpl; intro H.
  - rewrite Ascii.eqb_refl. reflexivity.
  - apply andb_true_iff in H. destruct H as [N H].
    apply negb_true_iff in N. rewrite N, (IH H). reflexivity.
Qed.

Lemma string_length2 (s : string) :
  String.length s = 2%nat -> exists a b, s = String a (String b EmptyString).
Proof.
  destruct s as [ | a [ | b [ | c s]]]; simpl; intro H; try discriminate.
  eauto.
Qed.

Lemma string_length3 (s : string) :
  String.length s = 3%nat ->
  exists a b c, s = String a (String b (String c EmptyString)).
Proof.
  destruct s as [ | a [ | b [ | c [ | d s]]]]; simpl; intro H; try discriminate.
  eauto.
Qed.

Lemma fields_block_slices (E3 N3 TT : string) :
  String.length E3 = 3%nat -> String.length N3 = 3%nat ->
  String.length TT = 2%nat ->
  let r := fields_block E3 N3 TT in
  Py.len r = 10 /\
  Py.slice r (Some 1) (Some 4) = E3 /\
  Py.slice r (Some 5) (Some 8) = N3 /\
  Py.slice r (Some (-2)) None = TT /\
  Py.index r (-1) = Py.index TT 1.
Proof.
  intros HE HN HT.
  destruct (string_length3 E3 HE) as (a & b & c & ->).
  destruct (string_length3 N3 HN) as (d & e & f & ->).
  destruct (string_length2 TT HT) as (g & h & ->).
  repeat split.
Qed.

Lemma no_char_fields_block (E3 N3 TT : string) :
  no_char "_" E3 = true -> no_char "_" N3 = true -> no_char "_" TT = true ->
  no_char "_" (fields_block E3 N3 TT) = true.
Proof.
  intros HE HN HT. unfold fields_block.
  rewrite !no_char_app, HE, HN, HT. reflexivity.
Qed.

(** ** Fields and tokens *)

Lemma fields_checked :
  forallb field_check (map (fun k => k - 99) (range 1099)) = true.
Proof. vm_compute. reflexivity. Qed.

Lemma field_of_fits3 (v : Z) :
  fits3 v = true ->
  String.length (Py.format_0d 3 v) = 3%nat /\
  no_char "_" (Py.format_0d 3 v) = true /\
  Py.int (Py.format_0d 3 v) = Ok v.
Proof.
  intro F. unfold fits3 in F. reflect_tests.
  pose proof fields_checked as A.
  rewrite forallb_forall in A.
  assert (I : In v (map (fun k => k - 99) (range 1099))).
  { apply in_map_iff. exists (v + 99). split; [ lia | ].
    apply in_range_list. lia. }
  specialize (A v I). unfold field_check in A.
  apply andb_true_iff in A. destruct A as [A C].
  apply andb_true_iff in A. destruct A as [A B].
  apply Nat.eqb_eq in A.
  repeat split; trivial.
  destruct (Py.int (Py.format_0d 3 v)) as [w | ]; [ | discriminate ].
  apply Z.eqb_eq in C. congruence.
Qed.

Lemma tokens_checked :
  forallb (token_check true) _static_sampling = true /\
  forallb (token_check false) _static_sampling = true.
Proof. split; vm_compute; reflexivity. Qed.

Lemma token_of_static (m : bool) (s : Z) :
  In s _static_sampling ->
  exists token,
    encode_sampling s m = Ok token /\
    no_char "M" token = true /\ no_char "_" token = true /\
    decode_sampling token m = Ok s /\
    (3 <= Py.len token <= 4) /\
    (m = false -> Py.len token = 3).
Proof.
  intro I.
  assert (A : token_check m s = true).
  { destruct tokens_checked as [T F].
    destruct m; [ rewrite forallb_forall in T | rewrite forallb_forall in F ];
      auto. }
  unfold token_check in A.
  destruct (encode_sampling s m) as [token | ]; [ | discriminate ].
  exists token.
  repeat match goal with
    | H : (_ && _)%bool = true |- _ => apply andb_true_iff in H; destruct H
    end.
  repeat match goal with
    | H : (_ <=? _)%nat = true |- _ => apply Nat.leb_le in H
    end.
  unfold Py.len.
  repeat split; trivial; try lia.
  - now apply result_is_eq.
  - intros ->.
    match goal with H : (_ =? _)%nat = true |- _ => apply Nat.eqb_eq in H end.
    lia.
Qed.

(** ** Grids and their tiling systems *)

Lemma is_class_cases (tilecode : string) (size : Z) :
  is_class tilecode size = true ->
  (tilecode = "T6" /\ size = 600000) \/
  (tilecode = "T3" /\ size = 300000) \/
  (tilecode = "T1" /\ size = 100000).
Proof.
  unfold is_class. intro H.
  repeat match goal with
    | H : (_ || _)%bool = true |- _ => apply orb_true_iff in H; destruct H
    | H : (_ && _)%bool = true |- _ => apply andb_true_iff in H; destruct H
    | H : String.eqb _ _ = true |- _ => apply String.eqb_eq in H
    | H : (_ =? _) = true |- _ => apply Z.eqb_eq in H
    end; auto.
Qed.

Lemma class_of_tiletype (s : Z) (tilecode : string) :
  get_tiletype s = Ok tilecode ->
  exists size, tilesize_of_tiletype tilecode = Ok size /\
               is_class tilecode size = true /\
               get_tilesize s = Ok (size, size).
Proof.
  intro E. unfold get_tilesize. rewrite E.
  destruct (get_tiletype_cases s)
    as [(_ & R) | [(_ & _ & R) | [(_ & _ & _ & R) | (_ & _ & _ & R)]]];
    rewrite R in E; inversion E; subst; eexists; repeat split.
Qed.

Lemma static_sampling_in (s : Z) :
  existsb (Z.eqb s) _static_sampling = true <-> In s _static_sampling.
Proof.
  rewrite existsb_exists. split.
  - intros (x & I & E). apply Z.eqb_eq in E. now subst.
  - intro I. exists s. split; [ exact I | apply Z.eqb_refl ].
Qed.

Lemma Equi7Grid_inv (s : Z) (m : bool) (grid : core.t) :
  Equi7Grid s m = Ok grid ->
  In s _static_sampling /\
  exists tilecode size,
    get_tiletype s = Ok tilecode /\
    tilesize_of_tiletype tilecode = Ok size /\
    is_class tilecode size = true /\
    grid = core.make "Equi7" s tilecode size size m.
Proof.
  unfold Equi7Grid, TiledProjectionSystem_init. intro H.
  destruct (existsb (Z.eqb s) _static_sampling) eqn:I; [ | discriminate ].
  apply static_sampling_in in I. split; [ exact I | ].
  destruct (get_tiletype s) as [tilecode | ] eqn:E; [ | discriminate ].
  destruct (class_of_tiletype s tilecode E) as (size & S & C & G).
  simpl in H. rewrite G in H. simpl in H. inversion H.
  exists tilecode, size. repeat split; trivial.
Qed.

Lemma Equi7Grid_static (s : Z) (m : bool) :
  In s _static_sampling ->
  exists tilecode size,
    get_tiletype s = Ok tilecode /\
    tilesize_of_tiletype tilecode = Ok size /\
    is_class tilecode size = true /\
    Equi7Grid s m = Ok (core.make "Equi7" s tilecode size size m).
Proof.
  intro I.
  destruct (static_sampling_supported s I) as (tilecode & E).
  destruct (class_of_tiletype s tilecode E) as (size & S & C & G).
  exists tilecode, size. repeat split; trivial.
  unfold Equi7Grid, TiledProjectionSystem_init.
  rewrite (proj2 (static_sampling_in s) I), E. simpl. rewrite G. reflexivity.
Qed.

Lemma str_in_iff (x : string) (l : list string) :
  existsb (String.eqb x) l = true <-> In x l.
Proof.
  rewrite existsb_exists. split.
  - intros (y & I & E). apply String.eqb_eq in E. now subst.
  - intro I. exists x. split; [ exact I | apply String.eqb_refl ].
Qed.

Lemma tilesys_of_inv (ids : list string) (s : Z) (m : bool) (sg : string)
    (self : core.t) :
  tilesys_of ids s m sg = Ok self ->
  In s _static_sampling /\ In sg ids /\
  exists tilecode size,
    get_tiletype s = Ok tilecode /\
    tilesize_of_tiletype tilecode = Ok size /\
    is_class tilecode size = true /\
    self = core.make sg s tilecode size size m.
Proof.
  unfold tilesys_of. intro H.
  destruct (Equi7Grid s m) as [grid | ] eqn:G; [ | discriminate ].
  destruct (Equi7Grid_inv s m grid G) as (I & tilecode & size & E & S & C & ->).
  simpl in H. unfold subgrids, Equi7Subgrid in H.
  destruct (existsb (String.eqb sg) ids) eqn:M; [ | discriminate ].
  apply str_in_iff in M. inversion H.
  repeat split; trivial. exists tilecode, size. repeat split; trivial.
Qed.

(** ** Decoding the names that [encode_tilename] formats *)

Lemma decode_tilename_unfold (self : core.t) (tilename : string) :
  decode_tilename self tilename =
  if Py.len tilename =? 10 then
    decode_block self tilename (core.tag self) (core.sampling self)
  else
    let subgrid_id := Py.slice tilename (Some 0) (Some 2) in
    guard String.eqb subgrid_id (core.tag self) else_raise ValueError msg1 ;;
    token <- Py.item (Py.split "M" (Py.slice tilename (Some 2) None)) 0 ;;
    sampling <- decode_sampling token (core.tile_names_in_m self) ;;
    tilename_remaining <- Py.item (Py.split "_" tilename) 1 ;;
    guard sampling =? core.sampling self else_raise ValueError msg1 ;;
    decode_block self tilename_remaining subgrid_id sampling.
Proof. reflexivity. Qed.

(** The result of decoding a name whose fields are [e] and [n]: the two
    tests of alignment, then the tuple. *)
Lemma decode_block_fields (self : core.t) (e n : Z) (id : string) (s : Z) :
  is_class (core.tiletype self) (core.tile_xsize_m self) = true ->
  core.tile_ysize_m self = core.tile_xsize_m self ->
  fits3 e = true -> fits3 n = true ->
  decode_block self
    (fields_block (Py.format_0d 3 e) (Py.format_0d 3 n) (core.tiletype self))
    id s =
  (_ <- check_multiple e (core.tile_xsize_m self / 100000) ;;
   _ <- check_multiple n (core.tile_xsize_m self / 100000) ;;
   Ok (id, s, core.tile_xsize_m self, e * 100000, n * 100000,
       core.tiletype self)).
Proof.
  intros C Y Fe Fn.
  destruct (field_of_fits3 e Fe) as (Le & _ & Ie).
  destruct (field_of_fits3 n Fn) as (Ln & _ & In_).
  destruct self as [tag s0 tilecode xs ys m]. simpl in *. subst ys.
  unfold decode_block. cbn [core.tile_ysize_m core.tile_xsize_m core.tiletype].
  destruct (is_class_cases _ _ C) as [[-> ->] | [[-> ->] | [-> ->]]];
    match goal with
    | |- context [fields_block ?E ?N ?T] =>
        destruct (fields_block_slices E N T Le Ln eq_refl)
          as (_ & S1 & S2 & S3 & I)
    end;
    rewrite I, S1, S2, S3, Ie, In_; cbn [bind]; 
    destruct (check_multiple e _) as [ [] | ]; cbn [bind]; trivial;
    destruct (check_multiple n _) as [ [] | ]; cbn [bind]; trivial.
Qed.

Lemma append_assoc (a b c : string) : ((a ++ b) ++ c = a ++ (b ++ c))%string.
Proof. induction a as [ | x a IH]; simpl; [ | rewrite IH ]; reflexivity. Qed.

Lemma is_letter_not_underscore (c : ascii) :
  is_letter c = true -> Ascii.eqb c "_" = false.
Proof.
  intro L. apply Ascii.eqb_neq. intros ->. discriminate L.
Qed.

Lemma two_letter_inv (tag : string) :
  two_letter tag = true ->
  Py.len tag = 2 /\ no_char "_" tag = true.
Proof.
  destruct tag as [ | a [ | b [ | c tag]]]; simpl; intro H; try discriminate.
  apply andb_true_iff in H. destruct H as [A B].
  rewrite (is_letter_not_underscore a A), (is_letter_not_underscore b B).
  split; reflexivity.
Qed.

(** The long form is the tag, the token, "M_" and the block of the fields. *)
Lemma longform_block (tag token : string) (llx lly : Z) (tilecode : string) :
  longform tag token llx lly tilecode =
  (tag ++ token ++ String "M" (String "_"
     (fields_block (Py.format_0d 3 (llx / 100000))
                   (Py.format_0d 3 (lly / 100000)) tilecode)))%string.
Proof. reflexivity. Qed.

Lemma shortname_block (e n : Z) (tilecode : string) :
  shortname e n tilecode =
  fields_block (Py.format_0d 3 e) (Py.format_0d 3 n) tilecode.
Proof. reflexivity. Qed.

(** Decoding a name in long form whose tag is the tiling system's and whose
    token is decoded to some sampling: the sampling is compared with the
    tiling system's, then the block is decoded. *)
Lemma decode_long_prefix (self : core.t) (token block : string) (s : Z) :
  two_letter (core.tag self) = true ->
  no_char "M" token = true -> no_char "_" token = true ->
  no_char "_" block = true -> Py.len block = 10 ->
  decode_sampling token (core.tile_names_in_m self) = Ok s ->
  decode_tilename self
    (core.tag self ++ token ++ String "M" (String "_" block))%string =
  if s =? core.sampling self
  then decode_block self block (core.tag self) s
  else Raise (ValueError msg1).
Proof.
  intros T NM NU NB LB D.
  destruct (two_letter_inv _ T) as [LT NT].
  rewrite decode_tilename_unfold.
  assert (L : Py.len (core.tag self ++ token ++ String "M" (String "_" block))
              = 14 + Py.len token).
  { rewrite !len_app, !len_cons, LT, LB. lia. }
  pose proof (len_nonneg token) as P.
  destruct (_ =? 10) eqn:E; [ apply Z.eqb_eq in E; lia | clear E ].
  cbv zeta.
  rewrite (slice_prefix (core.tag self) _ 2) by (symmetry; exact LT).
  rewrite String.eqb_refl.
  rewrite (slice_suffix (core.tag self) _ 2) by (symmetry; exact LT).
  rewrite (split_app "M" token _ NM). cbn [Py.item nth_error bind].
  rewrite D. cbn [bind].
  replace (core.tag self ++ token ++ String "M" (String "_" block))%string
    with ((core.tag self ++ token ++ "M") ++ String "_" block)%string
    by (rewrite !append_assoc; reflexivity).
  rewrite (split_app "_") by (rewrite !no_char_app, NT, NU; reflexivity).
  rewrite (split_no_char "_" block NB). cbn [Py.item nth_error bind].
  reflexivity.
Qed.

Lemma decode_shortname (self : core.t) (e n : Z) :
  class_core self -> fits3 e = true -> fits3 n = true ->
  decode_tilename self (shortname e n (core.tiletype self)) =
  decoded_fields self e n.
Proof.
  intros [C Y] Fe Fn.
  destruct (field_of_fits3 e Fe) as (Le & _ & _).
  destruct (field_of_fits3 n Fn) as (Ln & _ & _).
  rewrite decode_tilename_unfold, shortname_block.
  assert (LT : String.length (core.tiletype self) = 2%nat).
  { destruct (is_class_cases _ _ C) as [[-> _] | [[-> _] | [-> _]]];
      reflexivity. }
  destruct (fields_block_slices _ _ _ Le Ln LT) as (L & _).
  rewrite L. change (10 =? 10) with true. cbv iota.
  now apply decode_block_fields.
Qed.

Lemma decode_longform (self : core.t) (token : string) (llx lly : Z) :
  class_core self -> two_letter (core.tag self) = true ->
  no_char "M" token = true -> no_char "_" token = true ->
  decode_sampling token (core.tile_names_in_m self) = Ok (core.sampling self) ->
  fits3 (llx / 100000) = true -> fits3 (lly / 100000) = true ->
  decode_tilename self
    (longform (core.tag self) token llx lly (core.tiletype self)) =
  decoded_fields self (llx / 100000) (lly / 100000).
Proof.
  intros [C Y] T NM NU D Fe Fn.
  destruct (field_of_fits3 _ Fe) as (Le & Ue & _).
  destruct (field_of_fits3 _ Fn) as (Ln & Un & _).
  assert (LT : String.length (core.tiletype self) = 2%nat /\
               no_char "_" (core.tiletype self) = true).
  { destruct (is_class_cases _ _ C) as [[-> _] | [[-> _] | [-> _]]];
      split; reflexivity. }
  destruct LT as [LT UT].
  destruct (fields_block_slices _ _ _ Le Ln LT) as (L & _).
  rewrite longform_block.
  rewrite (decode_long_prefix self token _ (core.sampling self));
    trivial.
  - rewrite Z.eqb_refl. now apply decode_block_fields.
  - now apply no_char_fields_block.
Qed.

Lemma decoded_fields_aligned (self : core.t) (e n : Z) :
  class_core self ->
  e mod (core.tile_xsize_m self / 100000) = 0 ->
  n mod (core.tile_xsize_m self / 100000) = 0 ->
  decoded_fields self e n =
  Ok (core.tag self, core.sampling self, core.tile_xsize_m self,
      e * 100000, n * 100000, core.tiletype self).
Proof.
  intros [C _] He Hn. unfold decoded_fields, check_multiple, Py.mod_.
  rewrite He, Hn.
  destruct (is_class_cases _ _ C) as [[_ ->] | [[_ ->] | [_ ->]]]; reflexivity.
Qed.

Lemma decoded_fields_unaligned (self : core.t) (e n : Z) :
  class_core self ->
  e mod (core.tile_xsize_m self / 100000) <> 0 \/
  n mod (core.tile_xsize_m self / 100000) <> 0 ->
  decoded_fields self e n = Raise (ValueError msg2).
Proof.
  intros [C _] H. unfold decoded_fields, check_multiple, Py.mod_.
  assert (Z : (core.tile_xsize_m self / 100000 =? 0) = false).
  { destruct (is_class_cases _ _ C) as [[_ ->] | [[_ ->] | [_ ->]]];
      reflexivity. }
  rewrite Z. cbn [bind].
  destruct (e mod _ =? 0) eqn:Ee; [ | reflexivity ].
  destruct (n mod _ =? 0) eqn:En; [ | reflexivity ].
  apply Z.eqb_eq in Ee, En. tauto.
Qed.

(** A corner that is a multiple of the extent has fields that are multiples
    of the extent in units of 100 km, and is given back by its fields. *)
Lemma aligned_fields (tilecode : string) (size v : Z) :
  is_class tilecode size = true -> v mod size = 0 ->
  (v / 100000) mod (size / 100000) = 0 /\ v / 100000 * 100000 = v.
Proof.
  intros C H.
  assert (K : exists k f, size = f * 100000 /\ f <> 0 /\ v = k * f * 100000).
  { destruct (is_class_cases _ _ C) as [[_ ->] | [[_ ->] | [_ ->]]];
      (apply Z.mod_divide in H; [ | lia ]); destruct H as [k ->];
      [ exists k, 6 | exists k, 3 | exists k, 1 ]; lia. }
  destruct K as (k & f & -> & F & ->).
  rewrite !Z.div_mul by lia. split; [ | reflexivity ].
  apply Z.mod_mul. exact F.
Qed.

Lemma encode_tilename_long (self : core.t) (llx lly s : Z)
    (tilecode token : string) :
  encode_sampling s (core.tile_names_in_m self) = Ok token ->
  encode_tilename self llx lly s tilecode false =
  Ok (longform (core.tag self) token llx lly tilecode).
Proof. intro E. unfold encode_tilename. rewrite E. reflexivity. Qed.

Lemma len_longform (tag token : string) (llx lly : Z) (tilecode : string) :
  Py.len tag = 2 -> Py.len tilecode = 2 ->
  fits3 (llx / 100000) = true -> fits3 (lly / 100000) = true ->
  Py.len (longform tag token llx lly tilecode) = 14 + Py.len token.
Proof.
  intros LT LC Fe Fn.
  destruct (field_of_fits3 _ Fe) as (Le & _).
  destruct (field_of_fits3 _ Fn) as (Ln & _).
  unfold longform. rewrite !len_app, LT, LC.
  unfold Py.len at 3 5. rewrite Le, Ln. 
  change (Py.len "M_E") with 3. change (Py.len "N") with 1. lia.
Qed.

Lemma class_core_tiletype (self : core.t) :
  class_core self ->
  Py.len (core.tiletype self) = 2 /\ no_char "_" (core.tiletype self) = true.
Proof.
  intros [C _].
  destruct (is_class_cases _ _ C) as [[-> _] | [[-> _] | [-> _]]];
    split; reflexivity.
Qed.

(** What [tilename2short] returns for a long form that is decoded: the short
    name when the token has three characters, and else the long form. *)
Lemma tilename2short_longform (self : core.t) (token : string) (llx lly : Z) :
  class_core self -> two_letter (core.tag self) = true ->
  no_char "M" token = true -> no_char "_" token = true ->
  decode_sampling token (core.tile_names_in_m self) = Ok (core.sampling self) ->
  fits3 (llx / 100000) = true -> fits3 (lly / 100000) = true ->
  (llx / 100000) mod (core.tile_xsize_m self / 100000) = 0 ->
  (lly / 100000) mod (core.tile_xsize_m self / 100000) = 0 ->
  tilename2short self
    (longform (core.tag self) token llx lly (core.tiletype self)) =
  Ok (if Py.len token =? 3
      then shortname (llx / 100000) (lly / 100000) (core.tiletype self)
      else longform (core.tag self) token llx lly (core.tiletype self)).
Proof.
  intros C T NM NU D Fe Fn Ae An.
  unfold tilename2short, check_tilename.
  rewrite decode_longform, decoded_fields_aligned by trivial.
  cbn [bind].
  destruct (two_letter_inv _ T) as [LT _].
  destruct (class_core_tiletype self C) as [LC _].
  rewrite len_longform by trivial.
  destruct (Py.len token =? 3) eqn:E.
  - apply Z.eqb_eq in E. rewrite E. change (14 + 3 =? 17) with true. cbv iota.
    f_equal. rewrite longform_block, shortname_block.
    set (b := fields_block _ _ _).
    replace (core.tag self ++ token ++ String "M" (String "_" b))%string
      with ((core.tag self ++ token ++ "M_") ++ b)%string
      by (rewrite !append_assoc; reflexivity).
    apply slice_suffix. rewrite !len_app, LT, E. reflexivity.
  - apply Z.eqb_neq in E.
    destruct (14 + Py.len token =? 17) eqn:E'; [ | reflexivity ].
    apply Z.eqb_eq in E'. lia.
Qed.

(** ** The round trip of tile names *)

Lemma roundtrip_core (self : core.t) (token : string) (llx lly : Z)
    (shortform : bool) :
  class_core self -> two_letter (core.tag self) = true ->
  encode_sampling (core.sampling self) (core.tile_names_in_m self) = Ok token ->
  no_char "M" token = true -> no_char "_" token = true ->
  decode_sampling token (core.tile_names_in_m self) = Ok (core.sampling self) ->
  fits3 (llx / 100000) = true -> fits3 (lly / 100000) = true ->
  (llx / 100000) mod (core.tile_xsize_m self / 100000) = 0 ->
  (lly / 100000) mod (core.tile_xsize_m self / 100000) = 0 ->
  exists name,
    encode_tilename self llx lly (core.sampling self) (core.tiletype self)
      shortform = Ok name /\
    decode_tilename self name =
    Ok (core.tag self, core.sampling self, core.tile_xsize_m self,
        llx / 100000 * 100000, lly / 100000 * 100000, core.tiletype self).
Proof.
  intros C T Enc NM NU D Fe Fn Ae An.
  unfold encode_tilename. rewrite Enc. cbn [bind].
  destruct shortform.
  - rewrite tilename2short_longform by trivial.
    eexists. split; [ reflexivity | ].
    destruct (Py.len token =? 3).
    + rewrite decode_shortname by trivial. now apply decoded_fields_aligned.
    + rewrite decode_longform by trivial. now apply decoded_fields_aligned.
  - eexists. split; [ reflexivity | ].
    rewrite decode_longform by trivial. now apply decoded_fields_aligned.
Qed.

Lemma fits3_of_bounds (v : Z) : 0 <= v <= 999 -> fits3 v = true.
Proof.
  intro H. unfold fits3. apply andb_true_iff.
  split; apply Z.leb_le; lia.
Qed.

(** C1.  Round trip of tile names.  For the tiling system of any subgrid
    (a tag of two letters) of a grid built for a supported sampling, with the
    tile class of that sampling and its extent, and for every lower-left
    corner (llx, lly) that is a multiple of the extent with llx/100000 and
    lly/100000 in [0, 999]: [encode_tilename] returns a name, in the long form
    and when the short form is asked for, and [decode_tilename] maps that name
    to the tuple (subgrid tag, sampling, tile size, llx, lly, tile class). *)
Theorem tilename_roundtrip :
  forall (ids : list string) (s : Z) (m : bool) (sg : string) (self : core.t)
         (tilecode : string) (size llx lly : Z) (shortform : bool),
  tilesys_of ids s m sg = Ok self -> two_letter sg = true ->
  get_tiletype s = Ok tilecode -> tilesize_of_tiletype tilecode = Ok size ->
  llx mod size = 0 -> lly mod size = 0 ->
  0 <= llx / 100000 <= 999 -> 0 <= lly / 100000 <= 999 ->
  exists name,
    encode_tilename self llx lly s tilecode shortform = Ok name /\
    decode_tilename self name = Ok (sg, s, size, llx, lly, tilecode).
Proof.
  intros ids s m sg self tilecode size llx lly shortform
         H T E S Ax Ay Bx By.
  destruct (tilesys_of_inv _ _ _ _ _ H)
    as (I & _ & tilecode' & size' & E' & S' & C & ->).
  assert (tilecode' = tilecode) as -> by congruence.
  assert (size' = size) as -> by congruence.
  destruct (token_of_static m s I) as (token & Enc & NM & NU & D & _).
  destruct (aligned_fields _ _ _ C Ax) as [Fx Rx].
  destruct (aligned_fields _ _ _ C Ay) as [Fy Ry].
  destruct (roundtrip_core (core.make sg s tilecode size size m) token llx lly
              shortform) as (name & N & R);
    try (apply fits3_of_bounds); trivial.
  { split; [ exact C | reflexivity ]. }
  exists name. split; [ exact N | ].
  rewrite R. cbn [core.tag core.sampling core.tile_xsize_m core.tiletype].
  rewrite Rx, Ry. reflexivity.
Qed.

Lemma tilename_roundtrip_witness :
  exists name,
    encode_tilename (core.make "EU" 500 "T6" 600000 600000 false)
      1200000 1800000 500 "T6" true = Ok name /\
    decode_tilename (core.make "EU" 500 "T6" 600000 600000 false) name =
    Ok ("EU", 500, 600000, 1200000, 1800000, "T6").
Proof.
  apply (tilename_roundtrip ["EU"; "SA"] 500 false "EU"
           (core.make "EU" 500 "T6" 600000 600000 false)
           "T6" 600000 1200000 1800000 true);
    try reflexivity; vm_compute; split; discriminate.
Defined.

(** ** Names that are not aligned *)

Lemma check_multiple_ok (v tf : Z) :
  check_multiple v tf = Ok tt -> tf <> 0 /\ v mod tf = 0.
Proof.
  unfold check_multiple, Py.mod_.
  destruct (tf =? 0) eqn:Z; [ discriminate | ].
  cbn [bind]. destruct (v mod tf =? 0) eqn:M; [ | discriminate ].
  reflect_tests. auto.
Qed.

(** Whatever the string, a corner that [decode_block] returns is the field it
    read times 100 km, and the field is a multiple of the extent in units of
    100 km. *)
Lemma decode_block_aligned (self : core.t) (block id : string) (s : Z)
    (d : decoded) :
  decode_block self block id s = Ok d ->
  let '(_, _, _, llx, lly, _) := d in
  exists e n,
    Py.int (Py.slice block (Some 1) (Some 4)) = Ok e /\
    Py.int (Py.slice block (Some 5) (Some 8)) = Ok n /\
    llx = e * 100000 /\ lly = n * 100000 /\
    e mod (core.tile_ysize_m self / 100000) = 0 /\
    n mod (core.tile_ysize_m self / 100000) = 0.
Proof.
  unfold decode_block.
  destruct (Py.index block (-1)) as [c | ]; [ | discriminate ]. cbn [bind].
  destruct (Py.int (String c "")) as [k | ]; [ | discriminate ]. cbn [bind].
  destruct (k * 100000 =? core.tile_xsize_m self); [ | discriminate ].
  destruct (Py.int (Py.slice block (Some 1) (Some 4))) as [e | ];
    [ | discriminate ]. cbn [bind].
  destruct (check_multiple e _) as [ [] | ] eqn:Ce; [ | discriminate ].
  cbn [bind].
  destruct (Py.int (Py.slice block (Some 5) (Some 8))) as [n | ];
    [ | discriminate ]. cbn [bind].
  destruct (check_multiple n _) as [ [] | ] eqn:Cn; [ | discriminate ].
  cbn [bind].
  destruct (String.eqb _ _); [ | discriminate ].
  intro H. injection H as <-.
  apply check_multiple_ok in Ce, Cn.
  exists e, n. tauto.
Qed.

Lemma decode_tilename_block (self : core.t) (tilename : string) (d : decoded) :
  decode_tilename self tilename = Ok d ->
  exists block id s, decode_block self block id s = Ok d.
Proof.
  rewrite decode_tilename_unfold.
  destruct (Py.len tilename =? 10); [ eauto | ].
  cbv zeta.
  destruct (String.eqb _ _); [ | discriminate ].
  destruct (Py.item _ 0) as [token | ]; [ | discriminate ]. cbn [bind].
  destruct (decode_sampling _ _) as [s | ]; [ | discriminate ]. cbn [bind].
  destruct (Py.item _ 1) as [block | ]; [ | discriminate ]. cbn [bind].
  destruct (s =? _); [ eauto | discriminate ].
Qed.

Lemma tilesys_class_core (ids : list string) (s : Z) (m : bool) (sg : string)
    (self : core.t) :
  tilesys_of ids s m sg = Ok self ->
  class_core self /\ core.tag self = sg /\ core.sampling self = s /\
  core.tile_names_in_m self = m /\ In s _static_sampling /\ In sg ids /\
  get_tiletype s = Ok (core.tiletype self) /\
  tilesize_of_tiletype (core.tiletype self) = Ok (core.tile_xsize_m self).
Proof.
  intro H.
  destruct (tilesys_of_inv _ _ _ _ _ H)
    as (I & J & tilecode & size & E & S & C & ->).
  repeat split; trivial.
Qed.

(** C5, amended.  On the tiling system of a grid, take a corner whose
    fields (in units of 100 km, three characters each) are not both multiples
    of the tile extent divided by 100000.  Its short name and its long name,
    formed with the grid's own tag, sampling and tilecode, are rejected by
    [decode_tilename] with the alignment error [msg2], and asking
    [encode_tilename] for the short form raises the same error.  Whatever the
    string, a corner that [decode_tilename] returns is a multiple of the tile
    extent: no corner is corrected. *)
Theorem unaligned_corner_rejected :
  forall (ids : list string) (s : Z) (m : bool) (sg : string) (self : core.t)
         (e n : Z),
  tilesys_of ids s m sg = Ok self -> two_letter sg = true ->
  fits3 e = true -> fits3 n = true ->
  e mod (core.tile_xsize_m self / 100000) <> 0 \/
  n mod (core.tile_xsize_m self / 100000) <> 0 ->
  decode_tilename self (shortname e n (core.tiletype self)) =
    Raise (ValueError msg2) /\
  (exists longname,
     encode_tilename self (e * 100000) (n * 100000) s (core.tiletype self)
       false = Ok longname /\
     decode_tilename self longname = Raise (ValueError msg2)) /\
  encode_tilename self (e * 100000) (n * 100000) s (core.tiletype self) true =
    Raise (ValueError msg2) /\
  (forall (tilename sg' tilecode : string) (s' size llx lly : Z),
     decode_tilename self tilename = Ok (sg', s', size, llx, lly, tilecode) ->
     llx mod core.tile_xsize_m self = 0 /\ lly mod core.tile_xsize_m self = 0).
Proof.
  intros ids s m sg self e n H T Fe Fn U.
  destruct (tilesys_class_core _ _ _ _ _ H)
    as (C & <- & <- & <- & I & _).
  destruct (token_of_static (core.tile_names_in_m self) _ I)
    as (token & Enc & NM & NU & D & _).
  assert (L : decode_tilename self
                (longform (core.tag self) token (e * 100000) (n * 100000)
                   (core.tiletype self)) = Raise (ValueError msg2)).
  { rewrite decode_longform; rewrite ?Z.div_mul by lia; trivial.
    now apply decoded_fields_unaligned. }
  split; [ | split; [ | split ] ].
  - rewrite decode_shortname by trivial. now apply decoded_fields_unaligned.
  - eexists. split; [ apply encode_tilename_long; exact Enc | exact L ].
  - unfold encode_tilename. rewrite Enc. cbn [bind].
    unfold tilename2short, check_tilename. rewrite L. reflexivity.
  - intros tilename sg' tilecode s' size llx lly R.
    destruct (decode_tilename_block _ _ _ R) as (block & id & s0 & B).
    apply decode_block_aligned in B.
    destruct B as (e' & n' & _ & _ & -> & -> & Me & Mn).
    destruct C as [C Y]. rewrite Y in Me, Mn.
    destruct (is_class_cases _ _ C) as [[_ Sz] | [[_ Sz] | [_ Sz]]];
      rewrite Sz in *;
      [ change (600000 / 100000) with 6 in *
      | change (300000 / 100000) with 3 in *
      | change (100000 / 100000) with 1 in * ];
      split; apply Z.mod_divide; try lia;
      apply Z.mod_divide in Me, Mn; try lia;
      destruct Me as [a ->]; destruct Mn as [b ->];
      [ exists a | exists b | exists a | exists b | exists a | exists b ]; lia.
Qed.

Lemma unaligned_corner_rejected_witness :
  decode_tilename (core.make "EU" 500 "T6" 600000 600000 false) "E011N018T6" =
    Raise (ValueError msg2) /\
  decode_tilename (core.make "EU" 500 "T6" 600000 600000 false)
    "EU500M_E011N018T6" = Raise (ValueError msg2).
Proof.
  destruct (unaligned_corner_rejected ["EU"; "SA"] 500 false "EU"
              (core.make "EU" 500 "T6" 600000 600000 false) 11 18)
    as (A & (longname & E & B) & _);
    try reflexivity.
  { left. vm_compute. discriminate. }
  split; [ exact A | ].
  vm_compute in E. injection E as <-. exact B.
Defined.

(** C5 as stated fails: on the T6 tiling system of the grid of sampling 500,
    the east field of the short name "E011N018T3" is 11, which is not a
    multiple of 6, and [decode_tilename] raises [msg1] (the size digit is not
    the grid's), which is not the alignment error. *)
Lemma unaligned_name_other_error :
  (self <- tilesys_of ["EU"; "SA"] 500 false "EU" ;;
   Ok (core.tile_xsize_m self / 100000)) = Ok 6 /\
  Py.int (Py.slice "E011N018T3" (Some 1) (Some 4)) = Ok 11 /\
  11 mod 6 = 5 /\
  (self <- tilesys_of ["EU"; "SA"] 500 false "EU" ;;
   decode_tilename self "E011N018T3") = Raise (ValueError msg1).
Proof. repeat split. Qed.

(** ** The short form *)

Lemma length_substring (s : string) (n m : nat) :
  String.length (substring n m s) = Nat.min m (String.length s - n).
Proof.
  revert n m. induction s as [ | c s IH]; intros [ | n] [ | m]; simpl;
    try reflexivity; rewrite IH; try reflexivity.
  rewrite Nat.sub_0_r. reflexivity.
Qed.

Lemma len_slice_7 (name : string) :
  Py.len name = 17 -> Py.len (Py.slice name (Some 7) None) = 10.
Proof.
  intro L. unfold Py.slice, Py.clamp. rewrite L.
  change (Z.to_nat (if 7 <? 0 then Z.max 0 (7 + 17) else Z.min 7 17)) with 7%nat.
  change (Z.to_nat (17 - (if 7 <? 0 then Z.max 0 (7 + 17) else Z.min 7 17)))
    with 10%nat.
  unfold Py.len in *. rewrite length_substring. lia.
Qed.

Lemma slice_split_7 (name : string) :
  Py.len name = 17 ->
  name = (Py.slice name (Some 0) (Some 7) ++ Py.slice name (Some 7) None)%string.
Proof.
  intro L. unfold Py.len in L.
  do 18 (destruct name as [ | ? name]; try (simpl in L; lia)).
  reflexivity.
Qed.

(** C4, amended.  For every name of 17 characters that [decode_tilename]
    accepts, [tilename2short] returns the name without its first seven
    characters, which has 10 characters; for the long name that
    [encode_tilename] formats with a token of three characters these seven
    characters are the tag, the token and "M_", and what is returned is the
    short name "E<east>N<north><tilecode>".  For a name of 10 characters
    that [decode_tilename] accepts, [tilename2short] returns the name
    unchanged. *)
Theorem tilename2short_spec :
  forall (ids : list string) (s : Z) (m : bool) (sg : string) (self : core.t)
         (tilename : string),
  tilesys_of ids s m sg = Ok self -> two_letter sg = true ->
  succeeds (decode_tilename self tilename) = true ->
  (Py.len tilename = 17 ->
     tilename2short self tilename = Ok (Py.slice tilename (Some 7) None) /\
     Py.len (Py.slice tilename (Some 7) None) = 10 /\
     tilename = (Py.slice tilename (Some 0) (Some 7)
                 ++ Py.slice tilename (Some 7) None)%string) /\
  (Py.len tilename = 10 -> tilename2short self tilename = Ok tilename) /\
  (forall token llx lly,
     encode_sampling s m = Ok token -> Py.len token = 3 ->
     fits3 (llx / 100000) = true -> fits3 (lly / 100000) = true ->
     tilename = longform sg token llx lly (core.tiletype self) ->
     Py.len tilename = 17 /\
     tilename2short self tilename =
       Ok (shortname (llx / 100000) (lly / 100000) (core.tiletype self))).
Proof.
  intros ids s m sg self tilename H T V.
  assert (S : forall b, Py.len tilename = b ->
            tilename2short self tilename =
            if b =? 17 then Ok (Py.slice tilename (Some 7) None)
            else Ok tilename).
  { intros b <-. unfold tilename2short, check_tilename.
    destruct (decode_tilename self tilename); [ reflexivity | discriminate ]. }
  split; [ | split ].
  - intro L. rewrite (S 17 L).
    repeat split; [ now apply len_slice_7 | now apply slice_split_7 ].
  - intro L. now rewrite (S 10 L).
  - intros token llx lly Enc L3 Fe Fn ->.
    destruct (tilesys_class_core _ _ _ _ _ H) as (C & <- & <- & <- & I & _).
    destruct (two_letter_inv _ T) as [LT _].
    destruct (class_core_tiletype self C) as [LC _].
    assert (L : Py.len (longform (core.tag self) token llx lly
                          (core.tiletype self)) = 17).
    { rewrite len_longform by trivial. lia. }
    split; [ exact L | ].
    rewrite (S 17 L). change (17 =? 17) with true. cbv iota. f_equal.
    rewrite longform_block, shortname_block.
    set (b := fields_block _ _ _).
    replace (core.tag self ++ token ++ String "M" (String "_" b))%string
      with ((core.tag self ++ token ++ "M_") ++ b)%string
      by (rewrite !append_assoc; reflexivity).
    apply slice_suffix. rewrite !len_app, LT, L3. reflexivity.
Qed.

Lemma tilename2short_spec_witness :
  tilename2short (core.make "EU" 500 "T6" 600000 600000 false)
    "EU500M_E012N018T6" = Ok "E012N018T6" /\
  tilename2short (core.make "EU" 500 "T6" 600000 600000 false)
    "E012N018T6" = Ok "E012N018T6".
Proof.
  split.
  - exact (proj1 (proj1 (tilename2short_spec ["EU"; "SA"] 500 false "EU"
                           (core.make "EU" 500 "T6" 600000 600000 false)
                           "EU500M_E012N018T6" eq_refl eq_refl eq_refl)
                    eq_refl)).
  - exact (proj1 (proj2 (tilename2short_spec ["EU"; "SA"] 500 false "EU"
                           (core.make "EU" 500 "T6" 600000 600000 false)
                           "E012N018T6" eq_refl eq_refl eq_refl))
             eq_refl).
Defined.

(** C4 as stated fails: the short form that [tilename2short] returns for the
    long name "EU500M_E012N018T6" of 17 characters is "E012N018T6", which has
    10 characters and not 11. *)
Lemma short_form_has_10_characters :
  Py.len "EU500M_E012N018T6" = 17 /\
  (self <- tilesys_of ["EU"; "SA"] 500 false "EU" ;;
   short <- tilename2short self "EU500M_E012N018T6" ;;
   Ok (short, Py.len short)) = Ok ("E012N018T6", 10).
Proof. split; reflexivity. Qed.

(** ** Checking a name *)

(** C10.  On the tiling system of a grid and for every string,
    [check_tilename] never returns [False]: it returns [True] exactly when
    [decode_tilename] returns, and it raises the exception of
    [decode_tilename] otherwise.  [check_tile_covers_land] raises that
    exception on a name that is not decoded and otherwise returns whether the
    short name, as [tilename2short] gives it, is among the tiles of the subgrid
    and tilecode that cover land; it never returns [None]. *)
Theorem check_tilename_never_false :
  forall (ids : list string) (coverland : string -> string -> list string)
         (s : Z) (m : bool) (sg : string) (self : core.t) (tilename : string),
  tilesys_of ids s m sg = Ok self ->
  check_tilename self tilename <> Ok false /\
  (check_tilename self tilename = Ok true <->
   exists d, decode_tilename self tilename = Ok d) /\
  (forall e, decode_tilename self tilename = Raise e <->
             check_tilename self tilename = Raise e) /\
  (forall e, decode_tilename self tilename = Raise e ->
             check_tile_covers_land ids coverland self tilename = Raise e) /\
  (forall d, decode_tilename self tilename = Ok d ->
     exists short,
       tilename2short self tilename = Ok short /\
       check_tile_covers_land ids coverland self tilename =
       Ok (Some (str_in short (coverland sg (core.tiletype self))))) /\
  check_tile_covers_land ids coverland self tilename <> Ok None.
Proof.
  intros ids coverland s m sg self tilename H.
  destruct (tilesys_class_core _ _ _ _ _ H)
    as ([C _] & <- & _ & _ & _ & I & _).
  assert (L : list_tiles_covering_land ids coverland self =
              Ok (coverland (core.tag self) (core.tiletype self))).
  { unfold list_tiles_covering_land, str_in.
    rewrite (proj2 (str_in_iff _ _) I).
    destruct (is_class_cases _ _ C) as [[-> _] | [[-> _] | [-> _]]];
      reflexivity. }
  unfold check_tile_covers_land. rewrite L. cbn [bind].
  unfold tilename2short, check_tilename.
  destruct (decode_tilename self tilename) as [d | e]; cbn [bind].
  - repeat split; try discriminate; eauto.
    + intros d' _. destruct (Py.len tilename =? 17);
        eexists; split; reflexivity.
    + destruct (Py.len tilename =? 17); discriminate.
  - repeat split; try discriminate; try congruence.
    intros [d D]. discriminate.
Qed.

Lemma check_tilename_never_false_witness :
  check_tilename (core.make "EU" 500 "T6" 600000 600000 false) "E011N018T6"
    <> Ok false /\
  check_tile_covers_land example_subgrid_ids example_coverland
    (core.make "EU" 500 "T6" 600000 600000 false) "E011N018T6"
    = Raise (ValueError msg2) /\
  exists short,
    tilename2short (core.make "EU" 500 "T6" 600000 600000 false)
      "EU500M_E006N012T6" = Ok short /\
    check_tile_covers_land example_subgrid_ids example_coverland
      (core.make "EU" 500 "T6" 600000 600000 false) "EU500M_E006N012T6" =
    Ok (Some (str_in short
                (example_coverland "EU"
                   (core.tiletype
                      (core.make "EU" 500 "T6" 600000 600000 false))))).
Proof.
  pose proof (check_tilename_never_false example_subgrid_ids example_coverland
                500 false "EU" (core.make "EU" 500 "T6" 600000 600000 false))
    as W.
  destruct (W "E011N018T6" eq_refl) as (A & _ & _ & B & _).
  destruct (W "EU500M_E006N012T6" eq_refl) as (_ & _ & _ & _ & D & _).
  split; [ exact A | ].
  split; [ exact (B _ eq_refl) | ].
  exact (D _ eq_refl).
Defined.

(** ** Doubles *)

Lemma pow2_pos (e : Z) : (0 < Double.pow2 e)%Q.
Proof. apply Qpower_0_lt. reflexivity. Qed.

Lemma pow2_add (a b : Z) :
  (Double.pow2 (a + b) == Double.pow2 a * Double.pow2 b)%Q.
Proof. apply Qpower_plus. discriminate. Qed.

Lemma pow2_sub (a b : Z) :
  (Double.pow2 (a - b) == Double.pow2 a / Double.pow2 b)%Q.
Proof. apply Qpower_minus. discriminate. Qed.

Lemma pow2_inject (n : Z) : 0 <= n -> (Double.pow2 n == inject_Z (2 ^ n))%Q.
Proof. intro H. unfold Double.pow2. now rewrite Zpower_Qpower. Qed.

Lemma pow2_le (a b : Z) : a <= b -> (Double.pow2 a <= Double.pow2 b)%Q.
Proof. intro H. apply Qpower_le_compat_l; [ exact H | discriminate ]. Qed.

Lemma pow2_lt_inv (a b : Z) : (Double.pow2 a < Double.pow2 b)%Q -> a < b.
Proof. intro H. apply (Qpower_lt_compat_l_inv 2); [ exact H | reflexivity ]. Qed.

Lemma fraction_le (a b c d : Z) :
  0 < b -> 0 < d -> a * d <= c * b ->
  (inject_Z a / inject_Z b <= inject_Z c / inject_Z d)%Q.
Proof.
  intros B D H.
  assert (B' : (0 < inject_Z b)%Q)
    by (change 0%Q with (inject_Z 0); now rewrite <- Zlt_Qlt).
  assert (D' : (0 < inject_Z d)%Q)
    by (change 0%Q with (inject_Z 0); now rewrite <- Zlt_Qlt).
  rewrite Zle_Qle, !inject_Z_mult in H.
  apply Qle_shift_div_l; [ exact D' | ].
  setoid_replace (inject_Z a / inject_Z b * inject_Z d)%Q
    with (inject_Z a * inject_Z d / inject_Z b)%Q by (field; lra).
  apply Qle_shift_div_r; [ exact B' | exact H ].
Qed.

Lemma fraction_lt (a b c d : Z) :
  0 < b -> 0 < d -> a * d < c * b ->
  (inject_Z a / inject_Z b < inject_Z c / inject_Z d)%Q.
Proof.
  intros B D H.
  assert (B' : (0 < inject_Z b)%Q)
    by (change 0%Q with (inject_Z 0); now rewrite <- Zlt_Qlt).
  assert (D' : (0 < inject_Z d)%Q)
    by (change 0%Q with (inject_Z 0); now rewrite <- Zlt_Qlt).
  rewrite Zlt_Qlt, !inject_Z_mult in H.
  apply Qlt_shift_div_l; [ exact D' | ].
  setoid_replace (inject_Z a / inject_Z b * inject_Z d)%Q
    with (inject_Z a * inject_Z d / inject_Z b)%Q by (field; lra).
  apply Qlt_shift_div_r; [ exact B' | exact H ].
Qed.

(** [ilog2] finds the binade. *)
Lemma ilog2_spec (q : Q) :
  (0 < q)%Q ->
  (Double.pow2 (Double.ilog2 q) <= q < Double.pow2 (Double.ilog2 q + 1))%Q.
Proof.
  intro P. destruct q as [n d].
  assert (N : 0 < n) by (unfold Qlt in P; simpl in P; lia).
  unfold Double.ilog2. cbn [Qnum Qden].
  destruct (Z.log2_spec n N) as [A1 A2].
  destruct (Z.log2_spec (Zpos d) (Pos2Z.is_pos d)) as [B1 B2].
  pose proof (Z.log2_nonneg n) as La.
  pose proof (Z.log2_nonneg (Zpos d)) as Lb.
  set (la := Z.log2 n) in *. set (lb := Z.log2 (Zpos d)) in *.
  assert (Pa : 0 < 2 ^ la) by (apply Z.pow_pos_nonneg; lia).
  assert (Pb : 0 < 2 ^ lb) by (apply Z.pow_pos_nonneg; lia).
  assert (Pa' : 0 < 2 ^ Z.succ la) by (apply Z.pow_pos_nonneg; lia).
  assert (Pb' : 0 < 2 ^ Z.succ lb) by (apply Z.pow_pos_nonneg; lia).
  assert (Q : (n # d == inject_Z n / inject_Z (Zpos d))%Q)
    by apply Qmake_Qdiv.
  destruct (Qle_bool (Double.pow2 (la - lb)) (n # d)) eqn:T.
  - apply Qle_bool_iff in T. split; [ exact T | ].
    replace (la - lb + 1) with (Z.succ la - lb) by lia.
    rewrite pow2_sub, !pow2_inject, Q by lia.
    apply fraction_lt; [ lia | lia | nia ].
  - split.
    + replace (la - lb - 1) with (la - Z.succ lb) by lia.
      rewrite pow2_sub, !pow2_inject, Q by lia.
      apply fraction_le; [ lia | lia | nia ].
    + replace (la - lb - 1 + 1) with (la - lb) by lia.
      apply Qnot_le_lt. intro H. apply Qle_bool_iff in H. congruence.
Qed.

Lemma nearest_even_int (q : Q) (z : Z) :
  (q == inject_Z z)%Q -> Double.nearest_even q = z.
Proof.
  intro E. unfold Double.nearest_even.
  rewrite (Qfloor_comp _ _ E), Qfloor_Z.
  destruct (Qcompare_spec (q - inject_Z z) (1 # 2)) as [H | H | H];
    [ lra | reflexivity | lra ].
Qed.

Lemma nearest_even_near (q : Q) :
  (q - (1 # 2) <= inject_Z (Double.nearest_even q) <= q + (1 # 2))%Q.
Proof.
  unfold Double.nearest_even.
  pose proof (Qfloor_le q) as A. pose proof (Qlt_floor q) as B.
  rewrite inject_Z_plus in B. change (inject_Z 1) with 1%Q in B.
  destruct (Qcompare_spec (q - inject_Z (Qfloor q)) (1 # 2)) as [H | H | H].
  - destruct (Z.even (Qfloor q));
      rewrite ?inject_Z_plus; change (inject_Z 1) with 1%Q; lra.
  - lra.
  - rewrite inject_Z_plus. change (inject_Z 1) with 1%Q. lra.
Qed.

Lemma Qfloor_bounds (q : Q) (a b : Z) :
  (inject_Z a <= q)%Q -> (q < inject_Z b)%Q -> a <= Qfloor q < b.
Proof.
  intros A B. split.
  - rewrite <- (Qfloor_Z a). now apply Qfloor_resp_le.
  - rewrite Zlt_Qlt. apply Qle_lt_trans with q; [ apply Qfloor_le | exact B ].
Qed.

Lemma round_comp (a b : Q) : (a == b)%Q -> Double.round a = Double.round b.
Proof.
  intro E. unfold Double.round. now rewrite (Qred_complete _ _ E).
Qed.

(** What [round] returns is [m * 2^e] for the integer [m] nearest to
    [q / 2^e], where [e] is the exponent of [q]. *)
Lemma round_unfold (q : Q) :
  ~ (q == 0)%Q ->
  (Double.round q ==
   inject_Z (Double.nearest_even (Qred q / Double.pow2 (Double.exponent (Qred q))))
   * Double.pow2 (Double.exponent (Qred q)))%Q.
Proof.
  intro N. unfold Double.round.
  destruct (Qeq_bool (Qred q) 0) eqn:Z.
  - apply Qeq_bool_iff in Z. rewrite Qred_correct in Z. contradiction.
  - apply Qred_correct.
Qed.

Lemma round_zero (q : Q) : (q == 0)%Q -> (Double.round q == 0)%Q.
Proof.
  intro E. unfold Double.round.
  destruct (Qeq_bool (Qred q) 0) eqn:Z; [ reflexivity | ].
  apply Qeq_bool_neq in Z. rewrite Qred_correct in Z. contradiction.
Qed.

(** A number whose last bit is at or above the exponent is a double. *)
Lemma round_exact (q : Q) (m : Z) :
  (q == inject_Z m * Double.pow2 (Double.exponent (Qred q)))%Q ->
  (Double.round q == q)%Q.
Proof.
  intro E.
  destruct (Qeq_dec q 0) as [Z | N]; [ rewrite Z at 2; now apply round_zero | ].
  rewrite (round_unfold q N).
  set (e := Double.exponent (Qred q)) in *.
  pose proof (pow2_pos e) as P.
  rewrite (nearest_even_int _ m).
  - symmetry. exact E.
  - rewrite Qred_correct, E. field. lra.
Qed.

Lemma exponent_bound (q : Q) (k : Z) :
  ~ (q == 0)%Q -> (Qabs q < Double.pow2 k)%Q -> Double.emin <= k - Double.prec ->
  Double.exponent q <= k - Double.prec.
Proof.
  intros N B K. unfold Double.exponent.
  assert (P : (0 < Qabs q)%Q).
  { pose proof (Qabs_nonneg q) as A.
    destruct (Qeq_dec (Qabs q) 0) as [Z | Z]; [ | lra ].
    exfalso. apply N. revert Z. apply Qabs_case; intros; lra. }
  destruct (ilog2_spec _ P) as [L _].
  assert (Double.ilog2 (Qabs q) < k).
  { apply pow2_lt_inv. eapply Qle_lt_trans; [ exact L | exact B ]. }
  unfold Double.prec in *. lia.
Qed.

(** An integer below [2^53] in absolute value is a double. *)
Lemma round_int (n : Z) :
  Z.abs n < 2 ^ 53 -> (Double.round (inject_Z n) == inject_Z n)%Q.
Proof.
  intro B.
  destruct (Z.eq_dec n 0) as [-> | N]; [ reflexivity | ].
  assert (NQ : ~ (inject_Z n == 0)%Q)
    by (unfold Qeq, inject_Z; simpl; lia).
  assert (NR : ~ (Qred (inject_Z n) == 0)%Q) by now rewrite Qred_correct.
  assert (E : Double.exponent (Qred (inject_Z n)) <= 0).
  { apply (exponent_bound _ 53 NR); [ | unfold Double.emin, Double.prec; lia ].
    rewrite Qred_correct, pow2_inject by lia.
    change (Qabs (inject_Z n)) with (inject_Z (Z.abs n)).
    now rewrite <- Zlt_Qlt. }
  set (e := Double.exponent (Qred (inject_Z n))) in *.
  apply (round_exact _ (n * 2 ^ (- e))). fold e.
  rewrite inject_Z_mult, <- pow2_inject by lia.
  rewrite <- Qmult_assoc, <- pow2_add.
  replace (- e + e) with 0 by lia. change (Double.pow2 0) with 1%Q. ring.
Qed.

(** The error of [round] is at most half of the last bit. *)
Lemma round_near (q : Q) :
  ~ (q == 0)%Q ->
  (Qabs (Double.round q - q)
   <= Double.pow2 (Double.exponent (Qred q)) * (1 # 2))%Q.
Proof.
  intro N. rewrite (round_unfold q N).
  set (e := Double.exponent (Qred q)).
  pose proof (pow2_pos e) as P.
  pose proof (nearest_even_near (Qred q / Double.pow2 e)) as [A B].
  set (m := inject_Z (Double.nearest_even (Qred q / Double.pow2 e))) in *.
  assert (S : (Qred q / Double.pow2 e * Double.pow2 e == q)%Q)
    by (rewrite Qred_correct; field; lra).
  apply Qabs_Qle_condition. split.
  - apply (Qmult_le_compat_r _ _ (Double.pow2 e)) in A; lra.
  - apply (Qmult_le_compat_r _ _ (Double.pow2 e)) in B; lra.
Qed.

(** The last bit is [2^-52] of the number at most, or the least bit there
    is. *)
Lemma exponent_small (q : Q) :
  ~ (q == 0)%Q ->
  (Double.pow2 (Double.exponent q) <= Qabs q * Double.pow2 (-52))%Q \/
  Double.exponent q = Double.emin.
Proof.
  intro N. unfold Double.exponent, Double.prec.
  assert (P : (0 < Qabs q)%Q).
  { pose proof (Qabs_nonneg q) as A.
    destruct (Qeq_dec (Qabs q) 0) as [Z | Z]; [ | lra ].
    exfalso. apply N. revert Z. apply Qabs_case; intros; lra. }
  destruct (ilog2_spec _ P) as [L _].
  destruct (Z.max_spec (Double.ilog2 (Qabs q) - (53 - 1)) Double.emin)
    as [[_ ->] | [_ ->]]; [ now right | left ].
  replace (Double.ilog2 (Qabs q) - (53 - 1))
    with (Double.ilog2 (Qabs q) + (-52)) by lia.
  rewrite pow2_add. pose proof (pow2_pos (-52)) as P52.
  apply Qmult_le_compat_r; lra.
Qed.

(** The floor of the double nearest to a quotient of two integers is the
    floor of the quotient, when the integers are below [2^53]. *)
Lemma floor_round_quotient (n d : Z) :
  Z.abs n < 2 ^ 53 -> 0 < d < 2 ^ 53 ->
  Qfloor (Double.round (inject_Z n / inject_Z d)) = n / d.
Proof.
  intros Bn Bd.
  assert (D : (0 < inject_Z d)%Q)
    by (change 0%Q with (inject_Z 0); rewrite <- Zlt_Qlt; lia).
  pose proof (Z.div_mod n d ltac:(lia)) as DM.
  pose proof (Z.mod_pos_bound n d ltac:(lia)) as MB.
  set (k := n / d) in *. set (r := n mod d) in *.
  assert (Eq : (inject_Z n / inject_Z d
                == inject_Z k + inject_Z r / inject_Z d)%Q).
  { rewrite DM, inject_Z_plus, inject_Z_mult. field. lra. }
  destruct (Z.eq_dec r 0) as [R0 | R0].
  - rewrite R0 in Eq.
    assert (Ek : (inject_Z n / inject_Z d == inject_Z k)%Q).
    { rewrite Eq. change (inject_Z 0) with 0%Q. field. lra. }
    rewrite (round_comp _ _ Ek).
    assert (Bk : Z.abs k < 2 ^ 53) by nia.
    rewrite (Qfloor_comp _ _ (round_int k Bk)). apply Qfloor_Z.
  - set (q := (inject_Z n / inject_Z d)%Q) in *.
    assert (R1 : (inject_Z 1 <= inject_Z r)%Q) by (rewrite <- Zle_Qle; lia).
    assert (R2 : (inject_Z r <= inject_Z (d + -1))%Q)
      by (rewrite <- Zle_Qle; lia).
    rewrite inject_Z_plus in R2.
    change (inject_Z 1) with 1%Q in R1. change (inject_Z (-1)) with (-1)%Q in R2.
    assert (I : (/ inject_Z d <= inject_Z r / inject_Z d)%Q).
    { apply Qle_shift_div_l; [ exact D | ].
      setoid_replace (/ inject_Z d * inject_Z d)%Q with 1%Q by (field; lra).
      exact R1. }
    assert (J : (inject_Z r / inject_Z d <= 1 - / inject_Z d)%Q).
    { apply Qle_shift_div_r; [ exact D | ].
      setoid_replace ((1 - / inject_Z d) * inject_Z d)%Q
        with (inject_Z d - 1)%Q by (field; lra).
      exact R2. }
    assert (Nq : ~ (q == 0)%Q).
    { intro Z.
      assert (Hn : (inject_Z n == 0)%Q).
      { setoid_replace (inject_Z n) with (q * inject_Z d)%Q
          by (unfold q; field; lra).
        rewrite Z. ring. }
      assert (N0 : n = 0) by (unfold Qeq, inject_Z in Hn; simpl in Hn; lia).
      apply R0. unfold r. rewrite N0. apply Z.mod_0_l. lia. }
    assert (Err : (Qabs (Double.round q - q) < / inject_Z d)%Q).
    { eapply Qle_lt_trans; [ apply (round_near q Nq) | ].
      assert (Nr : ~ (Qred q == 0)%Q) by now rewrite Qred_correct.
      pose proof (pow2_pos (Double.exponent (Qred q))) as Pe.
      destruct (exponent_small (Qred q) Nr) as [S | S].
      - rewrite (Qabs_wd _ _ (Qred_correct q)) in S.
        assert (Aq : (Qabs q == inject_Z (Z.abs n) / inject_Z d)%Q).
        { unfold q. unfold Qdiv. rewrite Qabs_Qmult, Qabs_Qinv.
          rewrite (Qabs_pos (inject_Z d)) by lra. reflexivity. }
        assert (Bn' : (inject_Z (Z.abs n) < inject_Z (2 ^ 53))%Q)
          by now rewrite <- Zlt_Qlt.
        assert (T : (Qabs q * Double.pow2 (-52) * (1 # 2)
                     < / inject_Z d)%Q).
        { rewrite Aq.
          setoid_replace (inject_Z (Z.abs n) / inject_Z d
                          * Double.pow2 (-52) * (1 # 2))%Q
            with (inject_Z (Z.abs n) * (Double.pow2 (-52) * (1 # 2))
                  / inject_Z d)%Q by (field; lra).
          apply Qlt_shift_div_r; [ exact D | ].
          setoid_replace (/ inject_Z d * inject_Z d)%Q with 1%Q
            by (field; lra).
          change (Double.pow2 (-52) * (1 # 2))%Q
            with (/ inject_Z (2 ^ 52) * (1 # 2))%Q.
          change (inject_Z (2 ^ 53)) with (inject_Z (2 ^ 52) * 2)%Q in Bn'.
          assert (0 < inject_Z (2 ^ 52))%Q by reflexivity.
          apply (Qmult_lt_r _ _ (inject_Z (2 ^ 52) * 2)); [ lra | ].
          setoid_replace (inject_Z (Z.abs n)
                          * (/ inject_Z (2 ^ 52) * (1 # 2))
                          * (inject_Z (2 ^ 52) * 2))%Q
            with (inject_Z (Z.abs n)) by (field; lra).
          lra. }
        lra.
      - rewrite S.
        assert (Bd' : (inject_Z d < inject_Z (2 ^ 53))%Q)
          by (rewrite <- Zlt_Qlt; lia).
        assert (B0 : (0 < inject_Z (2 ^ 53))%Q) by reflexivity.
        assert (V : (/ inject_Z (2 ^ 53) < / inject_Z d)%Q)
          by (apply -> Qinv_lt_contravar; trivial).
        pose proof (pow2_le Double.emin (-53) ltac:(unfold Double.emin; lia))
          as W.
        change (Double.pow2 (-53)) with (/ inject_Z (2 ^ 53))%Q in W.
        pose proof (pow2_pos Double.emin). lra. }
    apply Qabs_Qlt_condition in Err.
    assert (G : k <= Qfloor (Double.round q) < k + 1).
    { apply Qfloor_bounds; rewrite ?inject_Z_plus;
        change (inject_Z 1) with 1%Q; lra. }
    lia.
Qed.

Lemma Qred_inject_Z (n : Z) : Qred (inject_Z n) = inject_Z n.
Proof.
  unfold Qred, inject_Z.
  generalize (Z.ggcd_gcd n 1) (Z.ggcd_correct_divisors n 1).
  destruct (Z.ggcd n 1) as (g, (r1, r2)). simpl.
  intros G [E1 E2]. rewrite Z.gcd_1_r in G. subst g.
  assert (R1 : n = r1) by lia. assert (R2 : r2 = 1) by lia.
  rewrite R1, R2. reflexivity.
Qed.

Lemma round_int_eq (n : Z) :
  Z.abs n < 2 ^ 53 -> Double.round (inject_Z n) = inject_Z n.
Proof.
  intro B. pose proof (round_int n B) as E.
  destruct (Z.eq_dec n 0) as [-> | N]; [ reflexivity | ].
  unfold Double.round in *.
  destruct (Qeq_bool (Qred (inject_Z n)) 0) eqn:Z.
  - apply Qeq_bool_iff in Z. rewrite Qred_correct in Z.
    unfold Qeq, inject_Z in Z. simpl in Z. lia.
  - cbv zeta in *. rewrite Qred_correct in E.
    rewrite (Qred_complete _ _ E).
    apply Qred_inject_Z.
Qed.

(** The quotient of two integers below [2^53], whatever their signs. *)
Lemma floor_round_div (n d : Z) :
  Z.abs n < 2 ^ 53 -> d <> 0 -> Z.abs d < 2 ^ 53 ->
  Qfloor (Double.round (inject_Z n / inject_Z d)) = n / d.
Proof.
  intros Bn D Bd.
  destruct (Z.lt_ge_cases 0 d) as [P | P].
  - apply floor_round_quotient; lia.
  - assert (E : (inject_Z n / inject_Z d == inject_Z (- n) / inject_Z (- d))%Q).
    { rewrite !inject_Z_opp. field.
      unfold Qeq, inject_Z. simpl. lia. }
    rewrite (round_comp _ _ E), floor_round_quotient by lia.
    apply Z.div_opp_opp. exact D.
Qed.

(** ** Numbers that are integers *)

Lemma to_float_integral (a : number) (n : Z) :
  integral a n -> Z.abs n < 2 ^ 53 -> Num.to_float a = inject_Z n.
Proof.
  intros [-> | ->] B; [ now apply round_int_eq | reflexivity ].
Qed.

Lemma binop_integral (int_op : Z -> Z -> Z) (float_op : Q -> Q -> Q)
    (a b : number) (m n : Z) :
  (forall u v, inject_Z (int_op u v) = float_op (inject_Z u) (inject_Z v)) ->
  integral a m -> integral b n ->
  Z.abs m < 2 ^ 53 -> Z.abs n < 2 ^ 53 -> Z.abs (int_op m n) < 2 ^ 53 ->
  integral (Num.binop int_op float_op a b) (int_op m n).
Proof.
  intros H A B Bm Bn Bmn.
  assert (F : PyFloat (Double.round (float_op (Num.to_float a)
                                               (Num.to_float b)))
              = PyFloat (inject_Z (int_op m n))).
  { rewrite (to_float_integral a m A Bm), (to_float_integral b n B Bn), <- H.
    now rewrite round_int_eq. }
  destruct A as [-> | ->], B as [-> | ->];
    [ left; reflexivity | right; exact F .. ].
Qed.

Lemma add_integral (a b : number) (m n : Z) :
  integral a m -> integral b n ->
  Z.abs m < 2 ^ 53 -> Z.abs n < 2 ^ 53 -> Z.abs (m + n) < 2 ^ 53 ->
  integral (a + b)%num (m + n).
Proof. apply binop_integral. apply inject_Z_plus. Qed.

Lemma sub_integral (a b : number) (m n : Z) :
  integral a m -> integral b n ->
  Z.abs m < 2 ^ 53 -> Z.abs n < 2 ^ 53 -> Z.abs (m - n) < 2 ^ 53 ->
  integral (a - b)%num (m - n).
Proof.
  apply binop_integral. intros u v.
  unfold Z.sub, Qminus. now rewrite inject_Z_plus, inject_Z_opp.
Qed.

Lemma mul_integral (a b : number) (m n : Z) :
  integral a m -> integral b n ->
  Z.abs m < 2 ^ 53 -> Z.abs n < 2 ^ 53 -> Z.abs (m * n) < 2 ^ 53 ->
  integral (a * b)%num (m * n).
Proof. apply binop_integral. apply inject_Z_mult. Qed.

Lemma truediv_integral (a b : number) (n d : Z) :
  integral a n -> integral b d ->
  Z.abs n < 2 ^ 53 -> d <> 0 -> Z.abs d < 2 ^ 53 ->
  exists v, Num.truediv a b = Ok v /\ Num.floor v = n / d.
Proof.
  intros A B Bn D Bd. unfold Num.truediv.
  pose proof (to_float_integral a n A Bn) as Fa.
  pose proof (to_float_integral b d B Bd) as Fb.
  rewrite Fb.
  destruct (Qeq_bool (inject_Z d) 0) eqn:Z.
  { apply Qeq_bool_iff in Z. unfold Qeq, inject_Z in Z. simpl in Z. lia. }
  eexists. split; [ reflexivity | ].
  unfold Num.floor, Num.to_float.
  transitivity (Qfloor (Double.round (inject_Z n / inject_Z d))).
  - destruct A as [-> | ->], B as [-> | ->]; cbn [Num.to_float] in *;
      rewrite ?Fa, ?Fb; reflexivity.
  - now apply floor_round_div.
Qed.

(** ** Pixel indices *)

Lemma Qfloor_is_floor (q : Q) : is_floor q (Qfloor q).
Proof. split; [ apply Qfloor_le | apply Qlt_floor ]. Qed.

Lemma integral_minus_one : integral (PyFloat (-1)) (-1).
Proof. right. reflexivity. Qed.

Lemma product_bound (a b : Z) :
  0 < a <= 1000000 -> -1000000000 <= b <= 1000000000 ->
  -1000000000000000 <= a * b <= 1000000000000000.
Proof. intros A B. nia. Qed.

(** Below [2^53] in absolute value. *)
Ltac small :=
  apply Z.abs_lt; change (2 ^ 53) with 9007199254740992; lia.

Ltac integral_tac bound :=
  lazymatch goal with
  | |- integral (PyInt _) _ => left; reflexivity
  | |- integral (PyFloat (-1)) _ => exact integral_minus_one
  | |- integral (Num.mul _ _) _ =>
      eapply mul_integral;
      [ integral_tac bound | integral_tac bound | bound .. ]
  | |- integral (Num.add _ _) _ =>
      eapply add_integral;
      [ integral_tac bound | integral_tac bound | bound .. ]
  | |- integral (Num.sub _ _) _ =>
      eapply sub_integral;
      [ integral_tac bound | integral_tac bound | bound .. ]
  | |- integral _ _ => eassumption
  end.

(** On a point whose coordinates are integers, given as ints or as floats,
    every operation of the affine inversion is exact except the division,
    and the floor of the rounded quotient is the floor of the quotient. *)
Lemma xy2ij_value (t : tile.t) (x y : number) (xi yi : Z) (lowerleft : bool) :
  0 < core.sampling (tile.core t) <= 1000000 ->
  coordinate (tile.llx t) -> coordinate (tile.lly t) ->
  coordinate (core.tile_ysize_m (tile.core t)) ->
  integral x xi -> integral y yi -> coordinate xi -> coordinate yi ->
  xy2ij t x y lowerleft =
  Ok ((xi - tile.llx t) / core.sampling (tile.core t),
      if lowerleft
      then (yi - tile.lly t) / core.sampling (tile.core t)
      else (tile.lly t + core.tile_ysize_m (tile.core t) - yi)
           / core.sampling (tile.core t)).
Proof.
  unfold coordinate. intros S Cx Cy Ce X Y Bx By.
  destruct t as [c name llx lly land]. cbn [tile.core tile.llx tile.lly] in *.
  set (s := core.sampling c) in *. set (E := core.tile_ysize_m c) in *.
  apply Z.abs_le in Cx, Cy, Ce, Bx, By.
  pose proof (product_bound s llx S Cx) as P1.
  pose proof (product_bound s lly S Cy) as P2.
  pose proof (product_bound s E S Ce) as P3.
  pose proof (product_bound s xi S Bx) as P4.
  pose proof (product_bound s yi S By) as P5.
  assert (P6 : 0 < s * s <= 1000000000000) by nia.
  unfold xy2ij.
  destruct lowerleft;
    unfold geotransform, geotransform_lowerleft, gt_;
    cbn [nth tile.core tile.llx tile.lly]; fold s; fold E.
  - edestruct (truediv_integral
                 (PyFloat (-1)
                  * (PyInt 0 * PyInt lly - PyInt llx * PyInt s + PyInt s * x
                     - PyInt 0 * y))%num
                 (PyInt 0 * PyInt 0 - PyInt s * PyInt s)%num)
      as (i & Hi & Fi);
      [ integral_tac small
      | integral_tac small
      | small | lia | small | ].
    edestruct (truediv_integral
                 (PyFloat (-1)
                  * (PyInt (-1) * PyInt s * PyInt lly + PyInt llx * PyInt 0
                     - PyInt 0 * x + PyInt s * y))%num
                 (PyInt 0 * PyInt 0 - PyInt s * PyInt s)%num)
      as (j & Hj & Fj);
      [ integral_tac small
      | integral_tac small
      | small | lia | small | ].
    rewrite Hi. cbn [bind]. rewrite Hj. cbn [bind]. rewrite Fi, Fj.
    f_equal. f_equal.
    + replace (-1 * (0 * lly - llx * s + s * xi - 0 * yi))
        with (- (s * (xi - llx))) by ring.
      replace (0 * 0 - s * s) with (- (s * s)) by ring.
      rewrite Z.div_opp_opp by lia. apply Z.div_mul_cancel_l; lia.
    + replace (-1 * (-1 * s * lly + llx * 0 - 0 * xi + s * yi))
        with (- (s * (yi - lly))) by ring.
      replace (0 * 0 - s * s) with (- (s * s)) by ring.
      rewrite Z.div_opp_opp by lia. apply Z.div_mul_cancel_l; lia.
  - edestruct (truediv_integral
                 (PyFloat (-1)
                  * (PyInt 0 * PyInt (lly + E) - PyInt llx * PyInt (- s)
                     + PyInt (- s) * x - PyInt 0 * y))%num
                 (PyInt 0 * PyInt 0 - PyInt s * PyInt (- s))%num)
      as (i & Hi & Fi);
      [ integral_tac small
      | integral_tac small
      | small | lia | small | ].
    edestruct (truediv_integral
                 (PyFloat (-1)
                  * (PyInt (-1) * PyInt s * PyInt (lly + E)
                     + PyInt llx * PyInt 0 - PyInt 0 * x + PyInt s * y))%num
                 (PyInt 0 * PyInt 0 - PyInt s * PyInt (- s))%num)
      as (j & Hj & Fj);
      [ integral_tac small
      | integral_tac small
      | small | lia | small | ].
    rewrite Hi. cbn [bind]. rewrite Hj. cbn [bind]. rewrite Fi, Fj.
    f_equal. f_equal.
    + replace (-1 * (0 * (lly + E) - llx * - s + - s * xi - 0 * yi))
        with (s * (xi - llx)) by ring.
      replace (0 * 0 - s * - s) with (s * s) by ring.
      apply Z.div_mul_cancel_l; lia.
    + replace (-1 * (-1 * s * (lly + E) + llx * 0 - 0 * xi + s * yi))
        with (s * (lly + E - yi)) by ring.
      replace (0 * 0 - s * - s) with (s * s) by ring.
      apply Z.div_mul_cancel_l; lia.
Qed.

Lemma floor_of_difference (a b s : Z) :
  is_floor ((inject_Z a - inject_Z b) / inject_Z s)%Q ((a - b) / s).
Proof.
  rewrite Zdiv_Qdiv. unfold Z.sub. rewrite inject_Z_plus, inject_Z_opp.
  apply Qfloor_is_floor.
Qed.

(** C8, amended.  For every tile with lower-left corner (llx, lly), extent
    E and sampling s, and every point whose coordinates x and y are integers,
    given as ints or as floats, [xy2ij] returns the column i that is the
    floor of (x - llx)/s and the row j that is the floor of (lly + E - y)/s,
    counted from the north edge, when [lowerleft] is false, and the floor of
    (y - lly)/s when it is true: each index is the integer next below the
    quotient, never the nearest one.  The sampling is positive and at most
    10^6, and the coordinates and the extent are at most 10^9 in absolute
    value, so that the doubles of the affine inversion hold its products
    exactly.  For the sampling 500, the tile "EU500M_E000N000T6" and the
    point (112345, 318210) with rows counted from the top, the column is 224
    and the row is 563. *)
Theorem xy2ij_floors :
  forall (t : tile.t) (x y : number) (xi yi : Z),
  0 < core.sampling (tile.core t) <= 1000000 ->
  coordinate (tile.llx t) -> coordinate (tile.lly t) ->
  coordinate (core.tile_ysize_m (tile.core t)) ->
  integral x xi -> integral y yi -> coordinate xi -> coordinate yi ->
  (exists i j,
     xy2ij t x y false = Ok (i, j) /\
     is_floor ((inject_Z xi - inject_Z (tile.llx t))
               / inject_Z (core.sampling (tile.core t)))%Q i /\
     is_floor ((inject_Z (tile.lly t)
                + inject_Z (core.tile_ysize_m (tile.core t)) - inject_Z yi)
               / inject_Z (core.sampling (tile.core t)))%Q j) /\
  (exists i j,
     xy2ij t x y true = Ok (i, j) /\
     is_floor ((inject_Z xi - inject_Z (tile.llx t))
               / inject_Z (core.sampling (tile.core t)))%Q i /\
     is_floor ((inject_Z yi - inject_Z (tile.lly t))
               / inject_Z (core.sampling (tile.core t)))%Q j) /\
  (forall coverland,
     (self <- tilesys_of example_subgrid_ids 500 false "EU" ;;
      t0 <- create_tile example_subgrid_ids coverland self
              "EU500M_E000N000T6" ;;
      xy2ij t0 (PyInt 112345) (PyInt 318210) false) = Ok (224, 563)).
Proof.
  intros t x y xi yi S Cx Cy Ce X Y Bx By.
  split; [ | split ].
  - eexists _, _.
    rewrite (xy2ij_value t x y xi yi false S Cx Cy Ce X Y Bx By).
    split; [ reflexivity | split; [ apply floor_of_difference | ] ].
    rewrite <- inject_Z_plus. apply floor_of_difference.
  - eexists _, _.
    rewrite (xy2ij_value t x y xi yi true S Cx Cy Ce X Y Bx By).
    split; [ reflexivity | split; apply floor_of_difference ].
  - intro coverland. vm_compute. reflexivity.
Qed.

Lemma xy2ij_floors_witness :
  exists i j,
    xy2ij example_tile (PyInt 700000) (PyFloat (inject_Z 1300000)) false
      = Ok (i, j) /\
    is_floor ((inject_Z 700000 - inject_Z 600000) / inject_Z 500)%Q i /\
    is_floor ((inject_Z 1200000 + inject_Z 600000 - inject_Z 1300000)
              / inject_Z 500)%Q j.
Proof.
  apply (xy2ij_floors example_tile (PyInt 700000)
           (PyFloat (inject_Z 1300000)) 700000 1300000);
    unfold coordinate, integral; simpl; try lia; auto.
Defined.

(** C8 as stated fails where it counts the row from llx + E: for the tile
    "EU500M_E006N012T6", whose corner is (600000, 1200000), and the point
    (700000, 1300000) inside it, [xy2ij] returns the row 1000, the floor of
    (lly + E - y)/s, while the floor of (llx + E - y)/s is -200. *)
Lemma row_is_counted_from_lly :
  (self <- tilesys_of example_subgrid_ids 500 false "EU" ;;
   create_tile example_subgrid_ids example_coverland self
     "EU500M_E006N012T6") = Ok example_tile /\
  xy2ij example_tile (PyInt 700000) (PyInt 1300000) false
    = Ok (200, 1000) /\
  row_from_llx example_tile 1300000 = -200.
Proof. vm_compute. repeat split. Qed.

(** At a point that is not an integer the doubles round before the floor is
    taken, and the index need not be the floor of the exact quotient.  On the
    tile "EU500M_E000N000T6" with rows counted from the top, the float
    500.000000000001 gets the row 1199, where the floor of (600000 - y)/500
    is 1198 also for the double that the literal denotes; and the float 1e-20
    gets the row 1200, one past the last row, as a point of the south edge
    does. *)
Lemma fractional_point_rounds_before_floor :
  xy2ij origin_tile (PyInt 0)
    (float_literal (500000000000001 # 1000000000000)) false = Ok (0, 1199) /\
  Qfloor ((600000 - Double.round (500000000000001 # 1000000000000)) / 500)%Q
    = 1198 /\
  xy2ij origin_tile (PyInt 0)
    (float_literal (1 # 100000000000000000000)) false = Ok (0, 1200) /\
  xy2ij origin_tile (PyFloat 0)
    (float_literal (500000000000001 # 1000000000000)) false = Ok (0, 1199).
Proof. vm_compute. repeat split. Qed.

(** ** Family tiles *)

(** What [decode_tilename] returns, whatever the string: the tag, the
    sampling, the extent and the tilecode of the tiling system, and a corner
    that is aligned. *)
Lemma decode_block_inv (self : core.t) (block id : string) (s : Z)
    (d : decoded) :
  decode_block self block id s = Ok d ->
  exists e n,
    d = (id, s, core.tile_xsize_m self, e * 100000, n * 100000,
         core.tiletype self) /\
    e mod (core.tile_ysize_m self / 100000) = 0 /\
    n mod (core.tile_ysize_m self / 100000) = 0.
Proof.
  unfold decode_block.
  destruct (Py.index block (-1)) as [c | ]; [ | discriminate ]. cbn [bind].
  destruct (Py.int (String c "")) as [k | ]; [ | discriminate ]. cbn [bind].
  destruct (k * 100000 =? core.tile_xsize_m self) eqn:K; [ | discriminate ].
  destruct (Py.int (Py.slice block (Some 1) (Some 4))) as [e | ];
    [ | discriminate ]. cbn [bind].
  destruct (check_multiple e _) as [ [] | ] eqn:Ce; [ | discriminate ].
  cbn [bind].
  destruct (Py.int (Py.slice block (Some 5) (Some 8))) as [n | ];
    [ | discriminate ]. cbn [bind].
  destruct (check_multiple n _) as [ [] | ] eqn:Cn; [ | discriminate ].
  cbn [bind].
  destruct (String.eqb _ _) eqn:Q; [ | discriminate ].
  intro H. injection H as <-.
  apply check_multiple_ok in Ce, Cn.
  apply Z.eqb_eq in K. apply String.eqb_eq in Q.
  exists e, n. rewrite K, Q. tauto.
Qed.

Lemma decode_tilename_inv (self : core.t) (tilename : string) (d : decoded) :
  decode_tilename self tilename = Ok d ->
  exists e n,
    d = (core.tag self, core.sampling self, core.tile_xsize_m self,
         e * 100000, n * 100000, core.tiletype self) /\
    e mod (core.tile_ysize_m self / 100000) = 0 /\
    n mod (core.tile_ysize_m self / 100000) = 0.
Proof.
  rewrite decode_tilename_unfold.
  destruct (Py.len tilename =? 10); [ apply decode_block_inv | ].
  cbv zeta.
  destruct (String.eqb _ _) eqn:Q; [ | discriminate ].
  destruct (Py.item _ 0) as [token | ]; [ | discriminate ]. cbn [bind].
  destruct (decode_sampling _ _) as [s | ]; [ | discriminate ]. cbn [bind].
  destruct (Py.item _ 1) as [block | ]; [ | discriminate ]. cbn [bind].
  destruct (s =? _) eqn:S; [ | discriminate ].
  apply String.eqb_eq in Q. apply Z.eqb_eq in S. rewrite Q, S.
  apply decode_block_inv.
Qed.

(** The order of the tilecodes as strings is the order of the extents. *)
Lemma str_ge_classes (a b : string) (sa sb : Z) :
  is_class a sa = true -> is_class b sb = true ->
  Py.str_ge a b = (sb <=? sa).
Proof.
  intros A B.
  destruct (is_class_cases _ _ A) as [[-> ->] | [[-> ->] | [-> ->]]];
    destruct (is_class_cases _ _ B) as [[-> ->] | [[-> ->] | [-> ->]]];
    reflexivity.
Qed.

Lemma for_each_map {A B : Type} (f : A -> result B) (g : A -> B) (l : list A) :
  (forall a, In a l -> f a = Ok (g a)) -> for_each f l = Ok (map g l).
Proof.
  induction l as [ | a l IH]; intro H; simpl; [ reflexivity | ].
  rewrite (H a (or_introl eq_refl)). cbn [bind].
  rewrite IH by (intros; apply H; now right). reflexivity.
Qed.

Lemma length_range (n : Z) : length (range n) = Z.to_nat n.
Proof. unfold range. now rewrite length_map, length_seq. Qed.

Lemma in_range_inv (n k : Z) : In k (range n) -> 0 <= k < n.
Proof.
  unfold range. rewrite in_map_iff. intros (i & <- & I).
  apply in_seq in I. lia.
Qed.

(** The number of family corners: [n * n] for smaller target tiles, one
    otherwise. *)
Lemma length_family_corners (size tsize llx lly : Z) :
  Z.of_nat (length (family_corners size tsize llx lly)) =
  if tsize <? size then Z.max 0 (size / tsize) * Z.max 0 (size / tsize) else 1.
Proof.
  unfold family_corners.
  destruct (tsize <? size); [ | reflexivity ].
  rewrite length_map, length_prod, length_range. lia.
Qed.

(** Every family corner is a multiple of the target extent. *)
Lemma family_corners_aligned (tt ttt : string) (size tsize llx lly : Z)
    (c : Z * Z) :
  is_class tt size = true -> is_class ttt tsize = true ->
  llx mod size = 0 -> lly mod size = 0 ->
  In c (family_corners size tsize llx lly) ->
  fst c mod tsize = 0 /\ snd c mod tsize = 0.
Proof.
  intros C T X Y I. unfold family_corners in I.
  assert (P : 0 < tsize).
  { destruct (is_class_cases _ _ T) as [[_ ->] | [[_ ->] | [_ ->]]]; lia. }
  destruct (tsize <? size) eqn:L.
  - apply in_map_iff in I. destruct I as ((i & j) & <- & _).
    cbn [fst snd].
    assert (D : size mod tsize = 0).
    { destruct (is_class_cases _ _ C) as [[_ ->] | [[_ ->] | [_ ->]]];
        destruct (is_class_cases _ _ T) as [[_ ->] | [[_ ->] | [_ ->]]];
        try reflexivity; apply Z.ltb_lt in L; lia. }
    apply Z.mod_divide in D; [ | lia ]. destruct D as [q ->].
    assert (Q : q * tsize <> 0) by (apply Z.ltb_lt in L; lia).
    apply Z.mod_divide in X, Y; trivial.
    destruct X as [a ->]. destruct Y as [b ->].
    split; apply Z.mod_divide; try lia.
    + exists (a * q + i). lia.
    + exists (b * q + j). lia.
  - destruct I as [<- | []]. cbn [fst snd].
    split; apply Z.mod_mul; lia.
Qed.

Lemma for_each_ext {A B : Type} (f g : A -> result B) (l : list A) :
  (forall a, f a = g a) -> for_each f l = for_each g l.
Proof.
  intro H. induction l as [ | a l IH]; simpl; [ | rewrite H, IH ]; reflexivity.
Qed.

Lemma for_each_on_map {A B C : Type} (f : B -> result C) (h : A -> B)
    (l : list A) :
  for_each f (map h l) = for_each (fun a => f (h a)) l.
Proof.
  induction l as [ | a l IH]; simpl; [ | rewrite IH ]; reflexivity.
Qed.

(** The call in terms of the family corners: the names are those that the
    tiling system of the source's subgrid in the target grid encodes for the
    corners, in their order. *)
Lemma family_tiles_result (ids : list string) (self : core.t)
    (tilename : string) (target_sampling : option Z)
    (target_tiletype : option string) (ts : Z) (ttt : string)
    (tsize llx lly : Z) :
  class_core self -> In (core.tag self) ids ->
  decode_tilename self tilename =
    Ok (core.tag self, core.sampling self, core.tile_xsize_m self, llx, lly,
        core.tiletype self) ->
  searched_sampling target_sampling target_tiletype = Ok ts ->
  In ts _static_sampling ->
  get_tiletype ts = Ok ttt -> tilesize_of_tiletype ttt = Ok tsize ->
  get_congruent_tiles_from_tilename ids self tilename target_sampling
    target_tiletype =
  for_each
    (fun c =>
       encode_tilename (core.make (core.tag self) ts ttt tsize tsize false)
         (fst c) (snd c) ts ttt
         (match target_sampling with None => true | Some _ => false end))
    (family_corners (core.tile_xsize_m self) tsize llx lly).
Proof.
  intros [C Y] I D R S E Z.
  destruct (Equi7Grid_static ts false S) as (ttt' & tsize' & E' & Z' & T & G).
  assert (ttt' = ttt) as -> by congruence.
  assert (tsize' = tsize) as -> by congruence.
  unfold get_congruent_tiles_from_tilename.
  rewrite R. cbn [bind]. rewrite G. cbn [bind]. rewrite D. cbn [bind].
  cbn [core.tiletype core.tile_xsize_m].
  rewrite (str_ge_classes _ _ _ _ T C).
  assert (Sg : subgrids ids (core.make "Equi7" ts ttt tsize tsize false)
                 (core.tag self) =
               Ok (core.make (core.tag self) ts ttt tsize tsize false)).
  { unfold subgrids, Equi7Subgrid.
    rewrite (proj2 (str_in_iff _ _) I). reflexivity. }
  unfold family_corners.
  destruct (core.tile_xsize_m self <=? tsize) eqn:L.
  - assert (L' : (tsize <? core.tile_xsize_m self) = false)
      by (reflect_tests; apply Z.ltb_ge; lia).
    rewrite L', Sg. cbn [bind for_each fst snd].
    destruct (encode_tilename _ _ _ _ _ _); reflexivity.
  - assert (L' : (tsize <? core.tile_xsize_m self) = true)
      by (reflect_tests; apply Z.ltb_lt; lia).
    rewrite L', for_each_on_map. apply for_each_ext.
    intros [i j]. rewrite Sg. reflexivity.
Qed.

(** The name that [encode_tilename] returns for an aligned corner whose
    fields take three characters. *)
Lemma encode_tilename_shape (self : core.t) (token : string) (llx lly : Z)
    (shortform : bool) :
  class_core self -> two_letter (core.tag self) = true ->
  encode_sampling (core.sampling self) (core.tile_names_in_m self) = Ok token ->
  no_char "M" token = true -> no_char "_" token = true ->
  decode_sampling token (core.tile_names_in_m self) = Ok (core.sampling self) ->
  fits3 (llx / 100000) = true -> fits3 (lly / 100000) = true ->
  (llx / 100000) mod (core.tile_xsize_m self / 100000) = 0 ->
  (lly / 100000) mod (core.tile_xsize_m self / 100000) = 0 ->
  encode_tilename self llx lly (core.sampling self) (core.tiletype self)
    shortform =
  Ok (if shortform && (Py.len token =? 3)
      then shortname (llx / 100000) (lly / 100000) (core.tiletype self)
      else longform (core.tag self) token llx lly (core.tiletype self)).
Proof.
  intros C T Enc NM NU D Fe Fn Ae An.
  unfold encode_tilename. rewrite Enc. cbn [bind].
  destruct shortform; [ | reflexivity ].
  now rewrite tilename2short_longform.
Qed.

(** The names of the family corners in the target grid and what they are
    decoded to, for corners whose fields take three characters. *)
Lemma family_names (sg : string) (ts : Z) (ttt : string) (tsize : Z)
    (shortform : bool) (tt : string) (size llx lly : Z) :
  two_letter sg = true -> In ts _static_sampling ->
  get_tiletype ts = Ok ttt -> tilesize_of_tiletype ttt = Ok tsize ->
  is_class tt size = true -> llx mod size = 0 -> lly mod size = 0 ->
  forallb corner_fits3 (family_corners size tsize llx lly) = true ->
  exists token,
    encode_sampling ts false = Ok token /\
    forall c, In c (family_corners size tsize llx lly) ->
      encode_tilename (core.make sg ts ttt tsize tsize false)
        (fst c) (snd c) ts ttt shortform =
      Ok (if shortform
          then shortname (fst c / 100000) (snd c / 100000) ttt
          else longform sg token (fst c) (snd c) ttt) /\
      decode_tilename (core.make sg ts ttt tsize tsize false)
        (if shortform
         then shortname (fst c / 100000) (snd c / 100000) ttt
         else longform sg token (fst c) (snd c) ttt) =
      Ok (sg, ts, tsize, fst c, snd c, ttt).
Proof.
  intros T S E Z C X Y F.
  destruct (class_of_tiletype ts ttt E) as (tsize' & Z' & K & _).
  assert (tsize' = tsize) as -> by congruence.
  destruct (token_of_static false ts S) as (token & Enc & NM & NU & D & _ & L3).
  specialize (L3 eq_refl).
  exists token. split; [ exact Enc | ].
  intros c I.
  rewrite forallb_forall in F. specialize (F c I).
  unfold corner_fits3 in F. apply andb_true_iff in F. destruct F as [Fx Fy].
  destruct (family_corners_aligned _ _ _ _ _ _ _ C K X Y I) as [Ax Ay].
  destruct (aligned_fields _ _ _ K Ax) as [Mx Rx].
  destruct (aligned_fields _ _ _ K Ay) as [My Ry].
  assert (CC : class_core (core.make sg ts ttt tsize tsize false))
    by (split; [ exact K | reflexivity ]).
  pose proof (encode_tilename_shape (core.make sg ts ttt tsize tsize false)
                token (fst c) (snd c) shortform CC T Enc NM NU D Fx Fy Mx My)
    as P1.
  pose proof (decode_shortname (core.make sg ts ttt tsize tsize false)
                (fst c / 100000) (snd c / 100000) CC Fx Fy) as P2.
  pose proof (decode_longform (core.make sg ts ttt tsize tsize false)
                token (fst c) (snd c) CC T NM NU D Fx Fy) as P3.
  pose proof (decoded_fields_aligned (core.make sg ts ttt tsize tsize false)
                (fst c / 100000) (snd c / 100000) CC Mx My) as P4.
  cbn [core.tag core.sampling core.tile_xsize_m core.tiletype] in P1, P2, P3, P4.
  rewrite P4, Rx, Ry in P2, P3.
  rewrite L3 in P1. change (3 =? 3) with true in P1. rewrite andb_true_r in P1.
  split; [ exact P1 | ].
  destruct shortform; assumption.
Qed.

Lemma corner_of_aligned_field (tt : string) (size e : Z) :
  is_class tt size = true -> e mod (size / 100000) = 0 ->
  (e * 100000) mod size = 0.
Proof.
  intros C M.
  destruct (is_class_cases _ _ C) as [[_ ->] | [[_ ->] | [_ ->]]];
    [ change (600000 / 100000) with 6 in M
    | change (300000 / 100000) with 3 in M
    | change (100000 / 100000) with 1 in M ];
    apply Z.mod_divide in M; try lia; destruct M as [k ->];
    apply Z.mod_divide; try lia; exists k; lia.
Qed.

Lemma tilesys_of_static (ids : list string) (ts : Z) (ttt : string)
    (tsize : Z) (sg : string) :
  In ts _static_sampling -> In sg ids ->
  get_tiletype ts = Ok ttt -> tilesize_of_tiletype ttt = Ok tsize ->
  tilesys_of ids ts false sg = Ok (core.make sg ts ttt tsize tsize false).
Proof.
  intros S I E Z.
  destruct (Equi7Grid_static ts false S) as (ttt' & tsize' & E' & Z' & _ & G).
  assert (ttt' = ttt) as -> by congruence.
  assert (tsize' = tsize) as -> by congruence.
  unfold tilesys_of. rewrite G. cbn [bind].
  unfold subgrids, Equi7Subgrid.
  rewrite (proj2 (str_in_iff _ _) I). reflexivity.
Qed.

Lemma class_ratio (tt ttt : string) (size tsize : Z) :
  is_class tt size = true -> is_class ttt tsize = true -> tsize < size ->
  size mod tsize = 0 /\ 0 < size / tsize.
Proof.
  intros C T L.
  destruct (is_class_cases _ _ C) as [[_ ->] | [[_ ->] | [_ ->]]];
    destruct (is_class_cases _ _ T) as [[_ ->] | [[_ ->] | [_ ->]]];
    try lia; split; reflexivity.
Qed.

(** C6, amended.  Take a source name that [decode_tilename] accepts on the
    tiling system of a grid, and a target (a sampling, or a tilecode alone)
    that stands for a supported sampling.  The family corners are: when the
    target extent is smaller than the source extent, the n * n corners
    (src_llx + i * target_extent, src_lly + j * target_extent) for i, j in
    [0, n), n = source_extent / target_extent, an integer; otherwise the one
    corner (floor(src_llx / target_extent) * target_extent,
    floor(src_lly / target_extent) * target_extent).
    With an explicit target sampling the call returns the long names of the
    family corners.  When the fields of the family corners take three
    characters, the call returns, with a target sampling or a target tilecode,
    exactly one name per family corner, in their order, and the tiling system
    of the source's subgrid in the target grid decodes each name to the
    source's subgrid tag and to its corner. *)
Theorem family_tiles_geometry :
  forall (ids : list string) (s : Z) (m : bool) (sg : string) (self : core.t)
         (tilename sg0 : string) (s0 size src_llx src_lly : Z) (tt : string)
         (target_sampling : option Z) (target_tiletype : option string)
         (ts : Z) (ttt : string) (tsize : Z),
  tilesys_of ids s m sg = Ok self -> two_letter sg = true ->
  decode_tilename self tilename = Ok (sg0, s0, size, src_llx, src_lly, tt) ->
  searched_sampling target_sampling target_tiletype = Ok ts ->
  In ts _static_sampling ->
  get_tiletype ts = Ok ttt -> tilesize_of_tiletype ttt = Ok tsize ->
  (tsize < size ->
     size mod tsize = 0 /\
     Z.of_nat (length (family_corners size tsize src_llx src_lly)) =
     (size / tsize) * (size / tsize)) /\
  (size <= tsize ->
     family_corners size tsize src_llx src_lly =
     [(src_llx / tsize * tsize, src_lly / tsize * tsize)]) /\
  (forall token,
     target_sampling <> None -> encode_sampling ts false = Ok token ->
     get_congruent_tiles_from_tilename ids self tilename target_sampling
       target_tiletype =
     Ok (map (fun c => longform sg token (fst c) (snd c) ttt)
           (family_corners size tsize src_llx src_lly))) /\
  (forallb corner_fits3 (family_corners size tsize src_llx src_lly) = true ->
   exists tsys names,
     tilesys_of ids ts false sg = Ok tsys /\
     get_congruent_tiles_from_tilename ids self tilename target_sampling
       target_tiletype = Ok names /\
     length names = length (family_corners size tsize src_llx src_lly) /\
     map (decode_tilename tsys) names =
     map (fun c => Ok (sg, ts, tsize, fst c, snd c, ttt))
       (family_corners size tsize src_llx src_lly)).
Proof.
  intros ids s m sg self tilename sg0 s0 size src_llx src_lly tt
         target_sampling target_tiletype ts ttt tsize H T D R S E Z.
  destruct (tilesys_class_core _ _ _ _ _ H)
    as (C & <- & <- & <- & _ & I & _).
  destruct (decode_tilename_inv _ _ _ D) as (e & n & Q & Me & Mn).
  injection Q as -> -> -> -> -> ->.
  destruct C as [C Y]. rewrite Y in Me, Mn.
  pose proof (corner_of_aligned_field _ _ _ C Me) as Ax.
  pose proof (corner_of_aligned_field _ _ _ C Mn) as Ay.
  destruct (class_of_tiletype ts ttt E) as (tsize' & Z' & K & _).
  assert (tsize' = tsize) as -> by congruence.
  pose proof (family_tiles_result ids self tilename target_sampling
                target_tiletype ts ttt tsize _ _ (conj C Y) I D R S E Z) as F.
  split; [ | split; [ | split ] ].
  - intro L. destruct (class_ratio _ _ _ _ C K L) as [M P].
    split; [ exact M | ].
    rewrite length_family_corners.
    destruct (tsize <? _) eqn:L'; [ lia | apply Z.ltb_ge in L'; lia ].
  - intro L. unfold family_corners.
    destruct (tsize <? _) eqn:L'; [ apply Z.ltb_lt in L'; lia | reflexivity ].
  - intros token N Enc. rewrite F.
    destruct target_sampling as [v | ]; [ | congruence ].
    apply for_each_map. intros c _.
    now apply (encode_tilename_long (core.make (core.tag self) ts ttt tsize
                                       tsize false)).
  - intro Fit.
    destruct (family_names (core.tag self) ts ttt tsize
                (match target_sampling with None => true | Some _ => false end)
                _ _ _ _ T S E Z C Ax Ay Fit) as (token & Enc & N).
    eexists _, _.
    split; [ apply (tilesys_of_static ids ts ttt tsize); trivial | ].
    split; [ rewrite F; apply for_each_map; intros c Ic; apply (N c Ic) | ].
    split; [ apply length_map | ].
    rewrite map_map. apply map_ext_in. intros c Ic. apply (N c Ic).
Qed.

Lemma family_tiles_geometry_witness :
  exists tsys names,
    tilesys_of example_subgrid_ids 20 false "EU" = Ok tsys /\
    get_congruent_tiles_from_tilename example_subgrid_ids
      (core.make "EU" 500 "T6" 600000 600000 false) "E012N018T6"
      None (Some "T3") = Ok names /\
    length names = length (family_corners 600000 300000 1200000 1800000) /\
    map (decode_tilename tsys) names =
    map (fun c => Ok ("EU", 20, 300000, fst c, snd c, "T3"))
      (family_corners 600000 300000 1200000 1800000).
Proof.
  apply (proj2 (proj2 (proj2
           (family_tiles_geometry example_subgrid_ids 500 false "EU"
              (core.make "EU" 500 "T6" 600000 600000 false)
              "E012N018T6" "EU" 500 600000 1200000 1800000 "T6"
              None (Some "T3") 20 "T3" 300000
              eq_refl eq_refl eq_refl eq_refl
              ltac:(unfold _static_sampling; simpl; tauto)
              eq_refl eq_refl)))).
  reflexivity.
Defined.

(** C6 as stated fails at the edge of the three-digit fields: the name
    "E996N000T6" is decoded on the T6 tiling system of the grid of sampling
    500, but asking for its T1 family raises instead of returning 36 names:
    the check of the name for the corner E1000 reads "N00" as its north
    field. *)
Lemma family_of_E996_raises :
  (self <- tilesys_of example_subgrid_ids 500 false "EU" ;;
   decode_tilename self "E996N000T6") =
    Ok ("EU", 500, 600000, 99600000, 0, "T6") /\
  (self <- tilesys_of example_subgrid_ids 500 false "EU" ;;
   get_congruent_tiles_from_tilename example_subgrid_ids self "E996N000T6"
     None (Some "T1")) = Raise (ValueError msg_invalid_literal).
Proof. split; vm_compute; reflexivity. Qed.

Lemma sampling_of_tiletype_inv (t : string) (ts : Z) :
  sampling_of_tiletype t = Ok ts ->
  (t = "T1" /\ ts = 10) \/ (t = "T3" /\ ts = 20) \/ (t = "T6" /\ ts = 500).
Proof.
  unfold sampling_of_tiletype.
  destruct (String.eqb t "T1") eqn:E1;
    [ apply String.eqb_eq in E1; intro H; injection H as <-; auto | ].
  destruct (String.eqb t "T3") eqn:E3;
    [ apply String.eqb_eq in E3; intro H; injection H as <-; auto | ].
  destruct (String.eqb t "T6") eqn:E6;
    [ apply String.eqb_eq in E6; intro H; injection H as <-; auto | ].
  discriminate.
Qed.

(** C9, amended.  In [get_congruent_tiles_from_tilename], for a source name
    that [decode_tilename] accepts: with an explicit target sampling (with or
    without a tilecode) every returned name is in long form.  With a target
    tilecode alone, the names are built by the tiling system of the grid of
    the representative sampling, 10 for "T1", 20 for "T3" and 500 for "T6",
    asked for the short form, and they are in short form when the fields of
    the family corners take three characters.  Any other target tilecode
    raises the tilecode error [msg3], whatever the name. *)
Theorem family_tiles_name_form :
  forall (ids : list string) (s : Z) (m : bool) (sg : string) (self : core.t)
         (tilename sg0 : string) (s0 size src_llx src_lly : Z) (tt : string),
  tilesys_of ids s m sg = Ok self -> two_letter sg = true ->
  decode_tilename self tilename = Ok (sg0, s0, size, src_llx, src_lly, tt) ->
  (forall ts target_tiletype ttt tsize token,
     In ts _static_sampling ->
     get_tiletype ts = Ok ttt -> tilesize_of_tiletype ttt = Ok tsize ->
     encode_sampling ts false = Ok token ->
     get_congruent_tiles_from_tilename ids self tilename (Some ts)
       target_tiletype =
     Ok (map (fun c => longform sg token (fst c) (snd c) ttt)
           (family_corners size tsize src_llx src_lly))) /\
  (forall t ts,
     sampling_of_tiletype t = Ok ts ->
     ((t = "T1" /\ ts = 10) \/ (t = "T3" /\ ts = 20) \/ (t = "T6" /\ ts = 500)) /\
     exists tsys tsize,
       tilesys_of ids ts false sg = Ok tsys /\
       core.sampling tsys = ts /\ core.tiletype tsys = t /\
       core.tile_xsize_m tsys = tsize /\
       get_congruent_tiles_from_tilename ids self tilename None (Some t) =
       for_each (fun c => encode_tilename tsys (fst c) (snd c) ts t true)
         (family_corners size tsize src_llx src_lly) /\
       (forallb corner_fits3 (family_corners size tsize src_llx src_lly) = true ->
        get_congruent_tiles_from_tilename ids self tilename None (Some t) =
        Ok (map (fun c => shortname (fst c / 100000) (snd c / 100000) t)
              (family_corners size tsize src_llx src_lly)))) /\
  (forall t anyname,
     t <> "T1" -> t <> "T3" -> t <> "T6" ->
     get_congruent_tiles_from_tilename ids self anyname None (Some t) =
     Raise (ValueError msg3)).
Proof.
  intros ids s m sg self tilename sg0 s0 size src_llx src_lly tt H T D.
  destruct (tilesys_class_core _ _ _ _ _ H)
    as (C & <- & <- & <- & _ & I & _).
  destruct (decode_tilename_inv _ _ _ D) as (e & n & Q & Me & Mn).
  injection Q as -> -> -> -> -> ->.
  destruct C as [C Y]. rewrite Y in Me, Mn.
  pose proof (corner_of_aligned_field _ _ _ C Me) as Ax.
  pose proof (corner_of_aligned_field _ _ _ C Mn) as Ay.
  split; [ | split ].
  - intros ts target_tiletype ttt tsize token S E Z Enc.
    rewrite (family_tiles_result ids self tilename (Some ts) target_tiletype
               ts ttt tsize _ _ (conj C Y) I D eq_refl S E Z).
    apply for_each_map. intros c _.
    now apply (encode_tilename_long (core.make (core.tag self) ts ttt tsize
                                       tsize false)).
  - intros t ts R.
    pose proof (sampling_of_tiletype_inv t ts R) as V.
    split; [ exact V | ].
    assert (W : exists tsize,
               In ts _static_sampling /\ get_tiletype ts = Ok t /\
               tilesize_of_tiletype t = Ok tsize).
    { destruct V as [[-> ->] | [[-> ->] | [-> ->]]]; eexists;
        (split; [ unfold _static_sampling; simpl; tauto | ]);
        split; reflexivity. }
    destruct W as (tsize & S & E & Z).
    exists (core.make (core.tag self) ts t tsize tsize false), tsize.
    split; [ now apply tilesys_of_static | ].
    repeat (split; [ reflexivity | ]).
    pose proof (family_tiles_result ids self tilename None (Some t)
                  ts t tsize _ _ (conj C Y) I D R S E Z) as F.
    split; [ exact F | ].
    intro Fit.
    destruct (family_names (core.tag self) ts t tsize true
                _ _ _ _ T S E Z C Ax Ay Fit) as (token & Enc & N).
    rewrite F. apply for_each_map. intros c Ic. apply (N c Ic).
  - intros t anyname N1 N3 N6.
    unfold get_congruent_tiles_from_tilename, searched_sampling,
      sampling_of_tiletype.
    apply String.eqb_neq in N1, N3, N6. rewrite N1, N3, N6. reflexivity.
Qed.

Lemma family_tiles_name_form_witness :
  get_congruent_tiles_from_tilename example_subgrid_ids
    (core.make "EU" 500 "T6" 600000 600000 false) "E012N018T6"
    None (Some "T9") = Raise (ValueError msg3) /\
  get_congruent_tiles_from_tilename example_subgrid_ids
    (core.make "EU" 500 "T6" 600000 600000 false) "E012N018T6"
    (Some 20) None =
  Ok (map (fun c => longform "EU" "020" (fst c) (snd c) "T3")
        (family_corners 600000 300000 1200000 1800000)).
Proof.
  pose proof (family_tiles_name_form example_subgrid_ids 500 false "EU"
                (core.make "EU" 500 "T6" 600000 600000 false)
                "E012N018T6" "EU" 500 600000 1200000 1800000 "T6"
                eq_refl eq_refl eq_refl) as (A & _ & B).
  split.
  - apply B; discriminate.
  - apply A; try reflexivity. unfold _static_sampling. simpl. tauto.
Defined.

(** C9 as stated fails at the edge of the three-digit fields: for the source
    name "E000N996T6" and the target tilecode "T1" alone, the fifth name
    returned is the long form "EU010M_E000N1000T1", which has 18 characters
    and is left as it is by [tilename2short]. *)
Lemma family_name_left_long :
  (self <- tilesys_of example_subgrid_ids 500 false "EU" ;;
   decode_tilename self "E000N996T6") =
    Ok ("EU", 500, 600000, 0, 99600000, "T6") /\
  (self <- tilesys_of example_subgrid_ids 500 false "EU" ;;
   names <- get_congruent_tiles_from_tilename example_subgrid_ids self
              "E000N996T6" None (Some "T1") ;;
   Ok (length names, nth 3 names EmptyString, nth 4 names EmptyString)) =
    Ok (36%nat, "E000N999T1", "EU010M_E000N1000T1").
Proof. split; vm_compute; reflexivity. Qed.

(** ** Further properties of the codec *)

(** X1.  Whatever the string, a tuple that [decode_tilename] returns holds
    the tag, the sampling, the tile extent and the tilecode of the tiling
    system itself, and a corner whose coordinates are 100000 times integers
    that are multiples of the tile extent in units of 100 km: no field of the
    tuple is left unchecked. *)
Theorem decode_tilename_validates :
  forall (self : core.t) (tilename : string) (d : decoded),
  decode_tilename self tilename = Ok d ->
  exists e n,
    d = (core.tag self, core.sampling self, core.tile_xsize_m self,
         e * 100000, n * 100000, core.tiletype self) /\
    e mod (core.tile_ysize_m self / 100000) = 0 /\
    n mod (core.tile_ysize_m self / 100000) = 0.
Proof. exact decode_tilename_inv. Qed.

Lemma decode_tilename_validates_witness :
  exists e n,
    ("EU", 500, 600000, 1200000, 1800000, "T6") =
    ("EU", 500, 600000, e * 100000, n * 100000, "T6") /\
    e mod (600000 / 100000) = 0 /\ n mod (600000 / 100000) = 0.
Proof.
  exact (decode_tilename_validates
           (core.make "EU" 500 "T6" 600000 600000 false)
           "EU500M_E012N018T6"
           ("EU", 500, 600000, 1200000, 1800000, "T6") eq_refl).
Defined.

(** X2.  On a grid whose tile names are in metres ([tile_names_in_m] true)
    and whose sampling is 1000 or more, the token of the sampling has four
    characters and the long name 18: [tilename2short] shortens only names of
    17 characters, so [encode_tilename] returns the long form also when the
    short form is asked for. *)
Theorem shortform_needs_17_characters :
  forall (ids : list string) (s : Z) (sg : string) (self : core.t)
         (llx lly : Z),
  tilesys_of ids s true sg = Ok self -> two_letter sg = true ->
  1000 <= s ->
  llx mod core.tile_xsize_m self = 0 -> lly mod core.tile_xsize_m self = 0 ->
  0 <= llx / 100000 <= 999 -> 0 <= lly / 100000 <= 999 ->
  exists name,
    encode_tilename self llx lly s (core.tiletype self) true = Ok name /\
    encode_tilename self llx lly s (core.tiletype self) false = Ok name /\
    Py.len name = 18.
Proof.
  intros ids s sg self llx lly H T L Ax Ay Bx By.
  destruct (tilesys_class_core _ _ _ _ _ H)
    as (C & Tg & Sm & M & I & _).
  destruct (token_of_static true s I) as (token & Enc & NM & NU & D & _).
  assert (L4 : Py.len token = 4).
  { unfold _static_sampling in I. simpl in I.
    repeat (destruct I as [<- | I];
            [ first [ lia | vm_compute in Enc; injection Enc as <-;
                            reflexivity ] | ]).
    contradiction. }
  destruct C as [C Y].
  destruct (aligned_fields _ _ _ C Ax) as [Mx _].
  destruct (aligned_fields _ _ _ C Ay) as [My _].
  apply fits3_of_bounds in Bx, By.
  rewrite <- Tg in T. rewrite <- Sm, <- M in Enc, D.
  pose proof (encode_tilename_shape self token llx lly true (conj C Y) T Enc
                NM NU D Bx By Mx My) as P1.
  pose proof (encode_tilename_shape self token llx lly false (conj C Y) T Enc
                NM NU D Bx By Mx My) as P2.
  rewrite L4 in P1. cbn [andb] in P1, P2. change (4 =? 3) with false in P1.
  rewrite Sm in P1, P2.
  eexists. split; [ exact P1 | split; [ exact P2 | ] ].
  destruct (two_letter_inv _ T) as [LT _].
  destruct (class_core_tiletype self (conj C Y)) as [LC _].
  rewrite len_longform by trivial. lia.
Qed.

Lemma shortform_needs_17_characters_witness :
  exists name,
    encode_tilename (core.make "EU" 6000 "T6" 600000 600000 true)
      1200000 1800000 6000 "T6" true = Ok name /\
    encode_tilename (core.make "EU" 6000 "T6" 600000 600000 true)
      1200000 1800000 6000 "T6" false = Ok name /\
    Py.len name = 18.
Proof.
  apply (shortform_needs_17_characters example_subgrid_ids 6000 "EU"
           (core.make "EU" 6000 "T6" 600000 600000 true) 1200000 1800000);
    try reflexivity; vm_compute; try split; discriminate.
Defined.

(** ** Building a grid *)

(** X3.  [Equi7Grid] builds a grid exactly for the samplings of
    [_static_sampling]: for them the constructor returns the core with the
    tilecode of the sampling and the square extent of its class, whatever
    [tile_names_in_m]; for every other sampling it raises the error of an
    unsupported sampling, also when [get_tiletype] accepts the sampling, as
    for 1500. *)
Theorem Equi7Grid_builds_enumerated :
  forall (s : Z) (m : bool),
  (succeeds (Equi7Grid s m) = true <-> In s _static_sampling) /\
  (forall c, Equi7Grid s m = Ok c ->
     exists tilecode size,
       get_tiletype s = Ok tilecode /\
       tilesize_of_tiletype tilecode = Ok size /\
       c = core.make "Equi7" s tilecode size size m) /\
  (forall e, Equi7Grid s m = Raise e ->
     e = ValueError msg_sampling_not_supported) /\
  supported 1500 /\
  Equi7Grid 1500 m = Raise (ValueError msg_sampling_not_supported).
Proof.
  intros s m.
  split; [ | split; [ | split; [ | split ] ] ].
  - split.
    + destruct (Equi7Grid s m) as [c | ] eqn:G; [ | discriminate ].
      intros _. now destruct (Equi7Grid_inv s m c G).
    + intro I. destruct (Equi7Grid_static s m I) as (t & z & _ & _ & _ & ->).
      reflexivity.
  - intros c G.
    destruct (Equi7Grid_inv s m c G) as (_ & t & z & E & Z & _ & ->).
    exists t, z. repeat split; trivial.
  - intros e G. unfold Equi7Grid in G.
    destruct (existsb (Z.eqb s) _static_sampling) eqn:I.
    + apply static_sampling_in in I.
      destruct (Equi7Grid_static s m I) as (t & z & _ & _ & _ & G').
      unfold Equi7Grid in G'.
      rewrite (proj2 (static_sampling_in s) I) in G'. congruence.
    + congruence.
  - exists "T6". reflexivity.
  - reflexivity.
Qed.

(** X4.  Whenever [get_tilesize] returns, the tile is square, its extent is
    one of 600000, 300000 and 100000, and the extent is a multiple of the
    sampling: a tile has a whole number of pixels per side, between 100 and
    100000. *)
Theorem get_tilesize_whole_pixels :
  forall (s xsize ysize : Z),
  get_tilesize s = Ok (xsize, ysize) ->
  xsize = ysize /\
  (xsize = 600000 \/ xsize = 300000 \/ xsize = 100000) /\
  xsize mod s = 0 /\
  100 <= xsize / s <= 100000.
Proof.
  intros s xsize ysize H. unfold get_tilesize in H.
  destruct (get_tiletype_cases s)
    as [(C & E) | [(_ & C & E) | [(_ & _ & C & E) | (_ & _ & _ & E)]]];
    rewrite E in H; simpl in H; try discriminate;
    injection H as <- <-; destruct C as [[L U] M];
    (split; [ reflexivity | ]); (split; [ tauto | ]);
    (split; [ exact M | ]);
    split;
    first [ apply Z.div_le_lower_bound; lia
          | apply Z.div_le_upper_bound; lia ].
Qed.

Lemma get_tilesize_whole_pixels_witness :
  600000 = 600000 /\
  (600000 = 600000 \/ 600000 = 300000 \/ 600000 = 100000) /\
  600000 mod 500 = 0 /\
  100 <= 600000 / 500 <= 100000.
Proof.
  exact (get_tilesize_whole_pixels 500 600000 600000 eq_refl).
Defined.

(** ** Tokens of samplings *)

Lemma tokens_stable_checked :
  forallb (token_stable_check true) (range 10000) = true /\
  forallb (token_stable_check false) (range 10000) = true.
Proof. split; vm_compute; reflexivity. Qed.

Lemma result_str_is_eq (r : result string) (v : string) :
  result_str_is r v = true -> r = Ok v.
Proof.
  destruct r as [w | ]; simpl; intro H; [ | discriminate ].
  apply String.eqb_eq in H. now subst.
Qed.

(** X5.  For every sampling from 0 to 9999 and in both forms,
    [encode_sampling] returns a token, [decode_sampling] reads it as a
    sampling, and that sampling has the same token again: the kilometre form
    loses digits of the sampling (1234 is read back as 1200) but a token is
    stable.  In the kilometre form every token has three characters; in the
    metres form at least three. *)
Theorem sampling_token_stable :
  forall (s : Z) (m : bool),
  0 <= s <= 9999 ->
  exists token s',
    encode_sampling s m = Ok token /\
    decode_sampling token m = Ok s' /\
    encode_sampling s' m = Ok token /\
    (m = false -> Py.len token = 3) /\
    3 <= Py.len token.
Proof.
  intros s m H.
  assert (A : token_stable_check m s = true).
  { destruct tokens_stable_checked as [T F].
    destruct m; [ rewrite forallb_forall in T | rewrite forallb_forall in F ];
      [ apply T | apply F ]; apply in_range_list; lia. }
  unfold token_stable_check in A.
  destruct (encode_sampling s m) as [token | ] eqn:E; [ | discriminate ].
  destruct (decode_sampling token m) as [s' | ] eqn:D; [ | discriminate ].
  apply andb_true_iff in A. destruct A as [A B].
  apply result_str_is_eq in A.
  exists token, s'. unfold Py.len.
  split; [ reflexivity | ]. split; [ exact D | ].
  split; [ exact A | ].
  split.
  - intro M. rewrite M in B. apply Nat.eqb_eq in B. lia.
  - destruct m; [ apply Nat.leb_le in B | apply Nat.eqb_eq in B ]; lia.
Qed.

Lemma sampling_token_stable_witness :
  exists token s',
    encode_sampling 1234 false = Ok token /\
    decode_sampling token false = Ok s' /\
    encode_sampling s' false = Ok token /\
    (false = false -> Py.len token = 3) /\
    3 <= Py.len token.
Proof.
  apply (sampling_token_stable 1234 false). lia.
Defined.

(** ** Bounds on what [int] reads *)

Lemma digit_value_bound (c : ascii) :
  Py.is_digit c = true -> 0 <= Py.digit_value c <= 9.
Proof.
  unfold Py.is_digit, Py.digit_value. intro H.
  apply andb_true_iff in H. destruct H as [L U].
  apply Nat.leb_le in L, U. lia.
Qed.

Lemma digits_bound (s : string) :
  forall (acc : Z) (st : Py.scan) (v : Z),
  0 <= acc -> Py.digits s acc st = Some v ->
  0 <= v < (acc + 1) * 10 ^ Z.of_nat (String.length s).
Proof.
  induction s as [ | c s IH]; intros acc st v A H.
  - simpl in *. destruct st; inversion H; subst; lia.
  - cbn [String.length]. rewrite Nat2Z.inj_succ, Z.pow_succ_r by lia.
    assert (P : 0 < 10 ^ Z.of_nat (String.length s))
      by (apply Z.pow_pos_nonneg; lia).
    cbn [Py.digits] in H.
    destruct (Py.is_digit c) eqn:D.
    + pose proof (digit_value_bound c D) as B.
      assert (R : Py.digits s (10 * acc + Py.digit_value c) Py.Digit = Some v)
        by (destruct st; congruence).
      apply IH in R; [ nia | lia ].
    + destruct (Ascii.eqb c "_").
      * assert (R : Py.digits s acc Py.Underscore = Some v)
          by (destruct st; congruence).
        apply IH in R; [ nia | lia ].
      * destruct (Py.is_space c); [ | discriminate ].
        assert (R : Py.digits s acc Py.Trailing = Some v)
          by (destruct st; congruence).
        apply IH in R; [ nia | lia ].
Qed.

Lemma lstrip_length (s : string) :
  (String.length (Py.lstrip s) <= String.length s)%nat.
Proof.
  induction s as [ | c s IH]; simpl; [ lia | ].
  destruct (Py.is_space c); simpl; lia.
Qed.

(** [int] with its two tests on the sign written as comparisons. *)
Lemma int_unfold (s : string) :
  Py.int s =
  match
    match Py.lstrip s with
    | String c r =>
        if Ascii.eqb c "-" then option_map Z.opp (Py.digits r 0 Py.Start)
        else if Ascii.eqb c "+" then Py.digits r 0 Py.Start
        else Py.digits (String c r) 0 Py.Start
    | EmptyString => Py.digits EmptyString 0 Py.Start
    end
  with
  | Some n => Ok n
  | None => Raise (ValueError msg_invalid_literal)
  end.
Proof.
  unfold Py.int. destruct (Py.lstrip s) as [ | c r]; [ reflexivity | ].
  destruct c as [[] [] [] [] [] [] [] []]; reflexivity.
Qed.

(** A string of at most three characters is read as an integer from -99 to
    999. *)
Lemma int_bound3 (s : string) (v : Z) :
  (String.length s <= 3)%nat -> Py.int s = Ok v -> fits3 v = true.
Proof.
  intros L H. rewrite int_unfold in H.
  pose proof (lstrip_length s) as L'.
  assert (B : -99 <= v <= 999); [ | unfold fits3; apply andb_true_iff;
                                    split; apply Z.leb_le; lia ].
  destruct (Py.lstrip s) as [ | c r]; [ discriminate | ].
  cbn [String.length] in L'.
  assert (P : forall t, (String.length t <= 3)%nat ->
              forall w, Py.digits t 0 Py.Start = Some w ->
              0 <= w < 10 ^ Z.of_nat (String.length t)).
  { intros t _ w W. apply digits_bound in W; lia. }
  assert (M : forall n : nat, (n <= 2)%nat -> 10 ^ Z.of_nat n <= 100).
  { intros n N. change 100 with (10 ^ 2).
    apply Z.pow_le_mono_r; lia. }
  assert (M3 : forall n : nat, (n <= 3)%nat -> 10 ^ Z.of_nat n <= 1000).
  { intros n N. change 1000 with (10 ^ 3).
    apply Z.pow_le_mono_r; lia. }
  destruct (Ascii.eqb c "-").
  - destruct (Py.digits r 0 Py.Start) as [w | ] eqn:W; [ | discriminate ].
    simpl in H. injection H as <-.
    pose proof (P r ltac:(lia) w W). pose proof (M (String.length r)). lia.
  - destruct (Ascii.eqb c "+").
    + destruct (Py.digits r 0 Py.Start) as [w | ] eqn:W; [ | discriminate ].
      injection H as <-.
      pose proof (P r ltac:(lia) w W). pose proof (M (String.length r)). lia.
    + destruct (Py.digits (String c r) 0 Py.Start) as [w | ] eqn:W;
        [ | discriminate ].
      injection H as <-.
      pose proof (P (String c r) ltac:(simpl; lia) w W).
      pose proof (M3 (String.length (String c r))).
      cbn [String.length] in *. lia.
Qed.

Lemma slice_length_bound (s : string) (i j : Z) :
  0 <= i <= j ->
  Z.of_nat (String.length (Py.slice s (Some i) (Some j))) <= j - i.
Proof.
  intro H. unfold Py.slice, Py.clamp.
  pose proof (len_nonneg s).
  destruct (i <? 0) eqn:I; [ apply Z.ltb_lt in I; lia | ].
  destruct (j <? 0) eqn:J; [ apply Z.ltb_lt in J; lia | ].
  rewrite length_substring. lia.
Qed.

(** The fields of a name that is decoded take three characters. *)
Lemma decode_tilename_fits (self : core.t) (tilename : string) (d : decoded) :
  decode_tilename self tilename = Ok d ->
  exists e n,
    d = (core.tag self, core.sampling self, core.tile_xsize_m self,
         e * 100000, n * 100000, core.tiletype self) /\
    e mod (core.tile_ysize_m self / 100000) = 0 /\
    n mod (core.tile_ysize_m self / 100000) = 0 /\
    fits3 e = true /\ fits3 n = true.
Proof.
  intro H.
  destruct (decode_tilename_inv _ _ _ H) as (e & n & -> & Me & Mn).
  destruct (decode_tilename_block _ _ _ H) as (block & id & s & B).
  apply decode_block_aligned in B.
  destruct B as (e' & n' & Ie & In_ & Qe & Qn & _).
  assert (e' = e) as -> by lia.
  assert (n' = n) as -> by lia.
  pose proof (slice_length_bound block 1 4 ltac:(lia)) as Le.
  pose proof (slice_length_bound block 5 8 ltac:(lia)) as Ln.
  exists e, n. repeat split; trivial.
  - apply (int_bound3 (Py.slice block (Some 1) (Some 4))); [ lia | exact Ie ].
  - apply (int_bound3 (Py.slice block (Some 5) (Some 8))); [ lia | exact In_ ].
Qed.

(** ** Points, tiles and their names *)

Lemma list_tiles_of_tilesys (ids : list string)
    (coverland : string -> string -> list string) (self : core.t) :
  class_core self -> In (core.tag self) ids ->
  list_tiles_covering_land ids coverland self =
  Ok (coverland (core.tag self) (core.tiletype self)).
Proof.
  intros [C _] I. unfold list_tiles_covering_land, str_in.
  rewrite (proj2 (str_in_iff _ _) I).
  destruct (is_class_cases _ _ C) as [[-> _] | [[-> _] | [-> _]]];
    reflexivity.
Qed.

(** Rounding a coordinate: the corner is aligned, the coordinate lies in
    the tile, and the field of the corner takes three characters. *)
Lemma round_down (tilecode : string) (size x : Z) :
  is_class tilecode size = true -> 0 <= x < 100000000 ->
  (x / size * size) mod size = 0 /\
  x / size * size <= x < x / size * size + size /\
  fits3 (x / size * size / 100000) = true.
Proof.
  intros C B.
  assert (P : 0 < size /\ size mod 100000 = 0).
  { destruct (is_class_cases _ _ C) as [[_ ->] | [[_ ->] | [_ ->]]];
      split; try lia; reflexivity. }
  destruct P as [P M].
  pose proof (Z.mod_pos_bound x size P) as R.
  pose proof (Z.div_mod x size ltac:(lia)) as Q.
  split; [ apply Z.mod_mul; lia | ].
  split; [ lia | ].
  assert (0 <= x / size) by (apply Z.div_pos; lia).
  apply fits3_of_bounds. split.
  - apply Z.div_pos; nia.
  - assert (x / size * size / 100000 <= 99999999 / 100000)
      by (apply Z.div_le_mono; nia).
    change (99999999 / 100000) with 999 in *. lia.
Qed.

(** The tile that [create_tile] builds for a name that is decoded to the
    corner of fields [e] and [n]. *)
Lemma create_tile_of_corner (ids : list string)
    (coverland : string -> string -> list string) (self : core.t)
    (token tilename : string) (e n : Z) :
  class_core self -> two_letter (core.tag self) = true ->
  In (core.tag self) ids ->
  encode_sampling (core.sampling self) (core.tile_names_in_m self) = Ok token ->
  no_char "M" token = true -> no_char "_" token = true ->
  decode_sampling token (core.tile_names_in_m self) = Ok (core.sampling self) ->
  fits3 e = true -> fits3 n = true ->
  decode_tilename self tilename =
    Ok (core.tag self, core.sampling self, core.tile_xsize_m self,
        e * 100000, n * 100000, core.tiletype self) ->
  e mod (core.tile_xsize_m self / 100000) = 0 ->
  n mod (core.tile_xsize_m self / 100000) = 0 ->
  create_tile ids coverland self tilename =
  Ok (tile.make self
        (longform (core.tag self) token (e * 100000) (n * 100000)
           (core.tiletype self))
        (e * 100000) (n * 100000)
        (Some (str_in
                 (if Py.len token =? 3
                  then shortname e n (core.tiletype self)
                  else longform (core.tag self) token (e * 100000)
                         (n * 100000) (core.tiletype self))
                 (coverland (core.tag self) (core.tiletype self))))).
Proof.
  intros C T I Enc NM NU D Fe Fn H Me Mn.
  unfold create_tile, tilename2lowerleft. rewrite H. cbn [bind fst snd].
  unfold _encode_tilename. rewrite (encode_tilename_long _ _ _ _ _ _ Enc).
  cbn [bind].
  unfold check_tile_covers_land.
  rewrite (list_tiles_of_tilesys ids coverland self C I). cbn [bind].
  assert (S : tilename2short self
                (longform (core.tag self) token (e * 100000) (n * 100000)
                   (core.tiletype self)) =
              Ok (if Py.len token =? 3
                  then shortname e n (core.tiletype self)
                  else longform (core.tag self) token (e * 100000)
                         (n * 100000) (core.tiletype self))).
  { rewrite tilename2short_longform; rewrite ?Z.div_mul by lia; trivial. }
  assert (K : check_tilename self
                (longform (core.tag self) token (e * 100000) (n * 100000)
                   (core.tiletype self)) = Ok true).
  { unfold check_tilename.
    rewrite decode_longform; rewrite ?Z.div_mul by lia; trivial.
    rewrite decoded_fields_aligned by trivial. reflexivity. }
  rewrite K. cbn [bind]. rewrite S. reflexivity.
Qed.

Lemma tilesys_facts (ids : list string) (s : Z) (m : bool) (sg : string)
    (self : core.t) :
  tilesys_of ids s m sg = Ok self -> two_letter sg = true ->
  class_core self /\ core.tag self = sg /\ core.sampling self = s /\
  core.tile_names_in_m self = m /\ In (core.tag self) ids /\
  two_letter (core.tag self) = true /\
  exists token,
    encode_sampling (core.sampling self) (core.tile_names_in_m self) = Ok token /\
    no_char "M" token = true /\ no_char "_" token = true /\
    decode_sampling token (core.tile_names_in_m self) = Ok (core.sampling self) /\
    (core.tile_names_in_m self = false -> Py.len token = 3).
Proof.
  intros H T.
  destruct (tilesys_class_core _ _ _ _ _ H) as (C & Tg & Sm & M & I & J & _).
  destruct (token_of_static m s I) as (token & Enc & NM & NU & D & _ & L3).
  subst sg s m.
  do 6 (split; [ trivial | ]).
  exists token. repeat split; trivial.
Qed.

Lemma same_tile (size llx x : Z) :
  0 < size -> llx mod size = 0 ->
  (x / size * size = llx <-> llx <= x < llx + size).
Proof.
  intros P M.
  apply Z.mod_divide in M; [ | lia ]. destruct M as [k ->].
  pose proof (Z.mod_pos_bound x size P) as R.
  pose proof (Z.div_mod x size ltac:(lia)) as Q.
  split; intro H.
  - nia.
  - f_equal. symmetry. apply (Z.div_unique x size k (x - k * size)); lia.
Qed.

Lemma point2tilename_core (ids : list string) (s : Z) (m : bool)
    (sg : string) (self : core.t) (x y : Z) :
  tilesys_of ids s m sg = Ok self -> two_letter sg = true ->
  0 <= x < 100000000 -> 0 <= y < 100000000 ->
  (forall shortform,
     exists name,
       point2tilename self x y shortform = Ok name /\
       decode_tilename self name =
       Ok (sg, s, core.tile_xsize_m self,
           fst (round_xy2lowerleft self x y),
           snd (round_xy2lowerleft self x y), core.tiletype self)) /\
  fst (round_xy2lowerleft self x y) mod core.tile_xsize_m self = 0 /\
  snd (round_xy2lowerleft self x y) mod core.tile_xsize_m self = 0 /\
  fst (round_xy2lowerleft self x y) <= x
    < fst (round_xy2lowerleft self x y) + core.tile_xsize_m self /\
  snd (round_xy2lowerleft self x y) <= y
    < snd (round_xy2lowerleft self x y) + core.tile_xsize_m self.
Proof.
  intros H T Bx By.
  destruct (tilesys_facts _ _ _ _ _ H T)
    as ((C & Y) & <- & <- & <- & I & T' & token & Enc & NM & NU & D & _).
  unfold round_xy2lowerleft. rewrite Y. cbn [fst snd].
  destruct (round_down _ _ x C Bx) as (Mx & Cx & Fx).
  destruct (round_down _ _ y C By) as (My & Cy & Fy).
  destruct (aligned_fields _ _ _ C Mx) as [Ax Rx].
  destruct (aligned_fields _ _ _ C My) as [Ay Ry].
  split; [ | repeat split; trivial; lia ].
  intro shortform.
  unfold point2tilename, round_xy2lowerleft, _encode_tilename.
  rewrite Y. cbn [fst snd].
  destruct (roundtrip_core self token _ _ shortform (conj C Y) T' Enc NM NU D
              Fx Fy Ax Ay) as (name & N & E).
  exists name. split; [ exact N | ]. rewrite E, Rx, Ry. reflexivity.
Qed.

(** X6.  On the tiling system of a grid and for integer coordinates from 0
    to below 100000 km, [point2tilename] returns a name, in either form, that
    [decode_tilename] maps to an aligned tile which contains the point:
    llx <= x < llx + extent and lly <= y < lly + extent.  Another point gets
    the same name exactly when it lies in that tile. *)
Theorem point2tilename_contains_point :
  forall (ids : list string) (s : Z) (m : bool) (sg : string) (self : core.t)
         (x y : Z) (shortform : bool),
  tilesys_of ids s m sg = Ok self -> two_letter sg = true ->
  0 <= x < 100000000 -> 0 <= y < 100000000 ->
  exists name llx lly,
    point2tilename self x y shortform = Ok name /\
    decode_tilename self name =
      Ok (sg, s, core.tile_xsize_m self, llx, lly, core.tiletype self) /\
    llx mod core.tile_xsize_m self = 0 /\
    lly mod core.tile_xsize_m self = 0 /\
    llx <= x < llx + core.tile_xsize_m self /\
    lly <= y < lly + core.tile_xsize_m self /\
    forall x' y',
      0 <= x' < 100000000 -> 0 <= y' < 100000000 ->
      (point2tilename self x' y' shortform = Ok name <->
       llx <= x' < llx + core.tile_xsize_m self /\
       lly <= y' < lly + core.tile_xsize_m self).
Proof.
  intros ids s m sg self x y shortform H T Bx By.
  destruct (tilesys_facts _ _ _ _ _ H T)
    as ((C & Y) & <- & <- & <- & I & T' & token & Enc & NM & NU & D & _).
  assert (P : 0 < core.tile_xsize_m self).
  { destruct (is_class_cases _ _ C) as [[_ ->] | [[_ ->] | [_ ->]]]; lia. }
  assert (R : forall a b, 0 <= a < 100000000 -> 0 <= b < 100000000 ->
            exists name,
              point2tilename self a b shortform = Ok name /\
              decode_tilename self name =
              Ok (core.tag self, core.sampling self, core.tile_xsize_m self,
                  a / core.tile_xsize_m self * core.tile_xsize_m self,
                  b / core.tile_xsize_m self * core.tile_xsize_m self,
                  core.tiletype self)).
  { intros a b Ba Bb.
    destruct (round_down _ _ a C Ba) as (Ma & _ & Fa).
    destruct (round_down _ _ b C Bb) as (Mb & _ & Fb).
    destruct (aligned_fields _ _ _ C Ma) as [Aa Ra].
    destruct (aligned_fields _ _ _ C Mb) as [Ab Rb].
    unfold point2tilename, round_xy2lowerleft, _encode_tilename.
    rewrite Y. cbn [fst snd].
    destruct (roundtrip_core self token _ _ shortform (conj C Y) T' Enc NM NU D
                Fa Fb Aa Ab) as (name & N & E).
    exists name. split; [ exact N | ]. rewrite E, Ra, Rb. reflexivity. }
  destruct (R x y Bx By) as (name & N & E).
  destruct (round_down _ _ x C Bx) as (Mx & Cx & _).
  destruct (round_down _ _ y C By) as (My & Cy & _).
  exists name, (x / core.tile_xsize_m self * core.tile_xsize_m self),
    (y / core.tile_xsize_m self * core.tile_xsize_m self).
  repeat (split; [ trivial; lia | ]).
  intros x' y' Bx' By'.
  destruct (R x' y' Bx' By') as (name' & N' & E').
  rewrite <- (same_tile _ _ x' P Mx), <- (same_tile _ _ y' P My).
  split.
  - intro Q. rewrite Q in N'. injection N' as <-.
    rewrite E in E'. injection E' as -> ->. split; reflexivity.
  - intros [Qx Qy]. unfold point2tilename, round_xy2lowerleft in *.
    rewrite Y in *. rewrite Qx, Qy. exact N.
Qed.

Lemma point2tilename_contains_point_witness :
  exists name llx lly,
    point2tilename (core.make "EU" 500 "T6" 600000 600000 false)
      1412345 1918210 true = Ok name /\
    decode_tilename (core.make "EU" 500 "T6" 600000 600000 false) name =
      Ok ("EU", 500, 600000, llx, lly, "T6") /\
    llx mod 600000 = 0 /\ lly mod 600000 = 0 /\
    llx <= 1412345 < llx + 600000 /\
    lly <= 1918210 < lly + 600000 /\
    forall x' y',
      0 <= x' < 100000000 -> 0 <= y' < 100000000 ->
      (point2tilename (core.make "EU" 500 "T6" 600000 600000 false)
         x' y' true = Ok name <->
       llx <= x' < llx + 600000 /\ lly <= y' < lly + 600000).
Proof.
  apply (point2tilename_contains_point example_subgrid_ids 500 false "EU"
           (core.make "EU" 500 "T6" 600000 600000 false)
           1412345 1918210 true eq_refl eq_refl); lia.
Defined.

Lemma token_length (m : bool) (s : Z) (token : string) :
  In s _static_sampling -> encode_sampling s m = Ok token ->
  Py.len token = if m && (1000 <=? s) then 4 else 3.
Proof.
  unfold _static_sampling. simpl. intros I E.
  repeat (destruct I as [<- | I];
          [ destruct m; vm_compute in E; injection E as <-; reflexivity | ]).
  contradiction.
Qed.

(** What [create_tile] does with a name, on the tiling system of a grid. *)
Lemma create_tile_cases (ids : list string)
    (coverland : string -> string -> list string) (s : Z) (m : bool)
    (sg : string) (self : core.t) (tilename : string) :
  tilesys_of ids s m sg = Ok self -> two_letter sg = true ->
  match decode_tilename self tilename with
  | Raise e => create_tile ids coverland self tilename = Raise e
  | Ok d =>
      exists token e n,
        encode_sampling s m = Ok token /\
        fits3 e = true /\ fits3 n = true /\
        d = (sg, s, core.tile_xsize_m self, e * 100000, n * 100000,
             core.tiletype self) /\
        decode_tilename self
          (longform sg token (e * 100000) (n * 100000) (core.tiletype self))
          = Ok d /\
        tilename2short self
          (longform sg token (e * 100000) (n * 100000) (core.tiletype self))
          = Ok (if Py.len token =? 3
                then shortname e n (core.tiletype self)
                else longform sg token (e * 100000) (n * 100000)
                       (core.tiletype self)) /\
        decode_tilename self (shortname e n (core.tiletype self)) = Ok d /\
        create_tile ids coverland self tilename =
        Ok (tile.make self
              (longform sg token (e * 100000) (n * 100000)
                 (core.tiletype self))
              (e * 100000) (n * 100000)
              (Some (str_in
                       (if Py.len token =? 3
                        then shortname e n (core.tiletype self)
                        else longform sg token (e * 100000) (n * 100000)
                               (core.tiletype self))
                       (coverland sg (core.tiletype self)))))
  end.
Proof.
  intros H T.
  destruct (tilesys_facts _ _ _ _ _ H T)
    as ((C & Y) & <- & <- & <- & I & T' & token & Enc & NM & NU & D & _).
  destruct (decode_tilename self tilename) as [d | e] eqn:E.
  - destruct (decode_tilename_fits _ _ _ E) as (e & n & -> & Me & Mn & Fe & Fn).
    rewrite Y in Me, Mn.
    exists token, e, n.
    split; [ exact Enc | ]. split; [ exact Fe | ]. split; [ exact Fn | ].
    split; [ reflexivity | ].
    split.
    { rewrite decode_longform; rewrite ?Z.div_mul by lia; trivial.
      now apply decoded_fields_aligned. split; trivial. }
    split.
    { rewrite tilename2short_longform; rewrite ?Z.div_mul by lia; trivial.
      split; trivial. }
    split.
    { rewrite decode_shortname; trivial.
      now apply decoded_fields_aligned. split; trivial. }
    apply create_tile_of_corner; trivial. split; trivial.
  - unfold create_tile, tilename2lowerleft. rewrite E. reflexivity.
Qed.

(** X7.  [create_tile] normalises the name it is given.  On the tiling
    system of a grid, a name that [decode_tilename] rejects makes
    [create_tile] raise the same exception; for a name that is decoded, in
    short or long form, the tile returned carries the long name of the
    decoded corner, that name is decoded to the same tuple, creating a tile
    from it gives the same tile again, and [covers_land] is the membership of
    what [tilename2short] makes of the long name in the land tiles of the
    subgrid and tilecode. *)
Theorem create_tile_normalises :
  forall (ids : list string) (coverland : string -> string -> list string)
         (s : Z) (m : bool) (sg : string) (self : core.t) (tilename : string),
  tilesys_of ids s m sg = Ok self -> two_letter sg = true ->
  (forall e, decode_tilename self tilename = Raise e ->
             create_tile ids coverland self tilename = Raise e) /\
  (forall d, decode_tilename self tilename = Ok d ->
     exists t token short,
       create_tile ids coverland self tilename = Ok t /\
       tile.core t = self /\
       d = (sg, s, core.tile_xsize_m self, tile.llx t, tile.lly t,
            core.tiletype self) /\
       encode_sampling s m = Ok token /\
       tile.name t =
         longform sg token (tile.llx t) (tile.lly t) (core.tiletype self) /\
       decode_tilename self (tile.name t) = Ok d /\
       create_tile ids coverland self (tile.name t) = Ok t /\
       tilename2short self (tile.name t) = Ok short /\
       tile.covers_land t =
         Some (str_in short (coverland sg (core.tiletype self)))).
Proof.
  intros ids coverland s m sg self tilename H T.
  pose proof (create_tile_cases ids coverland s m sg self tilename H T) as A.
  split.
  - intros e E. rewrite E in A. exact A.
  - intros d E. rewrite E in A.
    destruct A as (token & e & n & Enc & Fe & Fn & -> & L & S & _ & K).
    pose proof (create_tile_cases ids coverland s m sg self
                  (longform sg token (e * 100000) (n * 100000)
                     (core.tiletype self)) H T) as B.
    rewrite L in B.
    destruct B as (token' & e' & n' & Enc' & _ & _ & Q & _ & _ & _ & K').
    assert (token' = token) as -> by congruence.
    injection Q as Qe Qn.
    assert (e' = e) as -> by lia. assert (n' = n) as -> by lia.
    eexists _, token, _.
    split; [ exact K | ]. cbn [tile.core tile.llx tile.lly tile.name
                                 tile.covers_land].
    repeat (split; [ first [ reflexivity | eassumption ] | ]).
    reflexivity.
Qed.

Lemma create_tile_normalises_witness :
  exists t token short,
    create_tile example_subgrid_ids example_coverland
      (core.make "EU" 500 "T6" 600000 600000 false) "E006N012T6" = Ok t /\
    tile.core t = core.make "EU" 500 "T6" 600000 600000 false /\
    ("EU", 500, 600000, 600000, 1200000, "T6") =
      ("EU", 500, 600000, tile.llx t, tile.lly t, "T6") /\
    encode_sampling 500 false = Ok token /\
    tile.name t = longform "EU" token (tile.llx t) (tile.lly t) "T6" /\
    decode_tilename (core.make "EU" 500 "T6" 600000 600000 false)
      (tile.name t) = Ok ("EU", 500, 600000, 600000, 1200000, "T6") /\
    create_tile example_subgrid_ids example_coverland
      (core.make "EU" 500 "T6" 600000 600000 false) (tile.name t) = Ok t /\
    tilename2short (core.make "EU" 500 "T6" 600000 600000 false)
      (tile.name t) = Ok short /\
    tile.covers_land t = Some (str_in short (example_coverland "EU" "T6")).
Proof.
  exact (proj2 (create_tile_normalises example_subgrid_ids example_coverland
                  500 false "EU"
                  (core.make "EU" 500 "T6" 600000 600000 false)
                  "E006N012T6" eq_refl eq_refl)
           ("EU", 500, 600000, 600000, 1200000, "T6") eq_refl).
Defined.

Lemma create_tile_xy_by_name (ids : list string)
    (coverland : string -> string -> list string) (self : core.t)
    (x y : Z) (tilename : string) :
  tilename2lowerleft self tilename = Ok (round_xy2lowerleft self x y) ->
  create_tile ids coverland self tilename = create_tile_xy ids coverland self x y.
Proof.
  intro H. unfold create_tile, create_tile_xy. rewrite H. reflexivity.
Qed.

(** X8.  Creating a tile from the coordinates of a point gives the tile
    that is created from the name of the point.  On the tiling system of a
    grid and for integer coordinates from 0 to below 100000 km,
    [create_tile(x=x, y=y)] returns a tile whose corner is aligned, which
    contains the point and whose name is [point2tilename(x, y)]; and
    [create_tile(name)] returns the same tile for the long and for the short
    name of the point. *)
Theorem create_tile_xy_is_create_tile_name :
  forall (ids : list string) (coverland : string -> string -> list string)
         (s : Z) (m : bool) (sg : string) (self : core.t) (x y : Z),
  tilesys_of ids s m sg = Ok self -> two_letter sg = true ->
  0 <= x < 100000000 -> 0 <= y < 100000000 ->
  exists t,
    create_tile_xy ids coverland self x y = Ok t /\
    tile.core t = self /\
    point2tilename self x y false = Ok (tile.name t) /\
    tile.llx t mod core.tile_xsize_m self = 0 /\
    tile.lly t mod core.tile_xsize_m self = 0 /\
    tile.llx t <= x < tile.llx t + core.tile_xsize_m self /\
    tile.lly t <= y < tile.lly t + core.tile_xsize_m self /\
    forall shortform name,
      point2tilename self x y shortform = Ok name ->
      create_tile ids coverland self name = Ok t.
Proof.
  intros ids coverland s m sg self x y H T Bx By.
  destruct (point2tilename_core ids s m sg self x y H T Bx By)
    as (R & Mx & My & Cx & Cy).
  destruct (R false) as (name & N & E).
  pose proof (create_tile_cases ids coverland s m sg self name H T) as A.
  rewrite E in A.
  destruct A as (token & e & n & Enc & _ & _ & Q & _ & _ & _ & K).
  assert (L : tilename2lowerleft self name = Ok (round_xy2lowerleft self x y)).
  { unfold tilename2lowerleft. rewrite E. reflexivity. }
  rewrite (create_tile_xy_by_name ids coverland self x y name L) in K.
  injection Q as Qe Qn. rewrite <- Qe, <- Qn in K.
  eexists. split; [ exact K | ].
  cbn [tile.core tile.llx tile.lly tile.name].
  split; [ reflexivity | ].
  split.
  { rewrite N. f_equal. unfold point2tilename, _encode_tilename in N.
    destruct (tilesys_class_core _ _ _ _ _ H) as (_ & <- & <- & <- & _).
    rewrite (encode_tilename_long _ _ _ _ _ token Enc) in N.
    now injection N as <-. }
  repeat (split; [ trivial | ]).
  intros shortform name' N'.
  destruct (R shortform) as (name'' & N'' & E'').
  assert (name'' = name') as -> by congruence.
  transitivity (create_tile_xy ids coverland self x y); [ | exact K ].
  apply create_tile_xy_by_name.
  unfold tilename2lowerleft. rewrite E''. reflexivity.
Qed.

Lemma create_tile_xy_is_create_tile_name_witness :
  exists t,
    create_tile_xy example_subgrid_ids example_coverland
      (core.make "EU" 500 "T6" 600000 600000 false) 1412345 1918210 = Ok t /\
    tile.core t = core.make "EU" 500 "T6" 600000 600000 false /\
    point2tilename (core.make "EU" 500 "T6" 600000 600000 false)
      1412345 1918210 false = Ok (tile.name t) /\
    tile.llx t mod 600000 = 0 /\
    tile.lly t mod 600000 = 0 /\
    tile.llx t <= 1412345 < tile.llx t + 600000 /\
    tile.lly t <= 1918210 < tile.lly t + 600000 /\
    forall shortform name,
      point2tilename (core.make "EU" 500 "T6" 600000 600000 false)
        1412345 1918210 shortform = Ok name ->
      create_tile example_subgrid_ids example_coverland
        (core.make "EU" 500 "T6" 600000 600000 false) name = Ok t.
Proof.
  apply (create_tile_xy_is_create_tile_name example_subgrid_ids
           example_coverland 500 false "EU"
           (core.make "EU" 500 "T6" 600000 600000 false)
           1412345 1918210 eq_refl eq_refl); lia.
Defined.

(** ** The short name of a tile *)

Lemma not_tag_with_underscore (tag rest : string) :
  two_letter tag = true ->
  String.eqb (Py.slice (String "_" (String "E" rest)) (Some 0) (Some 2)) tag
  = false.
Proof.
  intro T.
  change (String "_" (String "E" rest)) with ("_E" ++ rest)%string.
  rewrite (slice_prefix "_E" rest 2) by reflexivity.
  destruct tag as [ | a [ | b [ | c tag]]]; try discriminate T.
  simpl in T. apply andb_true_iff in T. destruct T as [A _].
  apply is_letter_not_underscore in A.
  apply String.eqb_neq. intro Q. injection Q as <- <-. discriminate A.
Qed.

(** X9.  The property [shortname] of a tile that [create_tile] built is
    [name[7:]].  On a grid whose names are in the kilometre form, or whose
    sampling is below 1000, it is the short name of 10 characters: it is what
    [tilename2short] gives for the name of the tile, and [decode_tilename]
    maps it to the tuple of the tile.  On a grid whose names are in metres and
    whose sampling is 1000 or more, the name has 18 characters, [shortname]
    has 11 and starts with the underscore, and [decode_tilename] rejects it
    with [msg1]. *)
Theorem shortname_of_created_tile :
  forall (ids : list string) (coverland : string -> string -> list string)
         (s : Z) (m : bool) (sg : string) (self : core.t) (tilename : string)
         (d : decoded) (t : tile.t),
  tilesys_of ids s m sg = Ok self -> two_letter sg = true ->
  decode_tilename self tilename = Ok d ->
  create_tile ids coverland self tilename = Ok t ->
  (m && (1000 <=? s) = false ->
     Py.len (Equi7Tile_shortname t) = 10 /\
     tilename2short self (tile.name t) = Ok (Equi7Tile_shortname t) /\
     decode_tilename self (Equi7Tile_shortname t) = Ok d) /\
  (m && (1000 <=? s) = true ->
     Py.len (tile.name t) = 18 /\
     Py.len (Equi7Tile_shortname t) = 11 /\
     Py.index (Equi7Tile_shortname t) 0 = Ok "_"%char /\
     decode_tilename self (Equi7Tile_shortname t) = Raise (ValueError msg1)).
Proof.
  intros ids coverland s m sg self tilename d t H T E K.
  pose proof (create_tile_cases ids coverland s m sg self tilename H T) as A.
  rewrite E in A.
  destruct A as (token & e & n & Enc & Fe & Fn & -> & L & S & Ds & K').
  rewrite K in K'. injection K' as ->.
  destruct (tilesys_facts _ _ _ _ _ H T)
    as (C & Tg & Sm & M & I & T' & _).
  assert (J : In s _static_sampling)
    by (destruct (tilesys_class_core _ _ _ _ _ H) as (_ & _ & _ & _ & J & _);
        exact J).
  pose proof (token_length m s token J Enc) as LT.
  destruct (two_letter_inv _ T) as [Lsg _].
  destruct (class_core_tiletype self C) as [LC _].
  destruct (field_of_fits3 e Fe) as (Le & _).
  destruct (field_of_fits3 n Fn) as (Ln & _).
  assert (LCn : String.length (core.tiletype self) = 2%nat)
    by (unfold Py.len in LC; lia).
  destruct (fields_block_slices _ _ _ Le Ln LCn) as (LB & _).
  unfold Equi7Tile_shortname. cbn [tile.name].
  rewrite longform_block, !Z.div_mul by lia.
  set (b := fields_block _ _ _) in *.
  split; intro Q; rewrite Q in LT.
  - assert (Sl : Py.slice (sg ++ token ++ String "M" (String "_" b))
                   (Some 7) None = b).
    { replace (sg ++ token ++ String "M" (String "_" b))%string
        with ((sg ++ token ++ "M_") ++ b)%string
        by (rewrite !append_assoc; reflexivity).
      apply slice_suffix. rewrite !len_app, Lsg, LT. reflexivity. }
    rewrite Sl. rewrite LT in S. change (3 =? 3) with true in S.
    cbv iota in S. rewrite longform_block, !Z.div_mul in S by lia.
    fold b in S. rewrite shortname_block in S, Ds. fold b in S, Ds.
    repeat split; trivial.
  - assert (Sl : Py.slice (sg ++ token ++ String "M" (String "_" b))
                   (Some 7) None = String "_" b).
    { replace (sg ++ token ++ String "M" (String "_" b))%string
        with ((sg ++ token ++ "M") ++ String "_" b)%string
        by (rewrite !append_assoc; reflexivity).
      apply slice_suffix. rewrite !len_app, Lsg, LT. reflexivity. }
    rewrite Sl.
    split; [ rewrite !len_app, !len_cons, Lsg, LT, LB; reflexivity | ].
    split; [ rewrite len_cons, LB; reflexivity | ].
    split; [ unfold Py.index; rewrite len_cons, LB; reflexivity | ].
    rewrite decode_tilename_unfold, len_cons, LB.
    change (1 + 10 =? 10) with false. cbv iota zeta.
    unfold b, fields_block. cbn [append].
    rewrite not_tag_with_underscore by exact T'. reflexivity.
Qed.

Lemma shortname_of_created_tile_witness :
  Py.len (tile.name
            (tile.make (core.make "EU" 6000 "T6" 600000 600000 true)
               "EU6000M_E006N012T6" 600000 1200000 (Some false))) = 18 /\
  Py.len (Equi7Tile_shortname
            (tile.make (core.make "EU" 6000 "T6" 600000 600000 true)
               "EU6000M_E006N012T6" 600000 1200000 (Some false))) = 11 /\
  Py.index (Equi7Tile_shortname
              (tile.make (core.make "EU" 6000 "T6" 600000 600000 true)
                 "EU6000M_E006N012T6" 600000 1200000 (Some false))) 0
    = Ok "_"%char /\
  decode_tilename (core.make "EU" 6000 "T6" 600000 600000 true)
    (Equi7Tile_shortname
       (tile.make (core.make "EU" 6000 "T6" 600000 600000 true)
          "EU6000M_E006N012T6" 600000 1200000 (Some false)))
    = Raise (ValueError msg1).
Proof.
  exact (proj2 (shortname_of_created_tile example_subgrid_ids example_coverland
                  6000 true "EU"
                  (core.make "EU" 6000 "T6" 600000 600000 true)
                  "EU6000M_E006N012T6"
                  ("EU", 6000, 600000, 600000, 1200000, "T6")
                  (tile.make (core.make "EU" 6000 "T6" 600000 600000 true)
                     "EU6000M_E006N012T6" 600000 1200000 (Some false))
                  eq_refl eq_refl eq_refl eq_refl)
           eq_refl).
Defined.

(** ** Creating a tile from the grid *)

Lemma letter_is_no_digit_or_space (c : ascii) :
  is_letter c = true ->
  Py.is_space c = false /\ Py.is_digit c = false /\
  Ascii.eqb c "-" = false /\ Ascii.eqb c "+" = false /\
  Ascii.eqb c "_" = false.
Proof.
  intro L.
  assert (E : forall x, is_letter x = false -> Ascii.eqb c x = false).
  { intros x X. apply Ascii.eqb_neq. intros ->. congruence. }
  repeat split; try (apply E; reflexivity);
    unfold is_letter, Py.is_space, Py.is_digit in *;
    remember (nat_of_ascii c) as k;
    apply orb_true_iff in L; destruct L as [L | L];
    apply andb_true_iff in L; destruct L as [L1 L2];
    apply Nat.leb_le in L1, L2;
    repeat match goal with
      | |- (_ || _)%bool = false => apply orb_false_iff; split
      | |- (_ && _)%bool = false => apply andb_false_iff
      end;
    try (apply Nat.eqb_neq; lia);
    try (left; apply Nat.leb_gt; lia);
    try (right; apply Nat.leb_gt; lia).
Qed.

(** [int] rejects a string that starts with a letter. *)
Lemma int_of_letter (c : ascii) (r : string) :
  is_letter c = true ->
  Py.int (String c r) = Raise (ValueError msg_invalid_literal).
Proof.
  intro L.
  destruct (letter_is_no_digit_or_space c L) as (S & D & M & P & U).
  rewrite int_unfold. cbn [Py.lstrip]. rewrite S, M, P.
  cbn [Py.digits]. rewrite D, U, S. reflexivity.
Qed.

(** The first two characters of a name of 10 characters that is decoded are
    not two letters. *)
Lemma decoded_short_name_head (self : core.t) (name : string) (d : decoded) :
  Py.len name = 10 -> decode_tilename self name = Ok d ->
  two_letter (Py.slice name (Some 0) (Some 2)) = false.
Proof.
  intros L H.
  destruct (decode_tilename_block _ _ _ H) as (block & id & s & B).
  rewrite decode_tilename_unfold, L in H. change (10 =? 10) with true in H.
  cbv iota in H.
  apply decode_block_aligned in H.
  assert (I : exists e, Py.int (Py.slice name (Some 1) (Some 4)) = Ok e).
  { destruct d as [[[[[? ?] ?] ?] ?] ?].
    destruct H as (e & _ & I & _). eauto. }
  destruct I as [e I].
  unfold Py.len in L.
  do 11 (destruct name as [ | ? name]; try (simpl in L; lia)).
  change (Py.slice _ (Some 1) (Some 4))
    with (String a0 (String a1 (String a2 EmptyString))) in I.
  change (Py.slice _ (Some 0) (Some 2))
    with (String a (String a0 EmptyString)).
  simpl. destruct (is_letter a0) eqn:A0; [ | apply andb_false_r ].
  rewrite (int_of_letter a0 _ A0) in I. discriminate.
Qed.

Lemma decoded_long_name_head (self : core.t) (name : string) (d : decoded) :
  Py.len name <> 10 -> decode_tilename self name = Ok d ->
  Py.slice name (Some 0) (Some 2) = core.tag self.
Proof.
  intros L H. rewrite decode_tilename_unfold in H.
  destruct (Py.len name =? 10) eqn:E; [ apply Z.eqb_eq in E; lia | ].
  cbv zeta in H.
  destruct (String.eqb _ _) eqn:Q; [ | discriminate ].
  now apply String.eqb_eq in Q.
Qed.

(** X10.  [Equi7Grid.create_tile] finds the tiling system with the first two
    characters of the name, so it needs the long form.  When the acronyms of
    the subgrids are made of two letters, then for every name that the tiling
    system of a subgrid decodes: if the name has 10 characters (the short
    form) the grid raises [KeyError], although the tiling system creates the
    tile; otherwise the grid returns the tile that the tiling system
    creates. *)
Theorem grid_create_tile_needs_long_name :
  forall (ids : list string) (coverland : string -> string -> list string)
         (s : Z) (m : bool) (sg : string) (grid self : core.t)
         (name : string) (d : decoded),
  Forall (fun t => two_letter t = true) ids ->
  Equi7Grid s m = Ok grid -> subgrids ids grid sg = Ok self ->
  decode_tilename self name = Ok d ->
  exists t,
    create_tile ids coverland self name = Ok t /\
    (Py.len name = 10 ->
       Equi7Grid_create_tile ids coverland grid name = Raise KeyError) /\
    (Py.len name <> 10 ->
       Equi7Grid_create_tile ids coverland grid name = Ok t).
Proof.
  intros ids coverland s m sg grid self name d F G S E.
  assert (H : tilesys_of ids s m sg = Ok self)
    by (unfold tilesys_of; rewrite G; exact S).
  destruct (tilesys_class_core _ _ _ _ _ H) as (_ & Tg & _ & _ & _ & I & _).
  rewrite Forall_forall in F.
  pose proof (F sg I) as T.
  pose proof (create_tile_cases ids coverland s m sg self name H T) as A.
  rewrite E in A.
  destruct A as (token & e & n & _ & _ & _ & _ & _ & _ & _ & K).
  eexists. split; [ exact K | ].
  unfold Equi7Grid_create_tile. split; intro L.
  - pose proof (decoded_short_name_head self name d L E) as N.
    unfold subgrids, Equi7Subgrid.
    destruct (existsb _ ids) eqn:X; [ | reflexivity ].
    apply str_in_iff in X. apply F in X. congruence.
  - rewrite (decoded_long_name_head self name d L E), Tg, S. exact K.
Qed.

Lemma grid_create_tile_needs_long_name_witness :
  exists t,
    create_tile example_subgrid_ids example_coverland
      (core.make "EU" 500 "T6" 600000 600000 false) "E006N012T6" = Ok t /\
    (Py.len "E006N012T6" = 10 ->
       Equi7Grid_create_tile example_subgrid_ids example_coverland
         (core.make "Equi7" 500 "T6" 600000 600000 false) "E006N012T6"
       = Raise KeyError) /\
    (Py.len "E006N012T6" <> 10 ->
       Equi7Grid_create_tile example_subgrid_ids example_coverland
         (core.make "Equi7" 500 "T6" 600000 600000 false) "E006N012T6"
       = Ok t).
Proof.
  apply (grid_create_tile_needs_long_name example_subgrid_ids example_coverland
           500 false "EU" (core.make "Equi7" 500 "T6" 600000 600000 false)
           (core.make "EU" 500 "T6" 600000 600000 false) "E006N012T6"
           ("EU", 500, 600000, 600000, 1200000, "T6"));
    try reflexivity.
  repeat constructor.
Defined.

(** ** Families: children, parents and points *)

Lemma class_representative (tt : string) (size : Z) :
  is_class tt size = true ->
  exists ts,
    sampling_of_tiletype tt = Ok ts /\ In ts _static_sampling /\
    get_tiletype ts = Ok tt /\ tilesize_of_tiletype tt = Ok size.
Proof.
  intro C.
  destruct (is_class_cases _ _ C) as [[-> ->] | [[-> ->] | [-> ->]]];
    eexists; (split; [ reflexivity | ]);
    (split; [ unfold _static_sampling; simpl; tauto | ]);
    split; reflexivity.
Qed.

Lemma representative_class (t : string) (ts : Z) :
  sampling_of_tiletype t = Ok ts ->
  exists tsize,
    In ts _static_sampling /\ get_tiletype ts = Ok t /\
    tilesize_of_tiletype t = Ok tsize /\ is_class t tsize = true.
Proof.
  intro R.
  destruct (sampling_of_tiletype_inv t ts R) as [[-> ->] | [[-> ->] | [-> ->]]];
    eexists; (split; [ unfold _static_sampling; simpl; tauto | ]);
    repeat split.
Qed.

(** The names that the call returns and what they are decoded to, for family
    corners whose fields take three characters. *)
Lemma family_names_result (ids : list string) (s : Z) (m : bool) (sg : string)
    (self : core.t) (tilename : string) (e n : Z)
    (target_sampling : option Z) (target_tiletype : option string)
    (ts : Z) (ttt : string) (tsize : Z) :
  tilesys_of ids s m sg = Ok self -> two_letter sg = true ->
  decode_tilename self tilename =
    Ok (sg, s, core.tile_xsize_m self, e * 100000, n * 100000,
        core.tiletype self) ->
  e mod (core.tile_xsize_m self / 100000) = 0 ->
  n mod (core.tile_xsize_m self / 100000) = 0 ->
  searched_sampling target_sampling target_tiletype = Ok ts ->
  In ts _static_sampling ->
  get_tiletype ts = Ok ttt -> tilesize_of_tiletype ttt = Ok tsize ->
  forallb corner_fits3
    (family_corners (core.tile_xsize_m self) tsize (e * 100000) (n * 100000))
    = true ->
  exists token,
    encode_sampling ts false = Ok token /\
    get_congruent_tiles_from_tilename ids self tilename target_sampling
      target_tiletype =
    Ok (map (fun c =>
               match target_sampling with
               | None => shortname (fst c / 100000) (snd c / 100000) ttt
               | Some _ => longform sg token (fst c) (snd c) ttt
               end)
          (family_corners (core.tile_xsize_m self) tsize (e * 100000)
             (n * 100000))) /\
    forall c,
      In c (family_corners (core.tile_xsize_m self) tsize (e * 100000)
              (n * 100000)) ->
      encode_tilename (core.make sg ts ttt tsize tsize false) (fst c) (snd c)
        ts ttt (match target_sampling with None => true | Some _ => false end)
      = Ok (match target_sampling with
            | None => shortname (fst c / 100000) (snd c / 100000) ttt
            | Some _ => longform sg token (fst c) (snd c) ttt
            end) /\
      decode_tilename (core.make sg ts ttt tsize tsize false)
        (match target_sampling with
         | None => shortname (fst c / 100000) (snd c / 100000) ttt
         | Some _ => longform sg token (fst c) (snd c) ttt
         end) =
      Ok (sg, ts, tsize, fst c, snd c, ttt).
Proof.
  intros H T D Me Mn R S E Z Fit.
  destruct (tilesys_class_core _ _ _ _ _ H)
    as ((C & Y) & <- & <- & _ & _ & I & _).
  pose proof (corner_of_aligned_field _ _ _ C Me) as Ax.
  pose proof (corner_of_aligned_field _ _ _ C Mn) as Ay.
  pose proof (family_tiles_result ids self tilename target_sampling
                target_tiletype ts ttt tsize _ _ (conj C Y) I D R S E Z) as F.
  destruct (family_names (core.tag self) ts ttt tsize
              (match target_sampling with None => true | Some _ => false end)
              _ _ _ _ T S E Z C Ax Ay Fit) as (token & Enc & N).
  exists token. split; [ exact Enc | ].
  assert (N' : forall c,
             In c (family_corners (core.tile_xsize_m self) tsize (e * 100000)
                     (n * 100000)) ->
             encode_tilename (core.make (core.tag self) ts ttt tsize tsize false)
               (fst c) (snd c) ts ttt
               (match target_sampling with None => true | Some _ => false end)
             = Ok (match target_sampling with
                   | None => shortname (fst c / 100000) (snd c / 100000) ttt
                   | Some _ => longform (core.tag self) token (fst c) (snd c) ttt
                   end) /\
             decode_tilename (core.make (core.tag self) ts ttt tsize tsize false)
               (match target_sampling with
                | None => shortname (fst c / 100000) (snd c / 100000) ttt
                | Some _ => longform (core.tag self) token (fst c) (snd c) ttt
                end) =
             Ok (core.tag self, ts, tsize, fst c, snd c, ttt)).
  { intros c Ic. specialize (N c Ic).
    destruct target_sampling; exact N. }
  split; [ | exact N' ].
  rewrite F. apply for_each_map. intros c Ic. apply (N' c Ic).
Qed.

(** A corner of the family of smaller tiles lies in the source tile. *)
Lemma family_corner_in_source (tt ttt : string) (size tsize llx lly : Z)
    (c : Z * Z) :
  is_class tt size = true -> is_class ttt tsize = true -> tsize < size ->
  In c (family_corners size tsize llx lly) ->
  llx <= fst c /\ fst c + tsize <= llx + size /\
  lly <= snd c /\ snd c + tsize <= lly + size.
Proof.
  intros C K L I.
  destruct (class_ratio _ _ _ _ C K L) as [M P].
  unfold family_corners in I. rewrite (proj2 (Z.ltb_lt _ _) L) in I.
  apply in_map_iff in I. destruct I as ((i & j) & <- & I).
  apply in_prod_iff in I. destruct I as [Ii Ij].
  apply in_range_inv in Ii, Ij. cbn [fst snd].
  assert (0 < tsize)
    by (destruct (is_class_cases _ _ K) as [[_ ->] | [[_ ->] | [_ ->]]]; lia).
  apply Z.mod_divide in M; [ | lia ]. destruct M as [q Q].
  rewrite Q in *. rewrite Z.div_mul in * by lia. nia.
Qed.

(** X11.  The families of smaller and of larger tiles are inverse to each
    other.  Take a name that the tiling system of a grid decodes and a target
    tilecode whose tiles are smaller, and let the fields of the family corners
    take three characters.  Then the call returns the names of the family,
    and for each of them the same call on the tiling system of the target
    grid, with the tilecode of the source as target, returns exactly one
    name: the short name of the source tile, which the source tiling system
    decodes to the tuple the given name is decoded to. *)
Theorem family_of_child_is_source :
  forall (ids : list string) (s : Z) (m : bool) (sg : string) (self : core.t)
         (tilename sg0 : string) (s0 size llx lly : Z) (tt t : string)
         (ts tsize : Z),
  tilesys_of ids s m sg = Ok self -> two_letter sg = true ->
  decode_tilename self tilename = Ok (sg0, s0, size, llx, lly, tt) ->
  sampling_of_tiletype t = Ok ts -> tilesize_of_tiletype t = Ok tsize ->
  tsize < size ->
  forallb corner_fits3 (family_corners size tsize llx lly) = true ->
  exists tsys names,
    tilesys_of ids ts false sg = Ok tsys /\
    get_congruent_tiles_from_tilename ids self tilename None (Some t)
      = Ok names /\
    names <> [] /\
    decode_tilename self (shortname (llx / 100000) (lly / 100000) tt)
      = Ok (sg0, s0, size, llx, lly, tt) /\
    forall child, In child names ->
      get_congruent_tiles_from_tilename ids tsys child None (Some tt)
      = Ok [shortname (llx / 100000) (lly / 100000) tt].
Proof.
  intros ids s m sg self tilename sg0 s0 size llx lly tt t ts tsize
         H T D R Z L Fit.
  destruct (tilesys_class_core _ _ _ _ _ H)
    as ((C & Y) & Tg & Sm & _ & _ & I & _).
  destruct (decode_tilename_fits _ _ _ D) as (e & n & Q & Me & Mn & Fe & Fn).
  injection Q as -> -> -> -> -> ->. rewrite Y in Me, Mn.
  destruct (representative_class t ts R) as (tsize' & S & E & Z' & K).
  assert (tsize' = tsize) as -> by congruence.
  pose proof D as D0. rewrite Tg, Sm in D0.
  destruct (family_names_result ids s m sg self tilename e n None (Some t)
              ts t tsize H T D0 Me Mn R S E Z Fit) as (token & Enc & F & N).
  set (tsys := core.make sg ts t tsize tsize false) in *.
  assert (Ht : tilesys_of ids ts false sg = Ok tsys).
  { apply tilesys_of_static; trivial; now rewrite <- Tg. }
  destruct (class_representative _ _ C) as (ts' & R' & S' & E' & Z'').
  assert (P : 0 < core.tile_xsize_m self).
  { destruct (is_class_cases _ _ C) as [[_ ->] | [[_ ->] | [_ ->]]]; lia. }
  pose proof (corner_of_aligned_field _ _ _ C Me) as Ax.
  pose proof (corner_of_aligned_field _ _ _ C Mn) as Ay.
  exists tsys. eexists.
  split; [ exact Ht | ]. split; [ exact F | ].
  split.
  { unfold family_corners. rewrite (proj2 (Z.ltb_lt _ _) L).
    destruct (class_ratio _ _ _ _ C K L) as [_ Pn].
    unfold range.
    destruct (Z.to_nat (core.tile_xsize_m self / tsize)) eqn:Nn; [ lia | ].
    simpl. discriminate. }
  split.
  { rewrite Z.div_mul by lia. rewrite (Z.div_mul n) by lia.
    rewrite decode_shortname; trivial; [ | split; trivial ].
    apply decoded_fields_aligned; trivial. split; trivial. }
  intros child Ic. apply in_map_iff in Ic. destruct Ic as (c & <- & Ic).
  destruct (N c Ic) as [_ Dc].
  destruct (family_corners_aligned _ _ _ _ _ _ _ C K Ax Ay Ic) as [Acx Acy].
  destruct (aligned_fields _ _ _ K Acx) as [Mcx Rcx].
  destruct (aligned_fields _ _ _ K Acy) as [Mcy Rcy].
  destruct (family_corner_in_source _ _ _ _ _ _ _ C K L Ic)
    as (Bx1 & Bx2 & By1 & By2).
  assert (Pt : 0 < tsize).
  { destruct (is_class_cases _ _ K) as [[_ ->] | [[_ ->] | [_ ->]]]; lia. }
  assert (Fp : family_corners tsize (core.tile_xsize_m self)
                 (fst c / 100000 * 100000) (snd c / 100000 * 100000)
               = [(e * 100000, n * 100000)]).
  { unfold family_corners.
    destruct (core.tile_xsize_m self <? tsize) eqn:X;
      [ apply Z.ltb_lt in X; lia | ].
    rewrite Rcx, Rcy. f_equal. f_equal.
    - apply (same_tile _ _ _ P Ax). lia.
    - apply (same_tile _ _ _ P Ay). lia. }
  rewrite <- Rcx, <- Rcy in Dc at 1.
  destruct (family_names_result ids ts false sg tsys
              (shortname (fst c / 100000) (snd c / 100000) t)
              (fst c / 100000) (snd c / 100000) None
              (Some (core.tiletype self)) ts' (core.tiletype self)
              (core.tile_xsize_m self) Ht T)
    as (token' & _ & F' & _); trivial.
  { cbn [tsys core.tile_xsize_m core.tiletype].
    rewrite Rcx, Rcy in *. exact Dc. }
  { cbn [tsys core.tile_xsize_m]. rewrite Fp. simpl.
    unfold corner_fits3. cbn [fst snd]. rewrite !Z.div_mul by lia.
    now rewrite Fe, Fn. }
  rewrite F'. cbn [tsys core.tile_xsize_m]. rewrite Fp. simpl.
  rewrite !Z.div_mul by lia. reflexivity.
Qed.

Lemma family_of_child_is_source_witness :
  exists tsys names,
    tilesys_of example_subgrid_ids 20 false "EU" = Ok tsys /\
    get_congruent_tiles_from_tilename example_subgrid_ids
      (core.make "EU" 500 "T6" 600000 600000 false) "E012N018T6"
      None (Some "T3") = Ok names /\
    names <> [] /\
    decode_tilename (core.make "EU" 500 "T6" 600000 600000 false)
      (shortname (1200000 / 100000) (1800000 / 100000) "T6")
      = Ok ("EU", 500, 600000, 1200000, 1800000, "T6") /\
    forall child, In child names ->
      get_congruent_tiles_from_tilename example_subgrid_ids tsys child None
        (Some "T6")
      = Ok [shortname (1200000 / 100000) (1800000 / 100000) "T6"].
Proof.
  apply (family_of_child_is_source example_subgrid_ids 500 false "EU"
           (core.make "EU" 500 "T6" 600000 600000 false) "E012N018T6"
           "EU" 500 600000 1200000 1800000 "T6" "T3" 20 300000);
    try reflexivity.
Defined.

Lemma round_in_family (tt ttt : string) (size tsize llx lly x y : Z) :
  is_class tt size = true -> is_class ttt tsize = true -> tsize < size ->
  llx mod size = 0 -> lly mod size = 0 ->
  llx <= x < llx + size -> lly <= y < lly + size ->
  In (x / tsize * tsize, y / tsize * tsize)
     (family_corners size tsize llx lly).
Proof.
  intros C K L Mx My Bx By.
  destruct (class_ratio _ _ _ _ C K L) as [M P].
  assert (Pt : 0 < tsize)
    by (destruct (is_class_cases _ _ K) as [[_ ->] | [[_ ->] | [_ ->]]]; lia).
  unfold family_corners. rewrite (proj2 (Z.ltb_lt _ _) L).
  apply Z.mod_divide in M; [ | lia ]. destruct M as [q Q].
  assert (Ps : size <> 0) by lia.
  apply Z.mod_divide in Mx, My; trivial.
  destruct Mx as [a Ha]. destruct My as [b Hb].
  apply in_map_iff.
  exists ((x - llx) / tsize, (y - lly) / tsize). cbn [fst snd].
  assert (Dx : x / tsize = (x - llx) / tsize + a * q).
  { rewrite <- Z.div_add by lia. f_equal. nia. }
  assert (Dy : y / tsize = (y - lly) / tsize + b * q).
  { rewrite <- Z.div_add by lia. f_equal. nia. }
  split; [ f_equal; nia | ].
  rewrite Q, Z.div_mul by lia.
  apply in_prod; apply in_range_list; split;
    try (apply Z.div_pos; lia);
    apply Z.div_lt_upper_bound; nia.
Qed.

(** X12.  The family of smaller tiles covers the source tile and stays in
    it.  Take a name that the tiling system of a grid decodes to the corner
    (llx, lly), a target (a sampling, or a tilecode alone) whose tiles are
    smaller, and let the fields of the family corners take three characters.
    For every integer point of the source tile, the name that
    [point2tilename] of the target tiling system gives to the point, in the
    form of the returned names, is among the returned names; and every
    returned name is decoded by the target tiling system to a tile that lies
    in the source tile. *)
Theorem family_covers_source_tile :
  forall (ids : list string) (s : Z) (m : bool) (sg : string) (self : core.t)
         (tilename sg0 : string) (s0 size llx lly : Z) (tt : string)
         (target_sampling : option Z) (target_tiletype : option string)
         (ts : Z) (t : string) (tsize x y : Z),
  tilesys_of ids s m sg = Ok self -> two_letter sg = true ->
  decode_tilename self tilename = Ok (sg0, s0, size, llx, lly, tt) ->
  searched_sampling target_sampling target_tiletype = Ok ts ->
  In ts _static_sampling ->
  get_tiletype ts = Ok t -> tilesize_of_tiletype t = Ok tsize ->
  tsize < size ->
  forallb corner_fits3 (family_corners size tsize llx lly) = true ->
  llx <= x < llx + size -> lly <= y < lly + size ->
  exists tsys names name,
    tilesys_of ids ts false sg = Ok tsys /\
    get_congruent_tiles_from_tilename ids self tilename target_sampling
      target_tiletype = Ok names /\
    point2tilename tsys x y
      (match target_sampling with None => true | Some _ => false end)
      = Ok name /\
    In name names /\
    forall child, In child names ->
      exists cx cy,
        decode_tilename tsys child = Ok (sg, ts, tsize, cx, cy, t) /\
        llx <= cx /\ cx + tsize <= llx + size /\
        lly <= cy /\ cy + tsize <= lly + size.
Proof.
  intros ids s m sg self tilename sg0 s0 size llx lly tt target_sampling
         target_tiletype ts t tsize x y H T D R S E Z L Fit Bx By.
  destruct (tilesys_class_core _ _ _ _ _ H)
    as ((C & Y) & Tg & Sm & _ & _ & I & _).
  destruct (decode_tilename_fits _ _ _ D) as (e & n & Q & Me & Mn & Fe & Fn).
  injection Q as -> -> -> -> -> ->. rewrite Y in Me, Mn.
  destruct (class_of_tiletype ts t E) as (tsize' & Z' & K & _).
  assert (tsize' = tsize) as -> by congruence.
  pose proof D as D0. rewrite Tg, Sm in D0.
  destruct (family_names_result ids s m sg self tilename e n target_sampling
              target_tiletype ts t tsize H T D0 Me Mn R S E Z Fit)
    as (token & Enc & F & N).
  pose proof (corner_of_aligned_field _ _ _ C Me) as Ax.
  pose proof (corner_of_aligned_field _ _ _ C Mn) as Ay.
  pose proof (round_in_family _ _ _ _ _ _ x y C K L Ax Ay Bx By) as Ic.
  exists (core.make sg ts t tsize tsize false). eexists. eexists.
  split; [ apply tilesys_of_static; trivial; now rewrite <- Tg | ].
  split; [ exact F | ].
  split.
  { unfold point2tilename, round_xy2lowerleft, _encode_tilename.
    cbn [core.tile_xsize_m core.tile_ysize_m core.sampling core.tiletype
         fst snd].
    exact (proj1 (N _ Ic)). }
  split.
  { apply in_map_iff. eexists. split; [ | exact Ic ]. reflexivity. }
  intros child Jc. apply in_map_iff in Jc. destruct Jc as (c & <- & Jc).
  exists (fst c), (snd c).
  split; [ exact (proj2 (N c Jc)) | ].
  exact (family_corner_in_source _ _ _ _ _ _ _ C K L Jc).
Qed.

Lemma family_covers_source_tile_witness :
  exists tsys names name,
    tilesys_of example_subgrid_ids 20 false "EU" = Ok tsys /\
    get_congruent_tiles_from_tilename example_subgrid_ids
      (core.make "EU" 500 "T6" 600000 600000 false) "E012N018T6"
      None (Some "T3") = Ok names /\
    point2tilename tsys 1512345 2318210 true = Ok name /\
    In name names /\
    forall child, In child names ->
      exists cx cy,
        decode_tilename tsys child = Ok ("EU", 20, 300000, cx, cy, "T3") /\
        1200000 <= cx /\ cx + 300000 <= 1200000 + 600000 /\
        1800000 <= cy /\ cy + 300000 <= 1800000 + 600000.
Proof.
  apply (family_covers_source_tile example_subgrid_ids 500 false "EU"
           (core.make "EU" 500 "T6" 600000 600000 false) "E012N018T6"
           "EU" 500 600000 1200000 1800000 "T6" None (Some "T3")
           20 "T3" 300000 1512345 2318210);
    try reflexivity; try lia.
  unfold _static_sampling. simpl. tauto.
Defined.

(** ** Errors of the family call *)

(** X13.  The order of the errors of [get_congruent_tiles_from_tilename].
    The target is examined before the name: a target sampling outside
    [_static_sampling] raises the error of an unsupported sampling, and a call
    with neither sampling nor tilecode raises [UnboundLocalError], whatever the
    name, decoded or not.  When the target stands for an enumerated sampling,
    a name that [decode_tilename] rejects makes the call raise the exception of
    [decode_tilename].  When both a sampling and a tilecode are given the
    tilecode is ignored, also a tilecode that is none of T6, T3 and T1. *)
Theorem family_tiles_errors :
  forall (ids : list string) (self : core.t) (tilename : string),
  (forall ts target_tiletype,
     ~ In ts _static_sampling ->
     get_congruent_tiles_from_tilename ids self tilename (Some ts)
       target_tiletype = Raise (ValueError msg_sampling_not_supported)) /\
  get_congruent_tiles_from_tilename ids self tilename None None
    = Raise UnboundLocalError /\
  (forall target_sampling target_tiletype ts e,
     searched_sampling target_sampling target_tiletype = Ok ts ->
     In ts _static_sampling ->
     decode_tilename self tilename = Raise e ->
     get_congruent_tiles_from_tilename ids self tilename target_sampling
       target_tiletype = Raise e) /\
  (forall ts t,
     get_congruent_tiles_from_tilename ids self tilename (Some ts) (Some t) =
     get_congruent_tiles_from_tilename ids self tilename (Some ts) None).
Proof.
  intros ids self tilename.
  split; [ | split; [ | split ] ].
  - intros ts target_tiletype N.
    unfold get_congruent_tiles_from_tilename, searched_sampling. cbn [bind].
    unfold Equi7Grid.
    destruct (existsb (Z.eqb ts) _static_sampling) eqn:X; [ | reflexivity ].
    apply static_sampling_in in X. contradiction.
  - reflexivity.
  - intros target_sampling target_tiletype ts e R S D.
    destruct (Equi7Grid_static ts false S) as (t & z & _ & _ & _ & G).
    unfold get_congruent_tiles_from_tilename.
    rewrite R. cbn [bind]. rewrite G. cbn [bind]. rewrite D. reflexivity.
  - reflexivity.
Qed.

(** ** Land coverage of a tile *)

Lemma slice7_longform (sg token : string) (llx lly : Z) (tilecode : string) :
  Py.len sg = 2 -> Py.len token = 3 ->
  Py.slice (longform sg token llx lly tilecode) (Some 7) None =
  shortname (llx / 100000) (lly / 100000) tilecode.
Proof.
  intros Lsg Lt. rewrite longform_block, shortname_block.
  set (b := fields_block _ _ _).
  replace (sg ++ token ++ String "M" (String "_" b))%string
    with ((sg ++ token ++ "M_") ++ b)%string
    by (rewrite !append_assoc; reflexivity).
  apply slice_suffix. rewrite !len_app, Lsg, Lt. reflexivity.
Qed.

Lemma str_in_other_length (x : string) (l : list string) (k : Z) :
  (forall y, In y l -> Py.len y = k) -> Py.len x <> k -> str_in x l = false.
Proof.
  intros A N. unfold str_in.
  destruct (existsb (String.eqb x) l) eqn:X; [ | reflexivity ].
  apply str_in_iff in X. apply A in X. contradiction.
Qed.

(** X14.  The land flag of a tile.  For a tile that [create_tile] built on
    the tiling system of a grid, [check_tile_covers_land] of the name of the
    tile returns the flag [covers_land] of the tile.  On a grid whose names
    are in the kilometre form, or whose sampling is below 1000, the check of
    the short name of the tile returns the same flag, which is the membership
    of the short name in the land tiles of the subgrid and tilecode.  On a
    grid whose names are in metres and whose sampling is 1000 or more, the
    long name of 18 characters is looked up instead: when the land tiles are
    names of 10 characters, the flag is [False] for every tile. *)
Theorem covers_land_of_created_tile :
  forall (ids : list string) (coverland : string -> string -> list string)
         (s : Z) (m : bool) (sg : string) (self : core.t) (tilename : string)
         (d : decoded) (t : tile.t),
  tilesys_of ids s m sg = Ok self -> two_letter sg = true ->
  decode_tilename self tilename = Ok d ->
  create_tile ids coverland self tilename = Ok t ->
  check_tile_covers_land ids coverland self (tile.name t)
    = Ok (tile.covers_land t) /\
  (m && (1000 <=? s) = false ->
     check_tile_covers_land ids coverland self (Equi7Tile_shortname t)
       = Ok (tile.covers_land t) /\
     tile.covers_land t =
       Some (str_in (Equi7Tile_shortname t)
               (coverland sg (core.tiletype self)))) /\
  (m && (1000 <=? s) = true ->
     (forall x, In x (coverland sg (core.tiletype self)) -> Py.len x = 10) ->
     tile.covers_land t = Some false).
Proof.
  intros ids coverland s m sg self tilename d t H T E K.
  pose proof (create_tile_cases ids coverland s m sg self tilename H T) as A.
  rewrite E in A.
  destruct A as (token & e & n & Enc & Fe & Fn & -> & L & S & Ds & K').
  rewrite K in K'. injection K' as ->.
  destruct (tilesys_facts _ _ _ _ _ H T) as (C & Tg & Sm & M & I & T' & _).
  assert (J : In s _static_sampling)
    by (destruct (tilesys_class_core _ _ _ _ _ H) as (_ & _ & _ & _ & J & _);
        exact J).
  pose proof (token_length m s token J Enc) as LT.
  destruct (two_letter_inv _ T) as [Lsg _].
  destruct (class_core_tiletype self C) as [LC _].
  pose proof (list_tiles_of_tilesys ids coverland self C I) as LL.
  rewrite Tg in LL.
  cbn [tile.name tile.covers_land]. unfold Equi7Tile_shortname.
  cbn [tile.name].
  split; [ | split ].
  - unfold check_tile_covers_land. rewrite LL. cbn [bind].
    unfold check_tilename at 1. rewrite L. cbn [bind]. rewrite S. reflexivity.
  - intro Q. rewrite Q in LT. rewrite LT. change (3 =? 3) with true.
    cbv iota. rewrite slice7_longform, !Z.div_mul by lia.
    split; [ | reflexivity ].
    unfold check_tile_covers_land. rewrite LL. cbn [bind].
    unfold tilename2short, check_tilename. rewrite Ds. cbn [bind].
    assert (L10 : Py.len (shortname e n (core.tiletype self)) = 10).
    { destruct (field_of_fits3 e Fe) as (Le & _).
      destruct (field_of_fits3 n Fn) as (Ln & _).
      rewrite shortname_block.
      apply (fields_block_slices _ _ _ Le Ln). unfold Py.len in LC. lia. }
    rewrite L10. reflexivity.
  - intros Q A. rewrite Q in LT. rewrite LT. change (4 =? 3) with false.
    cbv iota. f_equal. apply (str_in_other_length _ _ 10 A).
    rewrite len_longform; rewrite ?Z.div_mul by lia; trivial. lia.
Qed.

Lemma covers_land_of_created_tile_witness :
  check_tile_covers_land example_subgrid_ids example_coverland
    (core.make "EU" 500 "T6" 600000 600000 false)
    (tile.name example_tile) = Ok (tile.covers_land example_tile) /\
  check_tile_covers_land example_subgrid_ids example_coverland
    (core.make "EU" 500 "T6" 600000 600000 false)
    (Equi7Tile_shortname example_tile) = Ok (tile.covers_land example_tile).
Proof.
  pose proof (covers_land_of_created_tile example_subgrid_ids example_coverland
                500 false "EU" (core.make "EU" 500 "T6" 600000 600000 false)
                "E006N012T6" ("EU", 500, 600000, 600000, 1200000, "T6")
                example_tile eq_refl eq_refl eq_refl eq_refl) as (A & B & _).
  split; [ exact A | exact (proj1 (B eq_refl)) ].
Defined.

(** ** Pixel indices of a point of the tile *)

Lemma div_bounds (a s : Z) : 0 < s -> s * (a / s) <= a < s * (a / s) + s.
Proof.
  intro S. pose proof (Z.div_mod a s ltac:(lia)) as D.
  pose proof (Z.mod_pos_bound a s S) as M. lia.
Qed.

Lemma div_in_range (a s n : Z) :
  0 < s -> 0 <= a < n * s -> 0 <= a / s < n.
Proof.
  intros S A. pose proof (div_bounds a s S) as B. nia.
Qed.

(** The rows counted from the two edges of an extent of [n] pixels. *)
Lemma mirrored_rows (u s n : Z) :
  0 < s -> 0 <= u < n * s ->
  0 <= (n * s - u) / s <= n /\
  (u / s + (n * s - u) / s = n - 1 \/ u / s + (n * s - u) / s = n) /\
  (u / s + (n * s - u) / s = n <-> u mod s = 0) /\
  ((n * s - u) / s = n <-> u = 0).
Proof.
  intros S U.
  pose proof (div_bounds u s S) as B1.
  pose proof (div_bounds (n * s - u) s S) as B2.
  pose proof (Z.div_mod u s ltac:(lia)) as D.
  pose proof (Z.mod_pos_bound u s S) as M.
  set (a := u / s) in *. set (b := (n * s - u) / s) in *.
  assert (A0 : 0 <= a) by nia.
  assert (L : a + b <= n) by nia.
  assert (R : n < a + b + 2) by nia.
  assert (B0 : 0 <= b) by nia.
  split; [ lia | ]. split; [ lia | ]. split; [ | split ].
  - split; intro H; [ | nia ].
    assert (u <= s * a) by nia. lia.
  - intro H. nia.
  - intro H. subst u. unfold b. rewrite Z.sub_0_r. apply Z.div_mul. lia.
Qed.

(** X15.  Pixel indices of a point of the tile whose coordinates are
    integers, given as ints or as floats.  Let the sampling [s] divide the
    two extents of the tile, and let [(x, y)] lie in the tile, the west and
    south edges included.  Then [xy2ij] returns for both origins; the column
    [i] is the same for both and lies in [0, xsize / s); the row counted from
    the south edge lies in [0, ysize / s); the row counted from the north
    edge lies in [0, ysize / s], both ends included.  The two rows add up to
    [ysize / s - 1], except when [y - lly] is a multiple of the sampling,
    where they add up to [ysize / s]: for a point of the south edge, and for
    no other, the row counted from the north is [ysize / s], one past the
    last row.  The sampling is at most 10^6 and the coordinates and the
    extent at most 10^9 in absolute value. *)
Theorem xy2ij_in_tile :
  forall (t : tile.t) (x y : number) (xi yi : Z),
  0 < core.sampling (tile.core t) <= 1000000 ->
  coordinate (tile.llx t) -> coordinate (tile.lly t) ->
  coordinate (core.tile_ysize_m (tile.core t)) ->
  core.tile_xsize_m (tile.core t) mod core.sampling (tile.core t) = 0 ->
  core.tile_ysize_m (tile.core t) mod core.sampling (tile.core t) = 0 ->
  integral x xi -> integral y yi -> coordinate xi -> coordinate yi ->
  tile.llx t <= xi < tile.llx t + core.tile_xsize_m (tile.core t) ->
  tile.lly t <= yi < tile.lly t + core.tile_ysize_m (tile.core t) ->
  exists i j_south j_north,
    xy2ij t x y true = Ok (i, j_south) /\
    xy2ij t x y false = Ok (i, j_north) /\
    0 <= i < core.tile_xsize_m (tile.core t) / core.sampling (tile.core t) /\
    0 <= j_south
      < core.tile_ysize_m (tile.core t) / core.sampling (tile.core t) /\
    0 <= j_north
      <= core.tile_ysize_m (tile.core t) / core.sampling (tile.core t) /\
    (j_south + j_north
       = core.tile_ysize_m (tile.core t) / core.sampling (tile.core t) - 1 \/
     j_south + j_north
       = core.tile_ysize_m (tile.core t) / core.sampling (tile.core t)) /\
    (j_south + j_north
       = core.tile_ysize_m (tile.core t) / core.sampling (tile.core t) <->
     (yi - tile.lly t) mod core.sampling (tile.core t) = 0) /\
    (j_north = core.tile_ysize_m (tile.core t) / core.sampling (tile.core t)
       <-> yi = tile.lly t).
Proof.
  intros t x y xi yi S Cx Cy Ce Mx My X Y Bx By Ix Iy.
  rewrite !(xy2ij_value t x y xi yi _ S Cx Cy Ce X Y Bx By).
  destruct t as [c name llx lly land].
  cbn [tile.core tile.llx tile.lly] in *.
  set (s := core.sampling c) in *.
  assert (S0 : 0 < s) by lia.
  apply Z.div_exact in Mx, My; try lia.
  set (nx := core.tile_xsize_m c / s) in *.
  set (ny := core.tile_ysize_m c / s) in *.
  rewrite Mx in Ix. rewrite My in Iy. rewrite My.
  destruct (mirrored_rows (yi - lly) s ny S0 ltac:(lia))
    as (R1 & R2 & R3 & R4).
  replace (lly + s * ny - yi) with (ny * s - (yi - lly)) by ring.
  eexists _, _, _.
  split; [ reflexivity | ]. split; [ reflexivity | ].
  split; [ apply div_in_range; lia | ].
  split; [ apply div_in_range; lia | ].
  split; [ exact R1 | ]. split; [ exact R2 | ]. split; [ exact R3 | ].
  rewrite R4. lia.
Qed.

Lemma xy2ij_in_tile_witness :
  exists i j_south j_north,
    xy2ij example_tile (PyInt 600000) (PyFloat (inject_Z 1200000)) true
      = Ok (i, j_south) /\
    xy2ij example_tile (PyInt 600000) (PyFloat (inject_Z 1200000)) false
      = Ok (i, j_north) /\
    j_north = 1200.
Proof.
  destruct (xy2ij_in_tile example_tile (PyInt 600000)
              (PyFloat (inject_Z 1200000)) 600000 1200000)
    as (i & js & jn & A & B & _ & _ & _ & _ & _ & E);
    [ simpl; lia | unfold coordinate; simpl; lia
    | unfold coordinate; simpl; lia | unfold coordinate; simpl; lia
    | reflexivity | reflexivity | left; reflexivity | right; reflexivity
    | unfold coordinate; simpl; lia | unfold coordinate; simpl; lia
    | simpl; lia | simpl; lia | ].
  exists i, js, jn. split; [ exact A | ]. split; [ exact B | ].
  apply (proj2 E). reflexivity.
Defined.
